(** * messaging-contrib: the Pulsar connection, publisher and subscriber trigger

    A shallow embedding of

    - [pulsar/connection]            ([PulsarConnManager.Connect],
      [Factory.NewManager], [createTempKeystoreDir],
      [getBytesFromFileSetting], the authentication helpers,
      [PulsarConnection.GetConnection], [Stop], [ReleaseConnection]),
    - [pulsar/activity/publish]      ([New], [Activity.Eval], [Cleanup]),
    - [pulsar/trigger/subscriber]    ([Initialize], [getMaxMessageCount],
      [Start], [Stop], [Pause], [Handler.consume], [Handler.handleMessage]).

    The broker client library (apache/pulsar-client-go), the host runtime
    (project-flogo/core), the operating system and [encoding/json] are
    collaborators of the repository: their types are the fields of the
    classes [BrokerTypes], [HostTypes] and [ProducerTypes], their
    operations the fields of [Broker], [Host] and [OS], and every
    statement of the generic part holds for every implementation of them.
    Logger calls have no effect on the state and are left out.

    The goroutines of the subscriber (those running [consume], one for
    each [Start] or [Resume] and handler, one for each
    [go handler.handleMessage(msg)], and the caller of [Stop] or [Pause])
    are interleaved by a schedule, one source statement to a step; a send
    on the unbuffered channel [handler.done] and its receive are one
    step.  The host makes its calls of [Start], [Resume], [Stop] and
    [Pause] one after the other.  Two panics of the Go runtime are left
    out, both possible only once a handler has two consume goroutines at
    a time: a method call on a [handler.consumer] that the assignment of
    line 194 has made nil again, and the checks of [sync.WaitGroup] other
    than that of a negative counter. *)

From Stdlib Require Import ZArith Ascii String List Lia.
From Stdlib.Strings Require Import Byte.
From stdpp Require Import base option list gmap strings pretty.

Set Warnings "-register-all".

Open Scope string_scope.
Open Scope Z_scope.

(** ** Go values *)

(** A Go [error] is carried by its message. *)
Definition Error := string.

(** The dynamic values held by an [interface{}]: what a settings map, a
    handler's result attributes and a decoded JSON document contain. *)
Inductive Value :=
| VNil
| VBool (b : bool)
| VInt (z : Z)
| VString (s : string)
| VList (l : list Value)
| VMap (kv : list (string * Value))
| VConn (id : nat).

(** [m[k]] on a [map[string]interface{}]: a missing key reads as [nil]
    (also on a nil map), and a key may be bound to [nil]. *)
Definition index (m : gmap string Value) (k : string) : Value :=
  default VNil (m !! k).

(** [v != nil] *)
Definition not_nil (v : Value) : bool :=
  match v with VNil => false | _ => true end.

(** [v == true] for an interface value [v]: the dynamic type has to be
    [bool] and the value [true]. *)
Definition eq_true (v : Value) : bool :=
  match v with VBool true => true | _ => false end.

(** The outcome of a call that returns [(T, error)] and may panic on a
    failed single-value type assertion. *)
Inductive result (A : Type) :=
| Ok (a : A)
| Err (e : Error)
| Panic (what : string).
Arguments Ok {A} a.
Arguments Err {A} e.
Arguments Panic {A} what.

(** ** The broker client library *)

Inductive CompressionType := NoCompression | LZ4 | ZLib | ZSTD.

Inductive SubscriptionType := Exclusive | Shared | Failover | KeyShared.

Inductive SubscriptionInitialPosition :=
  SubscriptionPositionLatest | SubscriptionPositionEarliest.

Record DLQPolicy := {
  MaxDeliveries : Z;
  DeadLetterTopic : string
}.

Record ConsumerOptions := {
  co_Topic : string;
  co_SubscriptionName : string;
  co_Name : string;
  co_NackRedeliveryDelay : Z;         (* seconds; 0 is the zero value *)
  co_Type : SubscriptionType;
  co_DLQ : option DLQPolicy;
  co_SubscriptionInitialPosition : SubscriptionInitialPosition
}.

Record ProducerOptions := {
  po_Topic : string;
  po_CompressionType : CompressionType
}.

(** The zero value of [pulsar.ProducerOptions] for the fields used here:
    [NoCompression] is the first constant of its enumeration. *)
Definition ProducerOptions_with_topic (t : string) : ProducerOptions :=
  {| po_Topic := t; po_CompressionType := NoCompression |}.

(** The types of the client library that the repository holds values of. *)
Class BrokerTypes := {
  Client : Type;
  ClientOptions : Type;
  Consumer : Type
}.

Class Broker {BT : BrokerTypes} := {
  (** [pulsar.NewClient]; the first argument counts the earlier calls, so
      that the outcome may change from one call to the next. *)
  NewClient : nat -> ClientOptions -> option Client * option Error;
  (** [connMgr.GetSubscriber], declared in the connection package; again
      indexed by the number of earlier calls. *)
  GetSubscriber : nat -> ConsumerOptions -> option Consumer * option Error
}.

(** ** pulsar/connection *)

Module Connection.
Section WithBroker.
Context {BT : BrokerTypes} {BR : Broker}.

(** The part of the process state that [Connect] acts on besides its
    receiver: the [sync.RWMutex] the manager points to, and a count of the
    [pulsar.NewClient] calls made so far. *)
Record Shared := {
  mx_locked : bool;
  clients_created : nat
}.

Record PulsarConnManager := {
  pcm_Client : option Client;
  pcm_ClientOpts : ClientOptions;
  pcm_Connected : bool
}.

Definition IsConnected (p : PulsarConnManager) : bool := pcm_Connected p.

Definition set_Client (c : option Client) (p : PulsarConnManager) :=
  {| pcm_Client := c; pcm_ClientOpts := pcm_ClientOpts p;
     pcm_Connected := pcm_Connected p |}.

Definition set_Connected (b : bool) (p : PulsarConnManager) :=
  {| pcm_Client := pcm_Client p; pcm_ClientOpts := pcm_ClientOpts p;
     pcm_Connected := b |}.

Definition Lock (w : Shared) : option Shared :=
  if mx_locked w then None
  else Some {| mx_locked := true; clients_created := clients_created w |}.

Definition Unlock (w : Shared) : Shared :=
  {| mx_locked := false; clients_created := clients_created w |}.

(** [func (p *PulsarConnManager) Connect() error].  [None]: the call does
    not return, [Lock] waits for a mutex that is held. *)
Definition Connect (w : Shared) (p : PulsarConnManager)
  : option (Shared * PulsarConnManager * option Error) :=
  w ← Lock w;
  if negb (IsConnected p) then
    let '(c, err) := NewClient (clients_created w) (pcm_ClientOpts p) in
    let w := {| mx_locked := mx_locked w;
                clients_created := S (clients_created w) |} in
    let p := set_Client c p in
    match err with
    | Some e => Some (Unlock w, p, Some e)
    | None => Some (Unlock w, set_Connected true p, None)
    end
  else Some (Unlock w, set_Connected true p, None).

End WithBroker.
End Connection.

(** ** pulsar/activity/publish *)

Module Publish.
Section WithBroker.
Context {BT : BrokerTypes} {BR : Broker}.

(** [cnn.Manager]: the connection manager of this repository, or one of
    another connector. *)
Inductive Manager :=
| PulsarConnection (m : Connection.PulsarConnManager)
| OtherManager.

(** [pulsarConn.GetConnection().(connection.PulsarConnManager)] *)
Definition GetConnection (m : Manager) : result Connection.PulsarConnManager :=
  match m with
  | PulsarConnection c => Ok c
  | OtherManager => Panic "interface conversion"
  end.

(** The activity's [Settings]; only [Connection] is read by [New]. *)
Record Settings := {
  s_Connection : Value
}.

(** The host functions [New] calls. *)
Class Host := {
  (** [metadata.MapToStruct(ctx.Settings(), s, true)] *)
  MapToStruct : gmap string Value -> Settings + Error;
  (** [coerce.ToConnection] *)
  ToConnection : Value -> Manager + Error
}.
Context {HO : Host}.

Record Activity := {
  producerOpts : ProducerOptions;
  pulsarConn : Manager;
  connMgr : Connection.PulsarConnManager
}.

(** The [switch] on the compression-type string. *)
Definition compression_of (s : string) : CompressionType :=
  if String.eqb s "LZ4" then LZ4
  else if String.eqb s "ZLIB" then ZLib
  else if String.eqb s "ZSTD" then ZSTD
  else NoCompression.

Definition set_CompressionType (c : CompressionType) (o : ProducerOptions) :=
  {| po_Topic := po_Topic o; po_CompressionType := c |}.

(** [func New(ctx activity.InitContext) (activity.Activity, error)], on
    the map [ctx.Settings()]. *)
Definition New (settings : gmap string Value) : result Activity :=
  match MapToStruct settings with
  | inr err => Err err
  | inl s =>
    match ToConnection (s_Connection s) with
    | inr err => Err err
    | inl pulsarConn =>
      if negb (not_nil (index settings "topic")) then Err "no topic specified"
      else
        match index settings "topic" with
        | VString topic =>
          let producerOptions := ProducerOptions_with_topic topic in
          let with_compression :=
            if not_nil (index settings "compressionType") then
              match index settings "compressionType" with
              | VString c =>
                Ok (set_CompressionType (compression_of c) producerOptions)
              | _ => Panic "interface conversion"
              end
            else Ok producerOptions in
          match with_compression with
          | Ok producerOptions =>
            match GetConnection pulsarConn with
            | Ok connMgr =>
              Ok {| producerOpts := producerOptions;
                    pulsarConn := pulsarConn;
                    connMgr := connMgr |}
            | Err e => Err e
            | Panic p => Panic p
            end
          | Err e => Err e
          | Panic p => Panic p
          end
        | _ => Panic "interface conversion"
        end
    end
  end.

End WithBroker.
End Publish.

(** ** pulsar/trigger/subscriber *)

Module Subscriber.

Definition ProcessingModeAsync : string := "Async".

(** [pulsar.ConsumerMessage], by what [handleMessage] reads of it.
    [msg_ID] is [None] when [msg.ID()] is nil and otherwise carries the
    bytes of [msgID.Serialize()]. *)
Record Message := {
  msg_ID : option (list byte);
  msg_Payload : list byte;
  msg_Properties : gmap string string;
  msg_Topic : string;
  msg_RedeliveryCount : Z
}.

(** The trigger's [Output]. *)
Record Output := {
  Payload : Value;
  Properties : gmap string string;
  Topic : string;
  RedeliveryCount : Z;
  Msgid : string
}.

(** [context.Context], by the two things [handleMessage] puts in it. *)
Record Context (T : Type) := {
  tracing : option T;
  event_id : option string
}.
Arguments tracing {T} c.
Arguments event_id {T} c.

(** The trigger's [HandlerSettings], by the fields [Initialize] reads. *)
Record HandlerSettings := {
  hs_Topic : string;
  hs_Subscription : string;
  hs_NackRedeliveryDelay : Z;
  hs_SubscriptionType : string;
  hs_DLQTopic : string;
  hs_DLQMaxDeliveries : Z;
  hs_InitialPosition : string;
  hs_ProcessingMode : string
}.

(** The types of the host runtime that the subscriber holds values of. *)
Class HostTypes := {
  TracingContext : Type;
  (** the state of the downstream action behind [trigger.Handler] *)
  ActionState : Type
}.

(** What the subscriber takes from the host runtime, the operating
    system and [encoding/json]. *)
Class Host {HT : HostTypes} := {
  (** [json.Unmarshal(payload, &obj)] *)
  json_Unmarshal : list byte -> Value + Error;
  trace_Enabled : bool;
  (** [trace.GetTracer().Extract(trace.TextMap, props)] *)
  tracer_Extract : gmap string string -> option TracingContext;
  (** [handler.handler.Handle(ctx, out)] *)
  Handle : ActionState -> Context TracingContext -> Output ->
           ActionState * gmap string Value * option Error;
  (** [metadata.MapToStruct(handler.Settings(), s, true)] *)
  MapToStruct : gmap string Value -> HandlerSettings + Error;
  os_Hostname : string + Error;
  now_UnixMilli : Z;
  engine_GetAppName : string;
  engine_GetAppVersion : string;
  engine_GetRunnerType : string;
  engine_ValueRunnerTypePooled : string;
  engine_GetRunnerWorkers : Z
}.

(** [fmt.Sprintf("%x", bytes)]: two lower-case digits for each byte. *)
Definition hex_digit (n : N) : ascii :=
  default "0"%char (String.get (N.to_nat n) "0123456789abcdef").

Definition hex_of_byte (b : byte) : string :=
  let n := Byte.to_N b in
  String (hex_digit (n / 16)) (String (hex_digit (n mod 16)) "").

Definition hex (bs : list byte) : string :=
  fold_right (fun b s => hex_of_byte b ++ s) "" bs.

(** Conversion to a Go [int64] and to a [uint32]. *)
Definition int64 (z : Z) : Z := (z + 2^63) mod 2^64 - 2^63.
Definition uint32 (z : Z) : Z := z mod 2^32.

(** [time.Second], in nanoseconds. *)
Definition Second : Z := 1000000000.

Section WithCollaborators.
Context {BT : BrokerTypes} {BR : Broker} {HT : HostTypes} {HO : Host}.

Definition Ctx := Context TracingContext.

(** A [trigger.Handler] as [ctx.GetHandlers()] yields it: its name, its
    settings map and the action behind it. *)
Record HandlerConfig := {
  hc_Name : string;
  hc_Settings : gmap string Value;
  hc_Action : ActionState
}.

(** *** The Handler and its consume loop *)

Record Handler := {
  h_Name : string;                      (* handler.handler.Name() *)
  h_Settings : gmap string Value;       (* handler.handler.Settings() *)
  consumer : option Consumer;
  asyncMode : bool;
  maxMsgCount : Z;
  currentMsgCount : Z;
  wg : Z;                               (* the counter of the WaitGroup *)
  consumerOpts : ConsumerOptions
}.

Definition set_consumer (c : option Consumer) (h : Handler) : Handler :=
  {| h_Name := h_Name h; h_Settings := h_Settings h; consumer := c;
     asyncMode := asyncMode h; maxMsgCount := maxMsgCount h;
     currentMsgCount := currentMsgCount h; wg := wg h;
     consumerOpts := consumerOpts h |}.

Definition set_currentMsgCount (n : Z) (h : Handler) : Handler :=
  {| h_Name := h_Name h; h_Settings := h_Settings h; consumer := consumer h;
     asyncMode := asyncMode h; maxMsgCount := maxMsgCount h;
     currentMsgCount := n; wg := wg h;
     consumerOpts := consumerOpts h |}.

Definition set_wg (n : Z) (h : Handler) : Handler :=
  {| h_Name := h_Name h; h_Settings := h_Settings h; consumer := consumer h;
     asyncMode := asyncMode h; maxMsgCount := maxMsgCount h;
     currentMsgCount := currentMsgCount h; wg := n;
     consumerOpts := consumerOpts h |}.

(** The calls the worker makes on its collaborators, in the order they are
    made.  The number is the position of the message in the order of
    delivery (the first message received is number 0); it is not program
    state. *)
Inductive Event :=
| EvHandle (n : nat) (ctx : Ctx) (out : Output)   (* handler.handler.Handle *)
| EvAck (n : nat) (m : Message)                   (* handler.consumer.Ack *)
| EvNack (n : nat) (m : Message)                  (* handler.consumer.Nack *)
| EvSleep (seconds : Z)                           (* time.Sleep *)
| EvClose.                                        (* handler.consumer.Close *)

(** Where one execution of [handleMessage] stands. *)
Inductive Phase :=
| PStart                                   (* line 242, the body begins *)
| PInvoke (ctx : Ctx) (out : Output)       (* line 277, before Handle *)
| PResolve (attrs : gmap string Value) (err : option Error)  (* line 278 *)
| PDeferDone                               (* line 238, wg.Done() *)
| PDeferDecr.                              (* line 239, currentMsgCount-- *)

Record Task := {
  t_seq : nat;
  t_msg : Message;
  t_phase : Phase
}.

Definition at_phase (p : Phase) (t : Task) : Task :=
  {| t_seq := t_seq t; t_msg := t_msg t; t_phase := p |}.

(** Where the goroutine running [consume] stands. *)
Inductive MainPc :=
| MNotStarted                      (* no consume goroutine yet *)
| MConnect                         (* line 192, the test of the retry loop *)
| MSubscribe                       (* line 194, the call of GetSubscriber *)
| MAssign (c : option Consumer) (err : option Error)
                                   (* line 194, the assignment of its results *)
| MBackoff                         (* line 199, time.Sleep(60 s) *)
| MSelect                          (* line 206, the select *)
| MClosedSleep                     (* line 210, time.Sleep(1 s) *)
| MAdd (n : nat) (m : Message)     (* line 216, wg.Add(1) *)
| MIncr (n : nat) (m : Message)    (* line 217, currentMsgCount++ *)
| MGo (n : nat) (m : Message)      (* line 218, go handleMessage(msg) *)
| MCheck                           (* line 219, the threshold test *)
| MWait                            (* line 221, wg.Wait() *)
| MReset                           (* line 223, currentMsgCount = 0 *)
| MInline (t : Task)               (* line 227, handleMessage(msg) inline *)
| MReturned.                       (* line 230, return *)

(** One worker: the [Handler], the goroutines running [consume] on it,
    the goroutines started by [go handler.handleMessage(msg)], and its
    surroundings.  [Start] starts a consume goroutine whether or not one
    is running: [pc] is the program point of the first, and of the one
    that takes its place when it has returned; [extras] are the program
    points of those started while another was running.  [extras] only
    grows, so [extras w = []] says that the handler has never had two
    consume goroutines at a time. *)
Record Worker := {
  hd : Handler;
  pc : MainPc;
  extras : list MainPc;
  tasks : list Task;
  (** what [handler.consumer.Chan()] is ready to yield: [Some m] for a
      message, [None] for a receive with [ok] false *)
  chan : list (option Message);
  delivered : nat;                (* messages received so far *)
  subscribe_calls : nat;          (* GetSubscriber calls made so far *)
  action : ActionState;
  events : list Event;
  crashed : bool                  (* the process died of a panic *)
}.

Definition set_hd (h : Handler) (w : Worker) : Worker :=
  {| hd := h; pc := pc w; extras := extras w;
     tasks := tasks w; chan := chan w;
     delivered := delivered w; subscribe_calls := subscribe_calls w;
     action := action w; events := events w; crashed := crashed w |}.

Definition set_pc (p : MainPc) (w : Worker) : Worker :=
  {| hd := hd w; pc := p; extras := extras w;
     tasks := tasks w; chan := chan w;
     delivered := delivered w; subscribe_calls := subscribe_calls w;
     action := action w; events := events w; crashed := crashed w |}.

Definition set_extras (ps : list MainPc) (w : Worker) : Worker :=
  {| hd := hd w; pc := pc w; extras := ps;
     tasks := tasks w; chan := chan w;
     delivered := delivered w; subscribe_calls := subscribe_calls w;
     action := action w; events := events w; crashed := crashed w |}.

Definition set_tasks (ts : list Task) (w : Worker) : Worker :=
  {| hd := hd w; pc := pc w; extras := extras w;
     tasks := ts; chan := chan w;
     delivered := delivered w; subscribe_calls := subscribe_calls w;
     action := action w; events := events w; crashed := crashed w |}.

Definition set_chan (c : list (option Message)) (w : Worker) : Worker :=
  {| hd := hd w; pc := pc w; extras := extras w;
     tasks := tasks w; chan := c;
     delivered := delivered w; subscribe_calls := subscribe_calls w;
     action := action w; events := events w; crashed := crashed w |}.

Definition set_delivered (n : nat) (w : Worker) : Worker :=
  {| hd := hd w; pc := pc w; extras := extras w;
     tasks := tasks w; chan := chan w;
     delivered := n; subscribe_calls := subscribe_calls w;
     action := action w; events := events w; crashed := crashed w |}.

Definition set_subscribe_calls (n : nat) (w : Worker) : Worker :=
  {| hd := hd w; pc := pc w; extras := extras w;
     tasks := tasks w; chan := chan w;
     delivered := delivered w; subscribe_calls := n;
     action := action w; events := events w; crashed := crashed w |}.

Definition set_action (a : ActionState) (w : Worker) : Worker :=
  {| hd := hd w; pc := pc w; extras := extras w;
     tasks := tasks w; chan := chan w;
     delivered := delivered w; subscribe_calls := subscribe_calls w;
     action := a; events := events w; crashed := crashed w |}.

Definition emit (e : Event) (w : Worker) : Worker :=
  {| hd := hd w; pc := pc w; extras := extras w;
     tasks := tasks w; chan := chan w;
     delivered := delivered w; subscribe_calls := subscribe_calls w;
     action := action w; events := events w ++ [e]; crashed := crashed w |}.

Definition crash (w : Worker) : Worker :=
  {| hd := hd w; pc := pc w; extras := extras w;
     tasks := tasks w; chan := chan w;
     delivered := delivered w; subscribe_calls := subscribe_calls w;
     action := action w; events := events w; crashed := true |}.

(** *** handleMessage *)

Inductive Decoded :=
| DecodedAs (payload : Value)
| DecodeFailed
| DecodePanic.

(** Lines 244-256: the payload handed to the flow. *)
Definition decode (h : Handler) (m : Message) : Decoded :=
  if not_nil (index (h_Settings h) "format") then
    match index (h_Settings h) "format" with
    | VString format =>
      if String.eqb format "JSON" then
        match json_Unmarshal (msg_Payload m) with
        | inr _ => DecodeFailed
        | inl obj => DecodedAs obj
        end
      else DecodedAs (VString (string_of_list_byte (msg_Payload m)))
    | _ => DecodePanic
    end
  else DecodedAs (VString (string_of_list_byte (msg_Payload m))).

(** Lines 265-271. *)
Definition output_of (m : Message) (payload : Value) : Output :=
  {| Payload := payload;
     Properties := msg_Properties m;
     Topic := msg_Topic m;
     RedeliveryCount := msg_RedeliveryCount m;
     Msgid := match msg_ID m with Some bs => hex bs | None => "" end |}.

(** Lines 258-264 and 274-276. *)
Definition context_of (m : Message) (out : Output) : Ctx :=
  {| tracing := if trace_Enabled then tracer_Extract (msg_Properties m)
                else None;
     event_id := if String.eqb (Msgid out) "" then None
                 else Some (Msgid out) |}.

(** Leaving the body of [handleMessage]: the deferred function does
    something in Async mode only. *)
Definition leave (w : Worker) (t : Task) : Worker * option Task :=
  if asyncMode (hd w) then (w, Some (at_phase PDeferDone t)) else (w, None).

(** One step of an execution of [handleMessage]; [None] for the task when
    the function has returned.  [wg.Done()] panics when it would make the
    counter of the WaitGroup negative. *)
Definition task_step (w : Worker) (t : Task) : Worker * option Task :=
  match t_phase t with
  | PStart =>
    match decode (hd w) (t_msg t) with
    | DecodePanic => (crash w, Some t)
    | DecodeFailed => leave (emit (EvNack (t_seq t) (t_msg t)) w) t
    | DecodedAs payload =>
      let out := output_of (t_msg t) payload in
      (w, Some (at_phase (PInvoke (context_of (t_msg t) out) out) t))
    end
  | PInvoke ctx out =>
    let '(a, attrs, err) := Handle (action w) ctx out in
    (emit (EvHandle (t_seq t) ctx out) (set_action a w),
     Some (at_phase (PResolve attrs err) t))
  | PResolve attrs err =>
    match err with
    | None =>
      if not_nil (index attrs " _nack") && eq_true (index attrs " _nack")
      then leave (emit (EvNack (t_seq t) (t_msg t)) w) t
      else leave (emit (EvAck (t_seq t) (t_msg t)) w) t
    | Some _ => leave (emit (EvNack (t_seq t) (t_msg t)) w) t
    end
  | PDeferDone =>
    if (wg (hd w) <=? 0)%Z then (crash w, Some t)
    else (set_hd (set_wg (wg (hd w) - 1) (hd w)) w,
          Some (at_phase PDeferDecr t))
  | PDeferDecr =>
    (set_hd (set_currentMsgCount (int64 (currentMsgCount (hd w) - 1)) (hd w)) w,
     None)
  end.

(** [handleMessage] run from its first line to its return (or to the
    panic), with nothing else running in between. *)
Fixpoint run_task (fuel : nat) (w : Worker) (t : Task) : Worker * option Task :=
  match fuel with
  | O => (w, Some t)
  | S fuel =>
    match task_step w t with
    | (w', None) => (w', None)
    | (w', Some t') =>
      if crashed w' then (w', Some t') else run_task fuel w' t'
    end
  end.

Definition handleMessage (w : Worker) (n : nat) (msg : Message)
  : Worker * option Task :=
  run_task 5 w {| t_seq := n; t_msg := msg; t_phase := PStart |}.

(** *** consume *)

(** One step of a goroutine running [consume], the one at [pc]; [None]
    when it cannot move: it waits in the select with nothing to receive,
    it waits in [wg.Wait()], it has returned, or the process has died. *)
Definition main_step (w : Worker) : option Worker :=
  if crashed w then None else
  match pc w with
  | MNotStarted => None
  | MConnect =>
    match consumer (hd w) with
    | None => Some (set_pc MSubscribe w)
    | Some _ => Some (set_pc MSelect w)
    end
  | MSubscribe =>
    let '(c, err) := GetSubscriber (subscribe_calls w) (consumerOpts (hd w)) in
    Some (set_pc (MAssign c err)
            (set_subscribe_calls (S (subscribe_calls w)) w))
  | MAssign c err =>
    let w := set_hd (set_consumer c (hd w)) w in
    match err with
    | Some _ => Some (set_pc MBackoff w)
    | None => Some (set_pc MConnect w)
    end
  | MBackoff => Some (set_pc MConnect (emit (EvSleep 60) w))
  | MSelect =>
    match chan w with
    | [] => None
    | None :: rest => Some (set_pc MClosedSleep (set_chan rest w))
    | Some msg :: rest =>
      let n := delivered w in
      let w := set_delivered (S n) (set_chan rest w) in
      if asyncMode (hd w) then Some (set_pc (MAdd n msg) w)
      else Some (set_pc (MInline {| t_seq := n; t_msg := msg;
                                    t_phase := PStart |}) w)
    end
  | MClosedSleep => Some (set_pc MSelect (emit (EvSleep 1) w))
  | MAdd n msg =>
    Some (set_pc (MIncr n msg) (set_hd (set_wg (wg (hd w) + 1) (hd w)) w))
  | MIncr n msg =>
    Some (set_pc (MGo n msg)
            (set_hd (set_currentMsgCount
                       (int64 (currentMsgCount (hd w) + 1)) (hd w)) w))
  | MGo n msg =>
    Some (set_pc MCheck
            (set_tasks (tasks w ++ [{| t_seq := n; t_msg := msg;
                                       t_phase := PStart |}]) w))
  | MCheck =>
    if (currentMsgCount (hd w) >=? maxMsgCount (hd w))%Z
    then Some (set_pc MWait w)
    else Some (set_pc MSelect w)
  | MWait =>
    if (wg (hd w) =? 0)%Z then Some (set_pc MReset w) else None
  | MReset =>
    Some (set_pc MSelect (set_hd (set_currentMsgCount 0 (hd w)) w))
  | MInline t =>
    match task_step w t with
    | (w', None) => Some (set_pc MSelect w')
    | (w', Some t') => Some (set_pc (MInline t') w')
    end
  | MReturned => None
  end.

(** One step of the [j]-th goroutine running [handleMessage]. *)
Definition goroutine_step (j : nat) (w : Worker) : option Worker :=
  if crashed w then None else
  match tasks w !! j with
  | None => None
  | Some t =>
    match task_step w t with
    | (w', None) => Some (set_tasks (delete j (tasks w')) w')
    | (w', Some t') => Some (set_tasks (<[j := t']> (tasks w')) w')
    end
  end.

(** The case [<-handler.done] of the select, for the goroutine at [pc]:
    enabled when the goroutine is at the select; it returns. *)
Definition receive_done (w : Worker) : option Worker :=
  if crashed w then None else
  match pc w with
  | MSelect => Some (set_pc MReturned w)
  | _ => None
  end.

(** The consume goroutines of a handler run the same code on the same
    [Handler]: the [k]-th of [extras] moves as the first does, [f] being
    [main_step] or [receive_done], from its own program point. *)
Definition at_extra (f : Worker -> option Worker) (k : nat) (w : Worker)
  : option Worker :=
  p ← extras w !! k;
  w' ← f (set_pc p w);
  Some (set_extras (<[k := pc w']> (extras w')) (set_pc (pc w) w')).

(** The goroutine at this program point has been started and has not
    returned. *)
Definition active (p : MainPc) : bool :=
  match p with
  | MNotStarted | MReturned => false
  | _ => true
  end.

(** Some consume goroutine of the handler is running. *)
Definition running (w : Worker) : bool := existsb active (pc w :: extras w).

(** [go handler.consume(t.connMgr)]: a consume goroutine is started,
    whether or not one is running on the handler already. *)
Definition launch (w : Worker) : option Worker :=
  if crashed w then None
  else if active (pc w) then Some (set_extras (extras w ++ [MConnect]) w)
  else Some (set_pc MConnect w).

(** What can happen next at one worker. *)
Inductive Move :=
| Arrive (m : option Message)   (* the consumer has a delivery ready *)
| Main                          (* the consume goroutine at [pc] moves *)
| Goroutine (j : nat)           (* a handleMessage goroutine moves *)
| Launch                        (* Start or Resume starts consume *)
| Done                          (* a send on handler.done is received *)
| Close                         (* Stop closes the consumer *)
| Extra (k : nat)               (* the [k]-th of [extras] moves *)
| DoneExtra (k : nat).          (* ... receives a send on handler.done *)

Definition worker_step (mv : Move) (w : Worker) : option Worker :=
  match mv with
  | Arrive m => if crashed w then None else Some (set_chan (chan w ++ [m]) w)
  | Main => main_step w
  | Goroutine j => goroutine_step j w
  | Launch => launch w
  | Done => receive_done w
  | Close => if crashed w then None else Some (emit EvClose w)
  | Extra k => at_extra main_step k w
  | DoneExtra k => at_extra receive_done k w
  end.

(** The moves that happen by themselves; the others are made by the
    calls of [Start], [Resume], [Stop] and [Pause]. *)
Definition spontaneous (mv : Move) : bool :=
  match mv with
  | Arrive _ | Main | Goroutine _ | Extra _ => true
  | Launch | Done | Close | DoneExtra _ => false
  end.

Fixpoint run (sched : list Move) (w : Worker) : option Worker :=
  match sched with
  | [] => Some w
  | mv :: sched => w' ← worker_step mv w; run sched w'
  end.

(** The consume goroutine at [pc] waits in its select. *)
Definition at_select (w : Worker) : bool :=
  match pc w with MSelect => true | _ => false end.

(** The messages dispatched for concurrent handling and not yet
    acknowledged or negatively acknowledged. *)
Definition handling (t : Task) : bool :=
  match t_phase t with
  | PStart | PInvoke _ _ | PResolve _ _ => true
  | PDeferDone | PDeferDecr => false
  end.

Definition in_flight (w : Worker) : nat := length (filter handling (tasks w)).

(** Message number [n] has had its acknowledgement or its negative
    acknowledgement. *)
Definition resolved (n : nat) (log : list Event) : Prop :=
  exists m, EvAck n m ∈ log \/ EvNack n m ∈ log.

(** Before the handler is invoked for a message, the message before it
    has been resolved. *)
Definition one_at_a_time (log : list Event) : Prop :=
  forall pre n ctx out post,
    log = (pre ++ EvHandle (S n) ctx out :: post)%list -> resolved n pre.

(** What holds at every moment of a Sync worker that has had one consume
    goroutine at a time: its log is [one_at_a_time], it has no goroutine
    of its own, and every message it has received is resolved, but for
    the one it is handling inline. *)
Definition sync_inv (w : Worker) : Prop :=
  tasks w = [] /\
  one_at_a_time (events w) /\
  match pc w with
  | MInline t =>
    S (t_seq t) = delivered w /\ handling t = true /\
    forall n, (n < t_seq t)%nat -> resolved n (events w)
  | MAdd _ _ | MIncr _ _ | MGo _ _ | MCheck | MWait | MReset => False
  | _ => forall n, (n < delivered w)%nat -> resolved n (events w)
  end.

(** The goroutine of this task has not run its [wg.Done()] yet. *)
Definition before_Done (t : Task) : bool :=
  match t_phase t with
  | PDeferDecr => false
  | _ => true
  end.

Definition waiting_for (ts : list Task) : Z :=
  Z.of_nat (length (filter before_Done ts)).

(** The share of one goroutine in that number; [None] for a goroutine
    that has ended. *)
Definition counts (ot : option Task) : Z :=
  match ot with
  | Some t => if before_Done t then 1 else 0
  | None => 0
  end.

(** The [wg.Add(1)] of lines 216-218 whose goroutine is not started yet. *)
Definition added_not_started (p : MainPc) : Z :=
  match p with
  | MIncr _ _ | MGo _ _ => 1
  | _ => 0
  end.

(** What holds at every moment of an Async worker that has had one
    consume goroutine at a time: the WaitGroup counts the goroutines that
    have not called [Done], and between the return of [wg.Wait()] and the
    reset of the counter it is at zero. *)
Definition async_inv (w : Worker) : Prop :=
  wg (hd w) = waiting_for (tasks w) + added_not_started (pc w) /\
  match pc w with
  | MInline _ => False
  | MReset => wg (hd w) = 0
  | _ => True
  end.

(** A consume goroutine of a Sync worker is not in the Async branch. *)
Definition quiet_pc (p : MainPc) : Prop :=
  match p with
  | MInline t => handling t = true
  | MAdd _ _ | MIncr _ _ | MGo _ _ | MCheck | MWait | MReset => False
  | _ => True
  end.

(** What holds of a Sync worker, however many consume goroutines it
    has: it has no goroutine running [handleMessage], and its WaitGroup
    and its counter are as [Initialize] left them. *)
Definition sync_quiet (w : Worker) : Prop :=
  tasks w = [] /\ wg (hd w) = 0 /\ currentMsgCount (hd w) = 0 /\
  quiet_pc (pc w) /\ Forall quiet_pc (extras w).

(** Lines 192-201: the retry loop. *)
Definition in_retry_loop (p : MainPc) : bool :=
  match p with
  | MConnect | MSubscribe | MAssign _ _ | MBackoff => true
  | _ => false
  end.

(** The goroutine of [consume] is in its retry loop, or the handler has a
    consumer. *)
Definition connected_past_loop (w : Worker) : Prop :=
  in_retry_loop (pc w) = true \/ is_Some (consumer (hd w)).

(** While the handler has one consume goroutine: a call of
    [GetSubscriber] is under way, or its results are about to be
    assigned, only while the handler has no consumer. *)
Definition subscribing (w : Worker) : Prop :=
  match pc w with
  | MSubscribe | MAssign _ _ => consumer (hd w) = None
  | _ => True
  end.


(** *** The Trigger *)

(** Where a call of [Stop] or [Pause] stands. *)
Inductive CoordPc :=
| CIdle                       (* no call in progress *)
| CStopTest (i : nat)         (* line 162, handler i: consumer != nil ? *)
| CStopSend (i : nat)         (* line 163, handler.done <- true *)
| CStopClose (i : nat)        (* line 164, handler.consumer.Close() *)
| CPauseSend (i : nat)        (* line 182, handler.done <- true *)
| CReturned (err : option Error).   (* the call has returned *)

(** The [Trigger] with the goroutines of its handlers.  The connection
    manager it holds is behind [GetSubscriber]. *)
Record Trigger := {
  handlers : list Worker;
  coord : CoordPc
}.

Definition set_coord (c : CoordPc) (t : Trigger) : Trigger :=
  {| handlers := handlers t; coord := c |}.

Definition set_handler (i : nat) (w : Worker) (t : Trigger) : Trigger :=
  {| handlers := <[i := w]> (handlers t); coord := coord t |}.

Definition getMaxMessageCount : Z :=
  if String.eqb engine_GetRunnerType engine_ValueRunnerTypePooled
  then engine_GetRunnerWorkers
  else 200.

(** The [switch] of lines 99-110. *)
Definition subscription_type (s : string) : SubscriptionType :=
  if String.eqb s "Exclusive" then Exclusive
  else if String.eqb s "Shared" then Shared
  else if String.eqb s "Failover" then Failover
  else if String.eqb s "KeyShared" then KeyShared
  else Exclusive.

(** Lines 84-88. *)
Definition hostName : string :=
  match os_Hostname with
  | inl name => name
  | inr _ => pretty now_UnixMilli
  end.

(** Lines 89-122. *)
Definition consumer_options (handler : HandlerConfig) (s : HandlerSettings)
  : ConsumerOptions :=
  {| co_Topic := hs_Topic s;
     co_SubscriptionName := hs_Subscription s;
     co_Name := engine_GetAppName ++ "-" ++ engine_GetAppVersion ++ "-"
                ++ hc_Name handler ++ "-" ++ hostName;
     co_NackRedeliveryDelay :=
       if (hs_NackRedeliveryDelay s =? 0)%Z then 0
       else int64 (int64 (hs_NackRedeliveryDelay s) * Second);
     co_Type := subscription_type (hs_SubscriptionType s);
     co_DLQ :=
       if String.eqb (hs_DLQTopic s) "" then None
       else Some {| MaxDeliveries := uint32 (hs_DLQMaxDeliveries s);
                    DeadLetterTopic := hs_DLQTopic s |};
     co_SubscriptionInitialPosition :=
       if String.eqb (hs_InitialPosition s) "Latest"
       then SubscriptionPositionLatest
       else SubscriptionPositionEarliest |}.

(** Lines 127-130: the new [Handler], with no consume goroutine yet. *)
Definition new_worker (handler : HandlerConfig) (s : HandlerSettings) : Worker :=
  {| hd := {| h_Name := hc_Name handler;
              h_Settings := hc_Settings handler;
              consumer := None;
              asyncMode := String.eqb (hs_ProcessingMode s) ProcessingModeAsync;
              maxMsgCount := getMaxMessageCount;
              currentMsgCount := 0;
              wg := 0;
              consumerOpts := consumer_options handler s |};
     pc := MNotStarted;
     extras := [];
     tasks := [];
     chan := [];
     delivered := 0;
     subscribe_calls := 0;
     action := hc_Action handler;
     events := [];
     crashed := false |}.

(** [func (t *Trigger) Initialize(ctx trigger.InitContext) error], on the
    list [ctx.GetHandlers()]. *)
Fixpoint Initialize (t : Trigger) (ctx : list HandlerConfig)
  : Trigger * option Error :=
  match ctx with
  | [] => (t, None)
  | handler :: rest =>
    match MapToStruct (hc_Settings handler) with
    | inr err => (t, Some err)
    | inl s =>
      Initialize {| handlers := handlers t ++ [new_worker handler s];
                    coord := coord t |} rest
    end
  end.

(** [func (t *Trigger) Start() error]: a consume goroutine for every
    handler. *)
Definition Start (t : Trigger) : option (Trigger * option Error) :=
  hs ← mapM launch (handlers t);
  Some ({| handlers := hs; coord := coord t |}, None).

(** [func (t *Trigger) Resume() error] *)
Definition Resume (t : Trigger) : option (Trigger * option Error) := Start t.

(** One step of a call of [Stop] or [Pause]; [None] when the call cannot
    move: the send on the unbuffered channel [handler.done] completes only
    together with the receive in the select of a consume goroutine of the
    handler.  [rcv] is the move that receives: [Done] for the goroutine at
    [pc], [DoneExtra k] for the [k]-th of [extras]. *)
Definition coord_step_with (rcv : Move) (t : Trigger) : option Trigger :=
  match coord t with
  | CIdle | CReturned _ => None
  | CStopTest i =>
    match handlers t !! i with
    | None => Some (set_coord (CReturned None) t)
    | Some w =>
      match consumer (hd w) with
      | Some _ => Some (set_coord (CStopSend i) t)
      | None => Some (set_coord (CStopTest (S i)) t)
      end
    end
  | CStopSend i =>
    w ← handlers t !! i;
    w' ← worker_step rcv w;
    Some (set_coord (CStopClose i) (set_handler i w' t))
  | CStopClose i =>
    w ← handlers t !! i;
    w' ← worker_step Close w;
    Some (set_coord (CStopTest (S i)) (set_handler i w' t))
  | CPauseSend i =>
    match handlers t !! i with
    | None => Some (set_coord (CReturned None) t)
    | Some w =>
      w' ← worker_step rcv w;
      Some (set_coord (CPauseSend (S i)) (set_handler i w' t))
    end
  end.

Definition coord_step (t : Trigger) : option Trigger := coord_step_with Done t.

(** The call is at a send. *)
Definition at_send (t : Trigger) : bool :=
  match coord t with
  | CStopSend _ | CPauseSend _ => true
  | _ => false
  end.

Definition idle (t : Trigger) : bool :=
  match coord t with
  | CIdle | CReturned _ => true
  | _ => false
  end.

(** What can happen next in the process. *)
Inductive Step :=
| CallStart | CallResume | CallStop | CallPause   (* the host calls in *)
| Coord                               (* the call of Stop or Pause moves *)
| CoordExtra (k : nat)                (* its send is received by the k-th
                                         of [extras] *)
| AtWorker (i : nat) (mv : Move).     (* something moves at handler i *)

Definition step (st : Step) (t : Trigger) : option Trigger :=
  if existsb crashed (handlers t) then None else
  match st with
  | CallStart =>
    if idle t then '(t', err) ← Start t; Some (set_coord (CReturned err) t')
    else None
  | CallResume =>
    if idle t then '(t', err) ← Resume t; Some (set_coord (CReturned err) t')
    else None
  | CallStop => if idle t then Some (set_coord (CStopTest 0) t) else None
  | CallPause => if idle t then Some (set_coord (CPauseSend 0) t) else None
  | Coord => coord_step t
  | CoordExtra k =>
    if at_send t then coord_step_with (DoneExtra k) t else None
  | AtWorker i mv =>
    if spontaneous mv then
      w ← handlers t !! i;
      w' ← worker_step mv w;
      Some (set_handler i w' t)
    else None
  end.

Fixpoint steps (sched : list Step) (t : Trigger) : option Trigger :=
  match sched with
  | [] => Some t
  | st :: sched => t' ← step st t; steps sched t'
  end.

(** A step of the call with nothing else moving: a send is received by
    the goroutine at [pc] if that is at its select, and else by the first
    of [extras] that is. *)
Definition coord_alone (t : Trigger) : option Trigger :=
  match coord_step t with
  | Some t' => Some t'
  | None =>
    if at_send t then
      head (omap (fun k => coord_step_with (DoneExtra k) t)
                 (seq 0 (list_max (length ∘ extras <$> handlers t))))
    else None
  end.

(** [Stop] and [Pause] run to their return with nothing else moving:
    [None] when the call gets stuck on a send. *)
Fixpoint coord_run (fuel : nat) (t : Trigger) : option Trigger :=
  match coord t with
  | CIdle | CReturned _ => Some t
  | _ =>
    match fuel with
    | O => None
    | S fuel => t' ← coord_alone t; coord_run fuel t'
    end
  end.

Definition Stop (t : Trigger) : option Trigger :=
  coord_run (3 * length (handlers t) + 1) (set_coord (CStopTest 0) t).



End WithCollaborators.
End Subscriber.

(** ** pulsar/connection: the manager and its key material *)

Module Manager.

(** The connection [Settings]. *)
Record Settings := {
  s_URL : string;
  s_CaCert : string;
  s_CertFile : string;
  s_KeyFile : string;
  s_Auth : string;
  s_AthenzAuthentication : gmap string string;
  s_JWT : string;
  s_AllowInsecure : bool;
  s_ConnectionTimeout : Z;
  s_OperationTimeout : Z;
  s_Audience : string;
  s_PrivateKey : string;
  s_Scope : string;
  s_IssuerUrl : string
}.

(** [pulsar.Authentication], by the constructor called and its
    arguments. *)
Inductive Authentication :=
| NewAuthenticationTLS (certificatePath privateKeyPath : string)
| NewAuthenticationToken (token : string)
| NewAuthenticationAthenz (params : gmap string string)
| NewAuthenticationOAuth2 (params : gmap string string).

(** [pulsar.ClientOptions], by the fields [NewManager] sets; the
    durations are in nanoseconds. *)
Record PulsarClientOptions := {
  o_URL : string;
  o_Authentication : option Authentication;
  o_TLSValidateHostname : bool;
  o_TLSAllowInsecureConnection : bool;
  o_ConnectionTimeout : Z;
  o_OperationTimeout : Z;
  o_TLSTrustCertsFilePath : string
}.

Definition set_TLSTrustCertsFilePath (p : string) (o : PulsarClientOptions) :=
  {| o_URL := o_URL o; o_Authentication := o_Authentication o;
     o_TLSValidateHostname := o_TLSValidateHostname o;
     o_TLSAllowInsecureConnection := o_TLSAllowInsecureConnection o;
     o_ConnectionTimeout := o_ConnectionTimeout o;
     o_OperationTimeout := o_OperationTimeout o;
     o_TLSTrustCertsFilePath := p |}.

(** The directories and the files on disk. *)
Record FileSystem := {
  fs_dirs : list string;
  fs_files : gmap string (list byte)
}.

(** A call that returns, or panics. *)
Inductive Go (A : Type) :=
| Returns (a : A)
| Panics.
Arguments Returns {A} a.
Arguments Panics {A}.

(** What the connection takes from the operating system and from the
    libraries [encoding/json], [encoding/base64] and the host runtime. *)
Class OS := {
  PathSeparator : string;
  (** the directory [ioutil.TempDir(os.TempDir(), "pulsar")] makes, or
      its error *)
  temp_dir : FileSystem -> string + Error;
  (** the error of [ioutil.WriteFile(path, data, 0644)], if there is one *)
  write_error : FileSystem -> string -> option Error;
  (** [json.Unmarshal([]byte(s), &obj)] for a [map[string]interface{}] *)
  json_object : string -> gmap string Value + Error;
  (** [base64.StdEncoding.Decode]: the bytes written *)
  base64_Decode : string -> list byte + Error;
  (** [metadata.MapToStruct(settings, s, true)] *)
  MapToStruct : gmap string Value -> Settings + Error
}.

(** [strings.Index(s, sub) >= 0] and the index itself. *)
Definition strings_Index (s sub : string) : option nat := String.index 0 sub s.

(** [s[n:]] *)
Definition from (n : nat) (s : string) : string :=
  String.substring n (String.length s - n) s.

Section WithOS.
Context {OP : OS}.

Definition TempDir (fs : FileSystem) : (string + Error) * FileSystem :=
  match temp_dir fs with
  | inl d => (inl d, {| fs_dirs := d :: fs_dirs fs; fs_files := fs_files fs |})
  | inr e => (inr e, fs)
  end.

Definition WriteFile (fs : FileSystem) (path : string) (data : list byte)
  : option Error * FileSystem :=
  match write_error fs path with
  | Some e => (Some e, fs)
  | None => (None, {| fs_dirs := fs_dirs fs;
                      fs_files := <[path := data]> (fs_files fs) |})
  end.

(** The path is [dir] itself or lies below it. *)
Definition below (dir path : string) : bool :=
  String.eqb path dir || String.prefix (dir ++ PathSeparator) path.

(** Nothing changed on disk but below [dir]. *)
Definition same_outside (dir : string) (fs fs' : FileSystem) : Prop :=
  (forall d, below dir d = false -> In d (fs_dirs fs') <-> In d (fs_dirs fs)) /\
  (forall path, below dir path = false ->
     fs_files fs' !! path = fs_files fs !! path).

(** Nothing is left on disk of [dir] and below. *)
Definition nothing_below (dir : string) (fs : FileSystem) : Prop :=
  (forall d, below dir d = true -> ~ In d (fs_dirs fs)) /\
  (forall path, below dir path = true -> fs_files fs !! path = None).

Definition nothing_below_if (dir : string) (fs : FileSystem) : Prop :=
  dir <> "" -> nothing_below dir fs.

(** The setting is absent or a JSON object. *)
Definition file_value (setting : string) : Prop :=
  setting = "" \/ exists obj, json_object setting = inl obj.

(** [os.RemoveAll(dir)] *)
Definition RemoveAll (dir : string) (fs : FileSystem) : FileSystem :=
  {| fs_dirs := List.filter (fun d => negb (below dir d)) (fs_dirs fs);
     fs_files := filter (fun kv => below dir (fst kv) = false) (fs_files fs) |}.

(** [func getBytesFromFileSetting(fileSetting map[string]interface{})
    (destArray []byte, err error)]; [None] is the nil slice. *)
Definition getBytesFromFileSetting (fileSetting : gmap string Value)
  : result (option (list byte)) :=
  let header := "base64," in
  match index fileSetting "content" with
  | VString value =>
    if String.eqb value "" then Ok None
    else
      match strings_Index value header with
      | Some i =>
        let value := from (i + String.length header) value in
        match base64_Decode value with
        | inr err =>
          Err ("file based setting not base64 encoded: [" ++ err ++ "]")
        | inl destArray => Ok (Some destArray)
        end
      | None =>
        Err "internal error; file based setting not formatted correctly"
      end
  | _ => Panic "interface conversion"
  end.

(** The file at [path] holds the decoded content of the setting, when
    the setting is a file value with a content. *)
Definition holds_content (setting path : string) (fs : FileSystem) : Prop :=
  forall obj bytes,
    setting <> "" -> json_object setting = inl obj ->
    getBytesFromFileSetting obj = Ok (Some bytes) ->
    fs_files fs !! path = Some bytes.

(** One of the four blocks of [createTempKeystoreDir], lines 215-232,
    233-250, 251-268 and 269-286: they differ in the setting and in the
    file name only. *)
Inductive Staged :=
| Continue (fs : FileSystem) (flogoFileValue : bool)
| Return (fs : FileSystem) (err : Error)
| Panicked.

Definition stage (keystoreDir setting name : string)
    (fs : FileSystem) (flogoFileValue : bool) : Staged :=
  if negb (String.eqb setting "") then
    match json_object setting with
    | inr _ => Continue fs false
    | inl obj =>
      match getBytesFromFileSetting obj with
      | Panic _ => Panicked
      | Err err => Return fs err
      | Ok None => Continue fs flogoFileValue
      | Ok (Some bytes) =>
        match WriteFile fs (keystoreDir ++ PathSeparator ++ name) bytes with
        | (Some err, fs) => Return fs err
        | (None, fs) => Continue fs flogoFileValue
        end
      end
    end
  else Continue fs flogoFileValue.

Definition and_then (st : Staged) (k : FileSystem -> bool -> Staged) : Staged :=
  match st with
  | Continue fs flogoFileValue => k fs flogoFileValue
  | other => other
  end.

(** Lines 215-286: the four blocks one after the other. *)
Definition stage_all (keystoreDir : string) (s : Settings) (fs : FileSystem)
  : Staged :=
  and_then (stage keystoreDir (s_CaCert s) "cacert.pem" fs true)
    (fun fs ok =>
  and_then (stage keystoreDir (s_CertFile s) "certfile.pem" fs ok)
    (fun fs ok =>
  and_then (stage keystoreDir (s_KeyFile s) "keyfile.pem" fs ok)
    (fun fs ok =>
  stage keystoreDir (s_PrivateKey s) "privateKey.json" fs ok))).

(** The settings staged and the names of their files. *)
Definition staged_files (s : Settings) : list (string * string) :=
  [(s_CaCert s, "cacert.pem"); (s_CertFile s, "certfile.pem");
   (s_KeyFile s, "keyfile.pem"); (s_PrivateKey s, "privateKey.json")].

(** [func createTempKeystoreDir(s *Settings) (keystoreDir string, err
    error)]: the two results and the file system after the call. *)
Definition createTempKeystoreDir (s : Settings) (fs : FileSystem)
  : Go (string * option Error) * FileSystem :=
  if negb (String.eqb (s_CertFile s) "") || negb (String.eqb (s_KeyFile s) "")
     || negb (String.eqb (s_CaCert s) "") || negb (String.eqb (s_PrivateKey s) "")
  then
    match TempDir fs with
    | (inr err, fs) => (Returns ("", Some err), fs)
    | (inl keystoreDir, fs) =>
      match stage_all keystoreDir s fs with
      | Panicked => (Panics, fs)
      | Return fs err => (Returns (keystoreDir, Some err), fs)
      | Continue fs flogoFileValue =>
        if negb flogoFileValue
        then (Returns ("", None), RemoveAll keystoreDir fs)
        else (Returns (keystoreDir, None), fs)
      end
    end
  else (Returns ("", None), fs).

Definition getAthenzAuthentication (s : Settings) : option Authentication :=
  if negb (Nat.eqb (size (s_AthenzAuthentication s)) 0)
  then Some (NewAuthenticationAthenz (s_AthenzAuthentication s))
  else None.

Definition getOAuth2Authentication (s : Settings) (keystoreDir : string)
  : option Authentication :=
  Some (NewAuthenticationOAuth2
          {[ "type" := "client_credentials";
             "privateKey" := keystoreDir ++ PathSeparator ++ "privateKey.json";
             "issuerUrl" := s_IssuerUrl s;
             "audience" := s_Audience s;
             "scope" := s_Scope s ]}).

Definition getTLSAuthentication (keystoreDir : string) (s : Settings)
  : option Authentication * option Error :=
  if String.eqb keystoreDir ""
  then (Some (NewAuthenticationTLS (s_CertFile s) (s_KeyFile s)), None)
  else (Some (NewAuthenticationTLS
                (keystoreDir ++ PathSeparator ++ "certfile.pem")
                (keystoreDir ++ PathSeparator ++ "keyfile.pem")), None).

Definition getJWTAuthentication (s : Settings)
  : option Authentication * option Error :=
  (Some (NewAuthenticationToken (s_JWT s)), None).

(** Lines 72-90: the authentication for the [auth] setting. *)
Definition authentication (keystoreDir : string) (s : Settings)
  : option Authentication * option Error :=
  if String.eqb (s_Auth s) "" then (None, None)
  else if String.eqb (s_Auth s) "TLS" then getTLSAuthentication keystoreDir s
  else if String.eqb (s_Auth s) "JWT" then getJWTAuthentication s
  else if String.eqb (s_Auth s) "Athenz" then (getAthenzAuthentication s, None)
  else if String.eqb (s_Auth s) "OAuth2"
       then (getOAuth2Authentication s keystoreDir, None)
  else (None, None).

(** [time.Duration(n) * time.Second] *)
Definition seconds (n : Z) : Z :=
  Subscriber.int64 (Subscriber.int64 n * Subscriber.Second).

(** Lines 96-124: the client options. *)
Definition client_options (s : Settings) (keystoreDir : string)
    (auth : option Authentication) : PulsarClientOptions :=
  let connTimeout := s_ConnectionTimeout s in
  let connTimeout := if connTimeout <=? 0 then 30 else connTimeout in
  let opTimeout := s_OperationTimeout s in
  let opTimeout := if opTimeout <=? 0 then 30 else opTimeout in
  let clientOpts :=
    {| o_URL := s_URL s;
       o_Authentication := auth;
       o_TLSValidateHostname := false;
       o_TLSAllowInsecureConnection := s_AllowInsecure s;
       o_ConnectionTimeout := seconds connTimeout;
       o_OperationTimeout := seconds opTimeout;
       o_TLSTrustCertsFilePath := "" |} in
  if bool_decide (is_Some (strings_Index (s_URL s) "pulsar+ssl")) then
    if String.eqb keystoreDir ""
    then set_TLSTrustCertsFilePath (s_CaCert s) clientOpts
    else if negb (s_AllowInsecure s)
         then set_TLSTrustCertsFilePath
                (keystoreDir ++ PathSeparator ++ "cacert.pem") clientOpts
         else clientOpts
  else clientOpts.

Section WithClient.
Context {TClient TConsumer : Type}.

(** The client library, with the client options as [NewManager] makes
    them. *)
Definition pulsar_types : BrokerTypes :=
  Build_BrokerTypes TClient PulsarClientOptions TConsumer.

Context {BR : Broker (BT := pulsar_types)}.

Record PulsarConnection := {
  client : option TClient;
  keystoreDir : string;
  clientOpts : PulsarClientOptions;
  connected : bool
}.

(** The process state [NewManager] acts on: the disk and the count of
    [pulsar.NewClient] calls. *)
Record World := {
  disk : FileSystem;
  clients_created : nat
}.

(** The state [Connect] acts on, for a manager just made: its mutex is
    not held. *)
Definition shared_of (w : World) : Connection.Shared :=
  {| Connection.mx_locked := false;
     Connection.clients_created := clients_created w |}.

(** [Factory.NewManager(settings map[string]interface{})
    (connection.Manager, error)] *)
Definition NewManager (settings : gmap string Value) (w : World)
  : Go (option PulsarConnection * option Error) * World :=
  match MapToStruct settings with
  | inr err => (Returns (None, Some err), w)
  | inl s =>
    match createTempKeystoreDir s (disk w) with
    | (Panics, fs) =>
      (Panics, {| disk := fs; clients_created := clients_created w |})
    | (Returns (_, Some err), fs) =>
      (Returns (None, Some err),
       {| disk := fs; clients_created := clients_created w |})
    | (Returns (keystoreDir, None), fs) =>
      match authentication keystoreDir s with
      | (_, Some err) =>
        (Returns (None, Some err),
         {| disk := fs; clients_created := clients_created w |})
      | (auth, None) =>
        let clientOpts := client_options s keystoreDir auth in
        let '(client, err) :=
          NewClient (BT := pulsar_types) (clients_created w) clientOpts in
        let connected := match err with Some _ => false | None => true end in
        (Returns (Some {| client := client; keystoreDir := keystoreDir;
                          clientOpts := clientOpts; connected := connected |},
                  None),
         {| disk := fs; clients_created := S (clients_created w) |})
      end
    end
  end.

(** [func (p *PulsarConnection) GetConnection() interface{}]; the lock
    of the manager is in [Connection.Shared]. *)
Definition GetConnection (p : PulsarConnection)
  : Connection.PulsarConnManager (BT := pulsar_types) :=
  Connection.Build_PulsarConnManager (BT := pulsar_types)
    (client p) (clientOpts p) (connected p).

(** [func (p *PulsarConnection) Stop() error] *)
Definition Stop (p : PulsarConnection) (fs : FileSystem)
  : option Error * FileSystem :=
  if negb (String.eqb (keystoreDir p) "")
  then (None, RemoveAll (keystoreDir p) fs)
  else (None, fs).

(** [func (p *PulsarConnection) ReleaseConnection(connection interface{})] *)
Definition ReleaseConnection (p : PulsarConnection) (fs : FileSystem)
  : FileSystem :=
  if negb (String.eqb (keystoreDir p) "")
  then RemoveAll (keystoreDir p) fs
  else fs.

End WithClient.
End WithOS.
End Manager.

(** ** pulsar/activity/publish: Eval and Cleanup *)

Module PublishEval.

(** The types of the collaborators that [Eval] holds values of. *)
Class ProducerTypes := {
  Producer : Type;
  TracingContext : Type
}.

(** The activity's [Input] as [ctx.GetInputObject] fills it in; a field
    that is [nil] holds [VNil]. *)
Record Input := {
  in_Payload : Value;
  in_Properties : Value;
  in_Key : string
}.

(** [pulsar.ProducerMessage], by the fields [Eval] sets; [None] is the
    nil map. *)
Record ProducerMessage := {
  pm_Payload : list byte;
  pm_Properties : option (gmap string string);
  pm_Key : string
}.

Definition set_Properties (props : option (gmap string string))
    (msg : ProducerMessage) : ProducerMessage :=
  {| pm_Payload := pm_Payload msg; pm_Properties := props;
     pm_Key := pm_Key msg |}.

Definition set_Key (key : string) (msg : ProducerMessage) : ProducerMessage :=
  {| pm_Payload := pm_Payload msg; pm_Properties := pm_Properties msg;
     pm_Key := key |}.

Section WithBroker.
Context {BT : BrokerTypes} {PT : ProducerTypes}.

(** The [activity.Context] of one evaluation. *)
Record Context := {
  (** [ctx.ActivityHost().Name()] *)
  ctx_ActivityHost_Name : string;
  ctx_Name : string;
  (** the outcome of [ctx.GetInputObject(input)] *)
  ctx_Input : Input + Error;
  ctx_TracingContext : TracingContext
}.

(** The functions [Eval] calls; the conversions of [coerce.ToType] are
    followed by the type assertion of the call site. *)
Class Host := {
  (** [connMgr.GetProducer], declared in the connection package: the
      number of earlier calls, the options and their [Name] *)
  GetProducer : nat -> ProducerOptions -> string ->
                option Producer * option Error;
  os_Hostname : string + Error;
  now_UnixMilli : Z;
  engine_GetAppName : string;
  engine_GetAppVersion : string;
  (** [coerce.ToType(v, data.TypeBytes)] *)
  ToBytes : Value -> list byte + Error;
  (** [coerce.ToType(v, data.TypeParams)]; [None] is the nil map *)
  ToParams : Value -> option (gmap string string) + Error;
  (** [coerce.ToType(s, data.TypeString)] *)
  ToString : string -> string + Error;
  trace_Enabled : bool;
  (** [trace.GetTracer().Inject(tc, trace.TextMap, props)], which writes
      into the map *)
  Inject : TracingContext -> gmap string string -> gmap string string;
  (** [producer.Send]: the number of earlier sends, the producer and the
      message; the identifier comes serialized *)
  Send : nat -> Producer -> ProducerMessage ->
         option (list byte) * option Error
}.
Context {HO : Host}.

(** The [Activity] after [New], with its [producer] field and the [Name]
    of its producer options, and what has happened at the broker. *)
Record State := {
  activity : Publish.Activity;
  producer : option Producer;
  producerOpts_Name : string;
  producers_made : nat;
  sent : list (Producer * ProducerMessage);
  closed : list Producer
}.

Definition set_connMgr (c : Connection.PulsarConnManager) (st : State) : State :=
  {| activity := {| Publish.producerOpts := Publish.producerOpts (activity st);
                    Publish.pulsarConn := Publish.pulsarConn (activity st);
                    Publish.connMgr := c |};
     producer := producer st;
     producerOpts_Name := producerOpts_Name st;
     producers_made := producers_made st;
     sent := sent st;
     closed := closed st |}.

(** Lines 433-438. *)
Definition producer_name (ctx : Context) : string :=
  let hostName := match os_Hostname with
                  | inl name => name
                  | inr _ => pretty now_UnixMilli
                  end in
  engine_GetAppName ++ "-" ++ engine_GetAppVersion ++ "-"
  ++ ctx_ActivityHost_Name ctx ++ "-" ++ ctx_Name ctx ++ "-" ++ hostName.

(** Lines 432-444: the producer is made when the activity has none. *)
Definition ensure_producer (ctx : Context) (st : State)
  : State * option Error :=
  match producer st with
  | Some _ => (st, None)
  | None =>
    let name := producer_name ctx in
    let '(pr, err) :=
      GetProducer (producers_made st)
        (Publish.producerOpts (activity st)) name in
    ({| activity := activity st;
        producer := pr;
        producerOpts_Name := name;
        producers_made := S (producers_made st);
        sent := sent st;
        closed := closed st |}, err)
  end.

(** Lines 451-485: the message made of the input. *)
Definition message_of (ctx : Context) (input : Input)
  : ProducerMessage + Error :=
  match (if not_nil (in_Payload input) then ToBytes (in_Payload input)
         else inl []) with
  | inr err => inr err
  | inl msgBytes =>
    let msg := {| pm_Payload := msgBytes; pm_Properties := None;
                  pm_Key := "" |} in
    match (if not_nil (in_Properties input) then
             match ToParams (in_Properties input) with
             | inr err => inr err
             | inl props => inl (set_Properties props msg)
             end
           else inl msg) with
    | inr err => inr err
    | inl msg =>
      match (if negb (String.eqb (in_Key input) "") then
               match ToString (in_Key input) with
               | inr err => inr err
               | inl keyStr => inl (set_Key keyStr msg)
               end
             else inl msg) with
      | inr err => inr err
      | inl msg =>
        let msg := match pm_Properties msg with
                   | None => set_Properties (Some ∅) msg
                   | Some _ => msg
                   end in
        let msg := if trace_Enabled
                   then set_Properties
                          (Inject (ctx_TracingContext ctx)
                             <$> pm_Properties msg) msg
                   else msg in
        inl msg
      end
    end
  end.

(** [func (a *Activity) Eval(ctx activity.Context) (done bool, err
    error)]: the two results, the value given to
    [ctx.SetOutput("msgid", ...)] if that is called, and the state after
    the call.  A call of a method of a nil producer or of a nil message
    identifier panics. *)
Definition Eval (ctx : Context) (st : State)
  : Manager.Go (bool * option Error * option string) * State :=
  match Publish.GetConnection (Publish.pulsarConn (activity st)) with
  | Ok connMgr =>
    let st := set_connMgr connMgr st in
    match ensure_producer ctx st with
    | (st, Some err) => (Manager.Returns (false, Some err, None), st)
    | (st, None) =>
      match ctx_Input ctx with
      | inr err => (Manager.Returns (true, Some err, None), st)
      | inl input =>
        match message_of ctx input with
        | inr err => (Manager.Returns (true, Some err, None), st)
        | inl msg =>
          match producer st with
          | None => (Manager.Panics, st)
          | Some pr =>
            let '(msgID, err) := Send (length (sent st)) pr msg in
            let st := {| activity := activity st;
                         producer := producer st;
                         producerOpts_Name := producerOpts_Name st;
                         producers_made := producers_made st;
                         sent := sent st ++ [(pr, msg)];
                         closed := closed st |} in
            match err with
            | Some err =>
              (Manager.Returns
                 (true, Some ("Publisher could not send message: " ++ err),
                  None), st)
            | None =>
              match msgID with
              | None => (Manager.Panics, st)
              | Some id =>
                (Manager.Returns (true, None, Some (Subscriber.hex id)), st)
              end
            end
          end
        end
      end
    end
  | _ => (Manager.Panics, st)
  end.

(** [func (a *Activity) Cleanup() error] *)
Definition Cleanup (st : State) : option Error * State :=
  match producer st with
  | Some pr =>
    (None, {| activity := activity st;
              producer := producer st;
              producerOpts_Name := producerOpts_Name st;
              producers_made := producers_made st;
              sent := sent st;
              closed := closed st ++ [pr] |})
  | None => (None, st)
  end.

(** The calls the host makes on an activity, one after the other; [None]
    when one of them panics. *)
Inductive Call :=
| CallEval (ctx : Context)
| CallCleanup.

Definition call (c : Call) (st : State) : option State :=
  match c with
  | CallEval ctx =>
    match Eval ctx st with
    | (Manager.Returns _, st) => Some st
    | (Manager.Panics, _) => None
    end
  | CallCleanup => Some (snd (Cleanup st))
  end.

Fixpoint calls (cs : list Call) (st : State) : option State :=
  match cs with
  | [] => Some st
  | c :: cs => st ← call c st; calls cs st
  end.

(** The number of [Cleanup] calls among the calls. *)
Definition cleanups (cs : list Call) : nat :=
  length (List.filter (fun c => match c with CallCleanup => true | _ => false end) cs).

End WithBroker.
End PublishEval.

(** ** Collaborators to run the definitions on *)

Definition test_broker_types : BrokerTypes :=
  {| Client := nat; ClientOptions := string; Consumer := nat |}.

(** A broker that refuses the calls numbered below [up] and serves the
    later ones. *)
Definition refusing_broker (up : nat) : Broker (BT := test_broker_types) :=
  Build_Broker test_broker_types
    (fun n _ => if (n <? up)%nat then (None, Some "connection refused")
                else (Some n, None))
    (fun n _ => if (n <? up)%nat then (None, Some "connection refused")
                else (Some n, None)).

(** A decoder that knows the three JSON literals. *)
Definition literal_decoder (payload : list byte) : Value + Error :=
  let s := string_of_list_byte payload in
  if String.eqb s "null" then inl VNil
  else if String.eqb s "true" then inl (VBool true)
  else if String.eqb s "false" then inl (VBool false)
  else inr "invalid character".

(** An action that counts its invocations; it fails on the payload
    [fail] and asks for a negative acknowledgement on [nack]. *)
Definition counting_action (a : nat) (ctx : Subscriber.Context unit)
    (out : Subscriber.Output)
  : nat * gmap string Value * option Error :=
  match Subscriber.Payload out with
  | VString s =>
    if String.eqb s "fail" then (S a, ∅, Some "flow failed")
    else if String.eqb s "nack" then (S a, {[ " _nack" := VBool true ]}, None)
    else (S a, ∅, None)
  | _ => (S a, ∅, None)
  end.

Definition settings_decoder (m : gmap string Value)
  : Subscriber.HandlerSettings + Error :=
  match index m "topic" with
  | VString topic =>
    inl {| Subscriber.hs_Topic := topic;
           Subscriber.hs_Subscription := "sub";
           Subscriber.hs_NackRedeliveryDelay := 0;
           Subscriber.hs_SubscriptionType := "Shared";
           Subscriber.hs_DLQTopic := "";
           Subscriber.hs_DLQMaxDeliveries := 0;
           Subscriber.hs_InitialPosition := "Latest";
           Subscriber.hs_ProcessingMode :=
             match index m "processingMode" with
             | VString mode => mode
             | _ => "Sync"
             end |}
  | _ => inr "topic is required"
  end.

Definition test_host_types : Subscriber.HostTypes :=
  {| Subscriber.TracingContext := unit; Subscriber.ActionState := nat |}.

Definition test_host (runner : string) (workers : Z)
  : Subscriber.Host (HT := test_host_types) :=
  Subscriber.Build_Host test_host_types
    literal_decoder                   (* json_Unmarshal *)
    false                             (* trace_Enabled *)
    (fun _ => None)                   (* tracer_Extract *)
    counting_action                   (* Handle *)
    settings_decoder                  (* MapToStruct *)
    (inl "host")                      (* os_Hostname *)
    0                                 (* now_UnixMilli *)
    "app" "1.0.0"                     (* engine_GetAppName, _GetAppVersion *)
    runner "POOLED" workers.          (* the runner type and workers *)

Definition test_publish_host : Publish.Host (BT := test_broker_types) :=
  {| Publish.MapToStruct m :=
       match m !! "connection" with
       | Some v => inl {| Publish.s_Connection := v |}
       | None => inr "connection is required"
       end;
     Publish.ToConnection v :=
       match v with
       | VConn _ =>
         inl (Publish.PulsarConnection
                (Connection.Build_PulsarConnManager (BT := test_broker_types)
                   (Some 0%nat) "pulsar://localhost:6650" true))
       | _ => inr "unable to coerce to connection"
       end |}.

(** A handler configuration, and the trigger [Initialize] makes of one or
    of two of them in an engine with the given runner. *)
Definition test_config (name mode format : string)
  : Subscriber.HandlerConfig (HT := test_host_types) :=
  Subscriber.Build_HandlerConfig (HT := test_host_types)
    name {[ "topic" := VString "orders";
            "processingMode" := VString mode;
            "format" := VString format ]} 0%nat.

Definition no_handlers {BT : BrokerTypes} {HT : Subscriber.HostTypes}
  : Subscriber.Trigger :=
  {| Subscriber.handlers := []; Subscriber.coord := Subscriber.CIdle |}.

Definition one_handler (runner : string) (workers : Z) (mode : string)
  : Subscriber.Trigger (BT := test_broker_types) (HT := test_host_types) :=
  fst (Subscriber.Initialize (HO := test_host runner workers) no_handlers
         [test_config "orders" mode "Raw"]).


(** A worker as [Initialize] makes it from [test_config]. *)
Definition one_worker (mode format : string)
  : Subscriber.Worker (BT := test_broker_types) (HT := test_host_types) :=
  Subscriber.new_worker (HO := test_host "DIRECT" 5)
    (test_config "orders" mode format)
    {| Subscriber.hs_Topic := "orders";
       Subscriber.hs_Subscription := "sub";
       Subscriber.hs_NackRedeliveryDelay := 0;
       Subscriber.hs_SubscriptionType := "Shared";
       Subscriber.hs_DLQTopic := "";
       Subscriber.hs_DLQMaxDeliveries := 0;
       Subscriber.hs_InitialPosition := "Latest";
       Subscriber.hs_ProcessingMode := mode |}.

Definition message (payload : string) : Subscriber.Message :=
  {| Subscriber.msg_ID := Some [x08; x01];
     Subscriber.msg_Payload := list_byte_of_string payload;
     Subscriber.msg_Properties := ∅;
     Subscriber.msg_Topic := "orders";
     Subscriber.msg_RedeliveryCount := 0 |}.

(** The first worker of a trigger after a schedule. *)
Definition first_worker_after {BT : BrokerTypes} {BR : Broker}
    {HT : Subscriber.HostTypes} {HO : Subscriber.Host}
    (sched : list Subscriber.Step) (t : Subscriber.Trigger)
  : option Subscriber.Worker :=
  t' ← Subscriber.steps sched t; Subscriber.handlers t' !! 0%nat.

(** An Async worker with maximum 1: the first message is received and
    handled, its goroutine calls [wg.Done()], the consume goroutine leaves
    [wg.Wait()] and resets the counter, and only then the goroutine
    decrements the counter. *)
Definition late_decrement : list Subscriber.Step :=
  let main := Subscriber.AtWorker 0 Subscriber.Main in
  let task := Subscriber.AtWorker 0 (Subscriber.Goroutine 0) in
  [ Subscriber.CallStart; main; main; main; main;
    Subscriber.AtWorker 0 (Subscriber.Arrive (Some (message "one")));
    main; main; main; main; main;         (* select, Add, ++, go, test *)
    task; task; task;                     (* decode, Handle, Ack *)
    task;                                 (* wg.Done() *)
    main; main;                           (* Wait returns, counter = 0 *)
    task ].                               (* counter-- *)

(** An Async worker connects, receives a message and starts the
    goroutine that will handle it. *)
Definition one_dispatched (payload : string) : list Subscriber.Step :=
  let main := Subscriber.AtWorker 0 Subscriber.Main in
  [ Subscriber.CallStart; main; main; main; main;
    Subscriber.AtWorker 0 (Subscriber.Arrive (Some (message payload)));
    main; main; main; main ].             (* select, Add, ++, go *)

(** Then two more messages are received one after the other. *)
Definition two_more : list Subscriber.Step :=
  let main := Subscriber.AtWorker 0 Subscriber.Main in
  [ Subscriber.AtWorker 0 (Subscriber.Arrive (Some (message "two")));
    main; main; main; main; main;         (* select, Add, ++, go, test *)
    Subscriber.AtWorker 0 (Subscriber.Arrive (Some (message "three")));
    main; main; main; main ].             (* select, Add, ++, go *)

(** A Sync worker connects and receives two messages; the first is
    handled to its acknowledgement, then the handler is invoked for the
    second. *)
Definition two_in_a_row : list Subscriber.Step :=
  let main := Subscriber.AtWorker 0 Subscriber.Main in
  [ Subscriber.CallStart; main; main; main; main;
    Subscriber.AtWorker 0 (Subscriber.Arrive (Some (message "one")));
    Subscriber.AtWorker 0 (Subscriber.Arrive (Some (message "two")));
    main; main; main; main;               (* select, decode, Handle, Ack *)
    main; main; main ].                   (* select, decode, Handle *)

(** [Start], a [Stop] that finds the handler without a consumer, and
    [Start] again: the handler has two consume goroutines.  Both get to
    the select, each receives one of two messages, and the handler is
    invoked for both. *)
Definition started_twice : list Subscriber.Step :=
  let main := Subscriber.AtWorker 0 Subscriber.Main in
  let other := Subscriber.AtWorker 0 (Subscriber.Extra 0) in
  [ Subscriber.CallStart;
    Subscriber.CallStop; Subscriber.Coord; Subscriber.Coord;
    Subscriber.CallStart;
    main; main; main; main;               (* test, call, assignment, test *)
    other;                                (* test *)
    Subscriber.AtWorker 0 (Subscriber.Arrive (Some (message "one")));
    Subscriber.AtWorker 0 (Subscriber.Arrive (Some (message "two")));
    main; other;                          (* select, select *)
    main; main;                           (* decode, Handle *)
    other; other ].                       (* decode, Handle *)

(** [Start] twice: both consume goroutines find the handler without a
    consumer and call [GetSubscriber]; the first assigns its consumer and
    leaves the loop, then the second assigns its own. *)
Definition subscribed_twice : list Subscriber.Step :=
  let main := Subscriber.AtWorker 0 Subscriber.Main in
  let other := Subscriber.AtWorker 0 (Subscriber.Extra 0) in
  [ Subscriber.CallStart; Subscriber.CallStart;
    main; other;                          (* test, test *)
    main; other;                          (* call, call *)
    main; main;                           (* assignment, test *)
    other ].                              (* assignment *)

(** [Start] twice, with a broker that refuses the first call: the second
    goroutine makes that call, the first makes the next one, assigns its
    consumer and leaves the loop, and then the second assigns the nil
    consumer it was given with the error. *)
Definition refused_late : list Subscriber.Step :=
  let main := Subscriber.AtWorker 0 Subscriber.Main in
  let other := Subscriber.AtWorker 0 (Subscriber.Extra 0) in
  [ Subscriber.CallStart; Subscriber.CallStart;
    main; other;                          (* test, test *)
    other; main;                          (* call, call *)
    main; main;                           (* assignment, test *)
    other ].                              (* assignment *)

(** A worker whose [format] setting is a boolean. *)
Definition flagged_worker
  : Subscriber.Worker (BT := test_broker_types) (HT := test_host_types) :=
  Subscriber.new_worker (HO := test_host "DIRECT" 5)
    (Subscriber.Build_HandlerConfig (HT := test_host_types)
       "orders" {[ "topic" := VString "orders";
                   "format" := VBool true ]} 0%nat)
    {| Subscriber.hs_Topic := "orders";
       Subscriber.hs_Subscription := "sub";
       Subscriber.hs_NackRedeliveryDelay := 0;
       Subscriber.hs_SubscriptionType := "Shared";
       Subscriber.hs_DLQTopic := "";
       Subscriber.hs_DLQMaxDeliveries := 0;
       Subscriber.hs_InitialPosition := "Latest";
       Subscriber.hs_ProcessingMode := "Sync" |}.

(** A worker connects (the test of the loop, the call, the assignment,
    the test again); the trigger is stopped and started again, and the
    worker receives a message. *)
Definition connect : list Subscriber.Step :=
  let main := Subscriber.AtWorker 0 Subscriber.Main in
  [ Subscriber.CallStart; main; main; main; main ].

Definition stop_and_restart : list Subscriber.Step :=
  let main := Subscriber.AtWorker 0 Subscriber.Main in
  [ Subscriber.CallStop; Subscriber.Coord; Subscriber.Coord; Subscriber.Coord;
    Subscriber.Coord;
    Subscriber.CallStart; main;
    Subscriber.AtWorker 0 (Subscriber.Arrive (Some (message "one")));
    main; main; main; main ].


(** The collaborators of the runs below, where nothing else is said: a
    broker that serves every call, and an engine with the direct runner. *)
Definition serving_broker : Broker := refusing_broker 0.
Definition direct_host : Subscriber.Host := test_host "DIRECT" 5.

(** An operating system with [/] as path separator, where
    [ioutil.TempDir] makes [/tmp/pulsar1] and no write fails; a JSON
    decoder that reads an opening brace followed by the content of a file
    value; a base64 decoder that takes the characters as the bytes and
    fails on [!]; settings read from the keys of the map. *)
Definition setting (m : gmap string Value) (k : string) : string :=
  match index m k with VString s => s | _ => "" end.

Definition test_os : Manager.OS :=
  Manager.Build_OS "/"
    (fun _ => inl "/tmp/pulsar1")
    (fun _ _ => None)
    (fun s => match s with
              | String "{" content => inl {[ "content" := VString content ]}
              | _ => inr "invalid character"
              end)
    (fun s => if String.eqb s "!" then inr "illegal base64 data"
              else inl (list_byte_of_string s))
    (fun m => match index m "url" with
              | VString url =>
                inl {| Manager.s_URL := url;
                       Manager.s_CaCert := setting m "caCert";
                       Manager.s_CertFile := setting m "certFile";
                       Manager.s_KeyFile := setting m "keyFile";
                       Manager.s_Auth := setting m "auth";
                       Manager.s_AthenzAuthentication := ∅;
                       Manager.s_JWT := setting m "jwt";
                       Manager.s_AllowInsecure := false;
                       Manager.s_ConnectionTimeout := 0;
                       Manager.s_OperationTimeout := 0;
                       Manager.s_Audience := setting m "audience";
                       Manager.s_PrivateKey := setting m "privateKey";
                       Manager.s_Scope := setting m "scope";
                       Manager.s_IssuerUrl := setting m "issuerUrl" |}
              | _ => inr "url is required"
              end).

(** A client library that refuses the [NewClient] calls numbered below
    [up]. *)
Definition manager_broker (up : nat)
  : Broker (BT := Manager.pulsar_types (TClient := nat) (TConsumer := nat)) :=
  Build_Broker (Manager.pulsar_types (TClient := nat) (TConsumer := nat))
    (fun n _ => if (n <? up)%nat then (None, Some "connection refused")
                else (Some n, None))
    (fun n _ => if (n <? up)%nat then (None, Some "connection refused")
                else (Some n, None)).

(** Connection settings with TLS authentication: the three files as file
    values; the certificate as a path and the key as a file value; a
    certificate whose content has no [base64,]. *)
Definition file_settings : gmap string Value :=
  {[ "url" := VString "pulsar+ssl://broker:6651";
     "auth" := VString "TLS";
     "caCert" := VString "{data:;base64,CA";
     "certFile" := VString "{data:;base64,CERT";
     "keyFile" := VString "{data:;base64,KEY" ]}.

Definition mixed_settings : gmap string Value :=
  {[ "url" := VString "pulsar+ssl://broker:6651";
     "auth" := VString "TLS";
     "certFile" := VString "/etc/pulsar/cert.pem";
     "keyFile" := VString "{data:;base64,KEY" ]}.

Definition broken_settings : gmap string Value :=
  {[ "url" := VString "pulsar+ssl://broker:6651";
     "auth" := VString "TLS";
     "caCert" := VString "{data:;base64,CA";
     "certFile" := VString "{CERT" ]}.

Definition oauth_settings : gmap string Value :=
  {[ "url" := VString "pulsar://broker:6650";
     "auth" := VString "OAuth2";
     "privateKey" := VString "/etc/pulsar/key.json" ]}.

(** A process that has made no client, with [/tmp] and one file on its
    disk. *)
Definition fresh_world : Manager.World :=
  {| Manager.disk :=
       {| Manager.fs_dirs := ["/tmp"];
          Manager.fs_files := {[ "/tmp/notes" := [x01] ]} |};
     Manager.clients_created := 0 |}.

(** A host of the publish activity: [GetProducer] fails on the calls
    numbered below [up], the payload has to be a string, and a message
    with the key [reject] is not accepted by the broker. *)
Definition test_producer_types : PublishEval.ProducerTypes :=
  {| PublishEval.Producer := nat; PublishEval.TracingContext := unit |}.

Definition test_eval_host (up : nat)
  : PublishEval.Host (PT := test_producer_types) :=
  PublishEval.Build_Host (PT := test_producer_types)
    (fun n _ _ => if (n <? up)%nat then (None, Some "connection refused")
                  else (Some n, None))                  (* GetProducer *)
    (inl "host") 0 "app" "1.0.0"
    (fun v => match v with
              | VString s => inl (list_byte_of_string s)
              | _ => inr "unable to coerce to bytes"
              end)                                       (* ToBytes *)
    (fun _ => inl None)                                  (* ToParams *)
    (fun s => inl s)                                     (* ToString *)
    false (fun _ m => m)                                 (* tracing *)
    (fun _ _ msg => if String.eqb (PublishEval.pm_Key msg) "reject"
                    then (None, Some "timeout")
                    else (Some [x08; x01], None)).       (* Send *)

(** An activity as [New] makes it, and the context of an evaluation with
    a payload and a key. *)
Definition new_activity
  : PublishEval.State (BT := test_broker_types) (PT := test_producer_types) :=
  let connMgr :=
    Connection.Build_PulsarConnManager (BT := test_broker_types)
      (Some 0%nat) "pulsar://localhost:6650" true in
  {| PublishEval.activity :=
       {| Publish.producerOpts := ProducerOptions_with_topic "orders";
          Publish.pulsarConn := Publish.PulsarConnection connMgr;
          Publish.connMgr := connMgr |};
     PublishEval.producer := None;
     PublishEval.producerOpts_Name := "";
     PublishEval.producers_made := 0;
     PublishEval.sent := [];
     PublishEval.closed := [] |}.

Definition test_ctx (payload key : string)
  : PublishEval.Context (PT := test_producer_types) :=
  PublishEval.Build_Context (PT := test_producer_types)
    "flow" "publish"
    (inl {| PublishEval.in_Payload := VString payload;
            PublishEval.in_Properties := VNil;
            PublishEval.in_Key := key |})
    tt.
(** * Properties *)

(** ** The connection *)

Section ConnectionFacts.
Context {BT : BrokerTypes} {BR : Broker}.
Import Connection.

Lemma Connect_connected (w : Shared) (p : PulsarConnManager) :
  mx_locked w = false -> IsConnected p = true ->
  Connect w p = Some (w, p, None).
Proof.
  destruct w as [l n], p as [c o b]; simpl; intros -> ->.
  reflexivity.
Qed.

(** C5: [Connect] on a handle that is connected creates no client (the
    count of [NewClient] calls and the handle are unchanged) and returns
    success, and so does a second call; when the handle is not connected
    and the client creation fails, [Connect] returns that error and the
    connected flag is still false. *)
Theorem Connect_idempotent (w : Shared) (p : PulsarConnManager) :
  mx_locked w = false ->
  (IsConnected p = true ->
     Connect w p = Some (w, p, None) /\
     ('(w1, p1, _) ← Connect w p; Connect w1 p1) = Some (w, p, None)) /\
  (forall c e,
     IsConnected p = false ->
     NewClient (clients_created w) (pcm_ClientOpts p) = (c, Some e) ->
     exists w' p',
       Connect w p = Some (w', p', Some e) /\ IsConnected p' = false /\
       clients_created w' = S (clients_created w)).
Proof.
  intros Hfree; split.
  - intros Hc. rewrite (Connect_connected w p Hfree Hc); simpl.
    split; [reflexivity | exact (Connect_connected w p Hfree Hc)].
  - intros c e Hc Hnew.
    destruct w as [l n], p as [cl o b]; simpl in *; subst.
    unfold Connect; simpl. rewrite Hnew; simpl.
    eexists _, _; repeat split.
Qed.

End ConnectionFacts.

Lemma Connect_idempotent_witness :
  let B := refusing_broker 1 in
  let w := {| Connection.mx_locked := false;
              Connection.clients_created := 0 |} in
  let up := Connection.Build_PulsarConnManager (BT := test_broker_types)
              (Some 7%nat) "pulsar://localhost:6650" true in
  let down := Connection.Build_PulsarConnManager (BT := test_broker_types)
                None "pulsar://localhost:6650" false in
  Connection.Connect w up = Some (w, up, None) /\
  exists w' p',
    Connection.Connect w down = Some (w', p', Some "connection refused") /\
    Connection.IsConnected p' = false /\
    Connection.clients_created w' = 1%nat.
Proof.
  intros B w up down; split.
  - exact (proj1 (proj1 (Connect_idempotent (BR := B) w up eq_refl) eq_refl)).
  - exact (proj2 (Connect_idempotent (BR := B) w down eq_refl)
             None "connection refused" eq_refl eq_refl).
Defined.

(** ** The publisher *)

Section PublishFacts.
Context {BT : BrokerTypes} {BR : Broker} {HO : Publish.Host}.
Import Publish.

Lemma compression_of_unrecognized (c : string) :
  c <> "LZ4" -> c <> "ZLIB" -> c <> "ZSTD" ->
  compression_of c = NoCompression.
Proof.
  intros H1 H2 H3; unfold compression_of.
  apply String.eqb_neq in H1, H2, H3. rewrite H1, H2, H3. reflexivity.
Qed.

(** C9: when the compression-type setting is a string other than [LZ4],
    [ZLIB] and [ZSTD] (and the rest of the settings is what [New] needs: they
    map to the settings structure, the connection resolves to a Pulsar
    connection and a topic is given), [New] succeeds and the producer
    options carry [NoCompression]. *)
Theorem New_unrecognized_compression
    (settings : gmap string Value) (c topic : string) (s : Settings)
    (mgr : Connection.PulsarConnManager) :
  settings !! "compressionType" = Some (VString c) ->
  c <> "LZ4" -> c <> "ZLIB" -> c <> "ZSTD" ->
  MapToStruct settings = inl s ->
  ToConnection (s_Connection s) = inl (PulsarConnection mgr) ->
  settings !! "topic" = Some (VString topic) ->
  New settings =
    Ok {| producerOpts := {| po_Topic := topic;
                             po_CompressionType := NoCompression |};
          pulsarConn := PulsarConnection mgr;
          connMgr := mgr |}.
Proof.
  intros Hc H1 H2 H3 Hs Hconn Ht.
  unfold New, index. rewrite Hs, Hconn, Ht, Hc; simpl.
  rewrite (compression_of_unrecognized c H1 H2 H3). reflexivity.
Qed.

End PublishFacts.

Lemma New_unrecognized_compression_witness :
  exists act,
    Publish.New (HO := test_publish_host)
      {[ "connection" := VConn 1; "topic" := VString "orders";
         "compressionType" := VString "SNAPPY" ]} = Ok act /\
    po_CompressionType (Publish.producerOpts act) = NoCompression.
Proof.
  eexists; split.
  - apply (New_unrecognized_compression
             (HO := test_publish_host) _ "SNAPPY" "orders"
             {| Publish.s_Connection := VConn 1 |});
      solve [ reflexivity | discriminate ].
  - reflexivity.
Defined.

(** ** The subscriber: one message *)

Section SubscriberFacts.
Context {BT : BrokerTypes} {BR : Broker}
        {HT : Subscriber.HostTypes} {HO : Subscriber.Host}.
Import Subscriber.
Local Open Scope list_scope.

(** *** The further consume goroutines *)

Lemma at_extra_Some (f : Worker -> option Worker) (k : nat) (w w' : Worker) :
  at_extra f k w = Some w' ->
  exists p w1,
    extras w !! k = Some p /\ f (set_pc p w) = Some w1 /\
    w' = set_extras (<[k := pc w1]> (extras w1)) (set_pc (pc w) w1).
Proof.
  unfold at_extra. intros H.
  destruct (extras w !! k) as [p|]; [|discriminate]. cbn in H.
  destruct (f (set_pc p w)) as [w1|] eqn:Hf; [|discriminate]. cbn in H.
  simplify_eq. eauto.
Qed.

Lemma receive_done_eq (w w' : Worker) :
  receive_done w = Some w' ->
  crashed w = false /\ pc w = MSelect /\ w' = set_pc MReturned w.
Proof.
  unfold receive_done. destruct (crashed w); [discriminate|].
  destruct (pc w); try discriminate. intros; simplify_eq. auto.
Qed.

Lemma task_step_extras (w w' : Worker) (t : Task) (ot : option Task) :
  task_step w t = (w', ot) -> extras w' = extras w.
Proof.
  unfold task_step, leave.
  intros Hs; repeat case_match; simplify_eq; reflexivity.
Qed.

Lemma main_step_extras (w w' : Worker) :
  main_step w = Some w' -> extras w' = extras w.
Proof.
  unfold main_step. intros Hs.
  repeat case_match; simplify_eq; simpl;
    try reflexivity; eapply task_step_extras; eassumption.
Qed.

(** A move after which the handler has no further consume goroutine is
    a move of a handler that had none, and it is not a [Start] on a
    handler whose consume goroutine is running. *)
Lemma worker_step_single (mv : Move) (w w' : Worker) :
  worker_step mv w = Some w' -> extras w' = [] ->
  extras w = [] /\
  match mv with
  | Extra _ | DoneExtra _ => False
  | Launch => active (pc w) = false
  | _ => True
  end.
Proof.
  destruct mv; simpl.
  - case_match; intros; simplify_eq; auto.
  - intros Hs He. rewrite <- (main_step_extras _ _ Hs). auto.
  - unfold goroutine_step. intros Hs He.
    repeat case_match; simplify_eq; simpl in *; split; auto;
      match goal with
      | Ht : task_step _ _ = _ |- _ =>
        rewrite <- (task_step_extras _ _ _ _ Ht); assumption
      end.
  - unfold launch. intros Hs He.
    destruct (crashed w); [discriminate|].
    destruct (active (pc w)); simplify_eq; simpl in *; auto.
    destruct (extras w); discriminate.
  - intros Hs He. apply receive_done_eq in Hs as (_ & _ & ->). auto.
  - case_match; intros; simplify_eq; auto.
  - intros Hs He. apply at_extra_Some in Hs as (p & w1 & Hk & Hf & ->).
    exfalso. cbn [extras set_extras] in He.
    apply main_step_extras in Hf. cbn [extras set_pc] in Hf. rewrite Hf in He.
    apply (f_equal length) in He. rewrite length_insert in He.
    apply lookup_lt_Some in Hk. simpl in He. lia.
  - intros Hs He. apply at_extra_Some in Hs as (p & w1 & Hk & Hf & ->).
    exfalso. cbn [extras set_extras] in He.
    apply receive_done_eq in Hf as (_ & _ & ->). cbn [extras set_pc] in He.
    apply (f_equal length) in He. rewrite length_insert in He.
    apply lookup_lt_Some in Hk. simpl in He. lia.
Qed.





(** ** The subscriber: the in-flight maximum *)

Lemma task_step_maxMsgCount (w w' : Worker) (t : Task) (ot : option Task) :
  task_step w t = (w', ot) -> maxMsgCount (hd w') = maxMsgCount (hd w).
Proof.
  unfold task_step, leave.
  intros Hs; repeat case_match; simplify_eq; reflexivity.
Qed.

Lemma main_step_maxMsgCount (w w' : Worker) :
  main_step w = Some w' -> maxMsgCount (hd w') = maxMsgCount (hd w).
Proof.
  unfold main_step. intros Hs.
  repeat case_match; simplify_eq; simpl;
    try reflexivity; eapply task_step_maxMsgCount; eassumption.
Qed.

Lemma worker_step_maxMsgCount (mv : Move) (w w' : Worker) :
  worker_step mv w = Some w' -> maxMsgCount (hd w') = maxMsgCount (hd w).
Proof.
  destruct mv; simpl.
  - case_match; intros; simplify_eq; reflexivity.
  - apply main_step_maxMsgCount.
  - unfold goroutine_step. intros Hs.
    repeat case_match; simplify_eq; simpl;
      eapply task_step_maxMsgCount; eassumption.
  - unfold launch. intros; repeat case_match; simplify_eq; reflexivity.
  - unfold receive_done. intros; repeat case_match; simplify_eq; reflexivity.
  - case_match; intros; simplify_eq; reflexivity.
  - intros Hs. apply at_extra_Some in Hs as (p & w1 & _ & Hf & ->).
    exact (main_step_maxMsgCount _ _ Hf).
  - intros Hs. apply at_extra_Some in Hs as (p & w1 & _ & Hf & ->).
    apply receive_done_eq in Hf as (_ & _ & ->). reflexivity.
Qed.

Lemma insert_maxMsgCount (hs : list Worker) (i : nat) (w w' : Worker) :
  hs !! i = Some w -> maxMsgCount (hd w') = maxMsgCount (hd w) ->
  (fun w => maxMsgCount (hd w)) <$> <[i := w']> hs
  = (fun w => maxMsgCount (hd w)) <$> hs.
Proof.
  intros Hi Hm. rewrite list_fmap_insert, Hm.
  apply list_insert_id. rewrite list_lookup_fmap, Hi. reflexivity.
Qed.

Lemma mapM_launch_maxMsgCount (hs hs' : list Worker) :
  mapM launch hs = Some hs' ->
  (fun w => maxMsgCount (hd w)) <$> hs' = (fun w => maxMsgCount (hd w)) <$> hs.
Proof.
  intros Hm. apply mapM_Some in Hm.
  induction Hm as [|w w' hs hs' Hl _ IH]; [reflexivity|].
  simpl. f_equal; [|exact IH].
  exact (worker_step_maxMsgCount Launch w w' Hl).
Qed.

Lemma coord_step_maxMsgCount (rcv : Move) (t t' : Trigger) :
  coord_step_with rcv t = Some t' ->
  (fun w => maxMsgCount (hd w)) <$> handlers t'
  = (fun w => maxMsgCount (hd w)) <$> handlers t.
Proof.
  unfold coord_step_with. intros Hs.
  destruct (coord t) as [|i|i|i|i|e]; try discriminate.
  - repeat case_match; simplify_eq; reflexivity.
  - destruct (handlers t !! i) as [w|] eqn:Hi; [|discriminate]; cbn [mbind option_bind] in Hs.
    destruct (worker_step rcv w) as [w'|] eqn:Hw; [|discriminate].
    cbn [mbind option_bind] in Hs. simplify_eq; simpl. eapply insert_maxMsgCount; [eassumption|].
    eapply worker_step_maxMsgCount; eassumption.
  - destruct (handlers t !! i) as [w|] eqn:Hi; [|discriminate]; cbn [mbind option_bind] in Hs.
    destruct (worker_step Close w) as [w'|] eqn:Hw; [|discriminate].
    cbn [mbind option_bind] in Hs. simplify_eq; simpl. eapply insert_maxMsgCount; [eassumption|].
    eapply worker_step_maxMsgCount; eassumption.
  - destruct (handlers t !! i) as [w|] eqn:Hi; [|simplify_eq; reflexivity].
    cbn [mbind option_bind] in Hs.
    destruct (worker_step rcv w) as [w'|] eqn:Hw; [|discriminate].
    cbn [mbind option_bind] in Hs. simplify_eq; simpl. eapply insert_maxMsgCount; [eassumption|].
    eapply worker_step_maxMsgCount; eassumption.
Qed.

Lemma step_maxMsgCount (st : Step) (t t' : Trigger) :
  step st t = Some t' ->
  (fun w => maxMsgCount (hd w)) <$> handlers t'
  = (fun w => maxMsgCount (hd w)) <$> handlers t.
Proof.
  unfold step. case_match; [discriminate|].
  destruct st; unfold Resume, Start; intros Hs.
  - repeat case_match; simplify_option_eq.
    apply mapM_launch_maxMsgCount; assumption.
  - repeat case_match; simplify_option_eq.
    apply mapM_launch_maxMsgCount; assumption.
  - case_match; simplify_eq; reflexivity.
  - case_match; simplify_eq; reflexivity.
  - eapply coord_step_maxMsgCount; eassumption.
  - case_match; [|discriminate].
    eapply coord_step_maxMsgCount; eassumption.
  - case_match; simplify_option_eq.
    eapply insert_maxMsgCount; [eassumption|].
    eapply worker_step_maxMsgCount; eassumption.
Qed.

Lemma steps_maxMsgCount (sched : list Step) (t t' : Trigger) :
  steps sched t = Some t' ->
  (fun w => maxMsgCount (hd w)) <$> handlers t'
  = (fun w => maxMsgCount (hd w)) <$> handlers t.
Proof.
  revert t; induction sched as [|st sched IH]; simpl; intros t Hs.
  - congruence.
  - destruct (step st t) as [t1|] eqn:H1; simpl in Hs; [|discriminate].
    rewrite (IH _ Hs). eapply step_maxMsgCount; eassumption.
Qed.

Lemma Initialize_handlers (ctx : list HandlerConfig) (t : Trigger) :
  exists new,
    handlers (fst (Initialize t ctx)) = (handlers t ++ new)%list /\
    Forall (fun w => maxMsgCount (hd w) = getMaxMessageCount) new.
Proof.
  revert t; induction ctx as [|handler rest IH]; intros t; simpl.
  - exists []. rewrite app_nil_r. split; [reflexivity | constructor].
  - destruct (MapToStruct (hc_Settings handler)) as [s|err]; simpl.
    + destruct (IH {| handlers := handlers t ++ [new_worker handler s];
                      coord := coord t |}) as (new & Hh & Hall).
      exists (new_worker handler s :: new). split.
      * rewrite Hh; simpl. rewrite <- app_assoc. reflexivity.
      * constructor; [reflexivity | exact Hall].
    + exists []. rewrite app_nil_r. split; [reflexivity | constructor].
Qed.

Lemma Initialize_length (ctx : list HandlerConfig) (t : Trigger) :
  snd (Initialize t ctx) = None ->
  length (handlers (fst (Initialize t ctx)))
  = (length (handlers t) + length ctx)%nat.
Proof.
  revert t; induction ctx as [|handler rest IH]; intros t; simpl.
  - intros _. lia.
  - destruct (MapToStruct (hc_Settings handler)) as [s|err]; simpl.
    + intros Hn. rewrite (IH _ Hn). simpl. rewrite length_app. simpl. lia.
    + discriminate.
Qed.

Lemma Initialize_no_error (ctx : list HandlerConfig) (t : Trigger) :
  Forall (fun handler => exists s, MapToStruct (hc_Settings handler) = inl s)
         ctx ->
  snd (Initialize t ctx) = None.
Proof.
  intros Hall. revert t.
  induction Hall as [|handler rest [s Hs] _ IH]; intros t; simpl.
  - reflexivity.
  - rewrite Hs. apply IH.
Qed.

(** C10: every handler made by [Initialize] has as its maximum the number
    of runner workers when the runner type of the engine is the pooled
    one, and 200 for any other runner type; no step of the trigger
    changes the maximum of a handler afterwards.  These handlers are
    there: when [Initialize] returns no error it has made one for each
    configuration, and it returns no error when the settings of every
    configuration map to [HandlerSettings]. *)
Theorem maxMsgCount_fixed_by_Initialize
    (t : Trigger) (ctx : list HandlerConfig) :
  Forall (fun w =>
            (engine_GetRunnerType = engine_ValueRunnerTypePooled ->
             maxMsgCount (hd w) = engine_GetRunnerWorkers) /\
            (engine_GetRunnerType <> engine_ValueRunnerTypePooled ->
             maxMsgCount (hd w) = 200))
         (drop (length (handlers t)) (handlers (fst (Initialize t ctx)))) /\
  (forall sched t',
     steps sched (fst (Initialize t ctx)) = Some t' ->
     (fun w => maxMsgCount (hd w)) <$> handlers t'
     = (fun w => maxMsgCount (hd w)) <$> handlers (fst (Initialize t ctx))) /\
  (snd (Initialize t ctx) = None ->
   length (handlers (fst (Initialize t ctx)))
   = (length (handlers t) + length ctx)%nat) /\
  (Forall (fun handler => exists s, MapToStruct (hc_Settings handler) = inl s)
          ctx ->
   snd (Initialize t ctx) = None).
Proof.
  split; [|split; [|split]].
  - destruct (Initialize_handlers ctx t) as (new & Hh & Hall).
    rewrite Hh, drop_app_length.
    eapply Forall_impl; [exact Hall|].
    intros w Hw; simpl in Hw. rewrite Hw. unfold getMaxMessageCount.
    destruct (String.eqb_spec engine_GetRunnerType engine_ValueRunnerTypePooled);
      split; intros; congruence.
  - intros sched t'. apply steps_maxMsgCount.
  - apply Initialize_length.
  - apply Initialize_no_error.
Qed.

(** ** The subscriber: the retry loop *)

Lemma task_step_consumer (w w' : Worker) (t : Task) (ot : option Task) :
  task_step w t = (w', ot) ->
  consumer (hd w') = consumer (hd w) /\ pc w' = pc w.
Proof.
  unfold task_step, leave.
  intros Hs; repeat case_match; simplify_eq; split; reflexivity.
Qed.

Lemma main_step_connected (w w' : Worker) :
  main_step w = Some w' ->
  connected_past_loop w -> connected_past_loop w'.
Proof.
  unfold connected_past_loop, main_step. intros Hs HI.
  repeat case_match; simplify_eq; simpl; auto;
    try (destruct HI as [?|?]; (discriminate || auto; fail));
    match goal with
    | Ht : task_step _ _ = _ |- _ =>
      destruct (task_step_consumer _ _ _ _ Ht) as [Hc _]; rewrite Hc;
      destruct HI as [?|?]; (discriminate || auto)
    end.
Qed.

Lemma worker_step_connected (mv : Move) (w w' : Worker) :
  worker_step mv w = Some w' -> extras w' = [] ->
  connected_past_loop w -> connected_past_loop w'.
Proof.
  intros Hs He. destruct (worker_step_single mv w w' Hs He) as [_ Hmv].
  revert Hs. unfold connected_past_loop.
  destruct mv; simpl; try contradiction.
  - case_match; intros; simplify_eq; assumption.
  - apply main_step_connected.
  - unfold goroutine_step. intros Hs HI.
    repeat case_match; simplify_eq; simpl;
      match goal with
      | Ht : task_step _ _ = _ |- _ =>
        destruct (task_step_consumer _ _ _ _ Ht) as [Hc Hp]; rewrite Hc, Hp;
        exact HI
      end.
  - unfold launch. rewrite Hmv. case_match; intros; simplify_eq; simpl; auto.
  - intros Hs HI. apply receive_done_eq in Hs as (_ & Hpc & ->); simpl.
    rewrite Hpc in HI. destruct HI as [?|?]; [discriminate | auto].
  - case_match; intros; simplify_eq; assumption.
Qed.

Lemma run_single (sched : list Move) (w w' : Worker) :
  run sched w = Some w' -> extras w' = [] -> extras w = [].
Proof.
  revert w; induction sched as [|mv sched IH]; simpl; intros w Hr He.
  - congruence.
  - destruct (worker_step mv w) as [w1|] eqn:H1; simpl in Hr; [|discriminate].
    exact (proj1 (worker_step_single mv w w1 H1 (IH w1 Hr He))).
Qed.

Lemma run_connected (sched : list Move) (w w' : Worker) :
  run sched w = Some w' -> extras w' = [] ->
  connected_past_loop w -> connected_past_loop w'.
Proof.
  revert w; induction sched as [|mv sched IH]; simpl; intros w Hr He HI.
  - congruence.
  - destruct (worker_step mv w) as [w1|] eqn:H1; simpl in Hr; [|discriminate].
    eapply IH; [eassumption | exact He |].
    eapply worker_step_connected; [eassumption | | exact HI].
    eapply run_single; eassumption.
Qed.

Lemma run_app (l1 l2 : list Move) (w : Worker) :
  run (l1 ++ l2) w = run l1 w ≫= run l2.
Proof.
  revert w; induction l1 as [|mv l1 IH]; intros w; simpl; [reflexivity|].
  destruct (worker_step mv w); simpl; [apply IH | reflexivity].
Qed.

(** One round of the retry loop: the test, the call, the assignment and
    the sleep. *)
Lemma retry_once (w : Worker) (e : Error) :
  crashed w = false -> pc w = MConnect -> consumer (hd w) = None ->
  GetSubscriber (subscribe_calls w) (consumerOpts (hd w)) = (None, Some e) ->
  run [Main; Main; Main; Main] w =
    Some (set_pc MConnect
            (emit (EvSleep 60)
               (set_hd (set_consumer None (hd w))
                  (set_subscribe_calls (S (subscribe_calls w)) w)))).
Proof.
  intros Hc Hpc Hcons He.
  set (w1 := set_pc MSubscribe w).
  set (w2 := set_pc (MAssign None (Some e))
               (set_subscribe_calls (S (subscribe_calls w)) w1)).
  set (w3 := set_pc MBackoff (set_hd (set_consumer None (hd w2)) w2)).
  assert (H1 : main_step w = Some w1)
    by (unfold main_step; rewrite Hc, Hpc, Hcons; reflexivity).
  assert (H2 : main_step w1 = Some w2)
    by (unfold main_step; subst w1; simpl; rewrite Hc, He; reflexivity).
  assert (H3 : main_step w2 = Some w3)
    by (unfold main_step; subst w2 w1; simpl; rewrite Hc; reflexivity).
  cbn [run worker_step]. rewrite H1. cbn [mbind option_bind].
  rewrite H2. cbn [mbind option_bind]. rewrite H3. cbn [mbind option_bind].
  unfold main_step; subst w3 w2 w1; simpl. rewrite Hc. reflexivity.
Qed.

Lemma retry_rounds (k : nat) (w : Worker) :
  crashed w = false -> pc w = MConnect -> consumer (hd w) = None ->
  (forall i, (i < k)%nat ->
     exists e, GetSubscriber (subscribe_calls w + i) (consumerOpts (hd w))
               = (None, Some e)) ->
  exists w',
    run (concat (replicate k [Main; Main; Main; Main])) w = Some w' /\
    crashed w' = false /\ pc w' = MConnect /\ consumer (hd w') = None /\
    consumerOpts (hd w') = consumerOpts (hd w) /\
    subscribe_calls w' = (subscribe_calls w + k)%nat /\
    events w' = (events w ++ replicate k (EvSleep 60))%list.
Proof.
  revert w; induction k as [|k IH]; intros w Hc Hpc Hcons Hfail.
  - exists w; simpl. rewrite Nat.add_0_r, app_nil_r. repeat split; assumption.
  - destruct (Hfail 0%nat ltac:(lia)) as [e He]. rewrite Nat.add_0_r in He.
    change (concat (replicate (S k) [Main; Main; Main; Main]))
      with ([Main; Main; Main; Main]
            ++ concat (replicate k [Main; Main; Main; Main]))%list.
    rewrite run_app, (retry_once w e Hc Hpc Hcons He).
    cbn [mbind option_bind].
    match goal with |- context [run _ ?w1] => set (w1' := w1) end.
    destruct (IH w1') as (w' & Hrun & Hc' & Hpc' & Hcons' & Hopts & Hcalls & Hev).
    + exact Hc.
    + reflexivity.
    + reflexivity.
    + intros i Hi. destruct (Hfail (S i) ltac:(lia)) as [e' He'].
      exists e'. subst w1'; simpl.
      replace (S (subscribe_calls w + i)) with (subscribe_calls w + S i)%nat
        by lia.
      exact He'.
    + exists w'. split; [exact Hrun|].
      repeat split; try assumption.
      * rewrite Hcalls. subst w1'; simpl. lia.
      * rewrite Hev. subst w1'; simpl. rewrite <- app_assoc. reflexivity.
Qed.

(** C7: while [GetSubscriber] fails, the worker tries again after a sleep
    of 60 seconds, for any number of failures in a row: after [k] failed
    attempts (the test of the loop, the call, the assignment of its
    results and the sleep, [k] times) it has slept [k] times 60 seconds,
    is back at the test of the loop and has not died; whatever happens,
    the consume goroutine of a handler that has had no second one is past
    the loop only with a consumer; and for any consume goroutine, the
    only step out of the loop is the test of the loop finding a consumer
    in the handler. *)
Theorem consume_retries_forever (w : Worker) (k : nat) :
  crashed w = false -> pc w = MConnect -> consumer (hd w) = None ->
  (forall i, (i < k)%nat ->
     exists e, GetSubscriber (subscribe_calls w + i) (consumerOpts (hd w))
               = (None, Some e)) ->
  (exists w',
     run (concat (replicate k [Main; Main; Main; Main])) w = Some w' /\
     crashed w' = false /\ pc w' = MConnect /\ consumer (hd w') = None /\
     subscribe_calls w' = (subscribe_calls w + k)%nat /\
     events w' = (events w ++ replicate k (EvSleep 60))%list) /\
  (forall sched w',
     run sched w = Some w' -> extras w' = [] ->
     in_retry_loop (pc w') = true \/ is_Some (consumer (hd w'))) /\
  (forall w0 w1,
     main_step w0 = Some w1 ->
     in_retry_loop (pc w0) = true -> in_retry_loop (pc w1) = false ->
     pc w0 = MConnect /\ is_Some (consumer (hd w0)) /\
     pc w1 = MSelect /\ hd w1 = hd w0).
Proof.
  intros Hc Hpc Hcons Hfail; split; [|split].
  - destruct (retry_rounds k w Hc Hpc Hcons Hfail)
      as (w' & Hrun & Hc' & Hpc' & Hcons' & _ & Hcalls & Hev).
    exists w'. repeat split; assumption.
  - intros sched w' Hrun He.
    apply (run_connected sched w w' Hrun He). left. rewrite Hpc. reflexivity.
  - intros w0 w1 Hs Hin Hout. unfold main_step in Hs.
    destruct (crashed w0); [discriminate|].
    destruct (pc w0) eqn:Ep; try discriminate;
      repeat case_match; simplify_eq; simpl in *; try discriminate.
    repeat split; eauto.
Qed.

(** ** The trigger: Stop and Pause *)








(** A consume goroutine that has returned, or was never started, takes
    no step and receives nothing. *)
Lemma stopped_no_step (w : Worker) :
  active (pc w) = false -> main_step w = None /\ receive_done w = None.
Proof.
  unfold main_step, receive_done.
  destruct (crashed w); [auto|]. destruct (pc w); try discriminate; auto.
Qed.

Lemma not_running (w : Worker) :
  running w = false <->
  active (pc w) = false /\ forall k p, extras w !! k = Some p -> active p = false.
Proof.
  unfold running. cbn [existsb]. rewrite orb_false_iff.
  split; intros [Hp He]; (split; [exact Hp|]).
  - intros k p Hk. destruct (active p) eqn:Ea; [|reflexivity].
    rewrite <- He. symmetry. apply existsb_exists. exists p.
    split; [|exact Ea]. apply list_elem_of_In. eapply list_elem_of_lookup_2.
    exact Hk.
  - destruct (existsb active (extras w)) eqn:Ex; [|reflexivity].
    apply existsb_exists in Ex as (p & Hin & Ea).
    apply list_elem_of_In, list_elem_of_lookup_1 in Hin as [k Hk].
    rewrite (He k p Hk) in Ea. discriminate.
Qed.






(** ** The subscriber: Sync mode *)

Lemma resolved_app (n : nat) (l l' : list Event) :
  resolved n l -> resolved n (l ++ l').
Proof.
  intros [m Hm]. exists m. rewrite !elem_of_app. tauto.
Qed.

Lemma resolved_ack (n : nat) (m : Message) (l : list Event) :
  resolved n (l ++ [EvAck n m]).
Proof.
  exists m. left. apply elem_of_app. right. apply list_elem_of_singleton.
  reflexivity.
Qed.

Lemma resolved_nack (n : nat) (m : Message) (l : list Event) :
  resolved n (l ++ [EvNack n m]).
Proof.
  exists m. right. apply elem_of_app. right. apply list_elem_of_singleton.
  reflexivity.
Qed.

(** A split of [l ++ [e]] at an event is a split of [l], or the event is
    [e] itself. *)
Lemma snoc_split (l pre post : list Event) (e x : Event) :
  (l ++ [e] = pre ++ x :: post)%list ->
  (post = [] /\ pre = l /\ x = e) \/
  (exists post', post = post' ++ [e] /\ l = pre ++ x :: post')%list.
Proof.
  destruct post as [|p post _] using rev_ind; intros Heq.
  - left. apply app_inj_tail in Heq. destruct Heq; subst; auto.
  - right. exists post.
    rewrite app_comm_cons, app_assoc in Heq.
    apply app_inj_tail in Heq. destruct Heq; subst; auto.
Qed.

Lemma one_at_a_time_other (l : list Event) (e : Event) :
  one_at_a_time l ->
  (forall n ctx out, e <> EvHandle (S n) ctx out) ->
  one_at_a_time (l ++ [e]).
Proof.
  intros Hl He pre n ctx out post Heq.
  apply snoc_split in Heq. destruct Heq as [(_ & _ & Hx)|(post' & _ & Hl')].
  - exfalso. eapply He; eauto.
  - eapply Hl; eassumption.
Qed.

Lemma one_at_a_time_handle (l : list Event) (n : nat) (ctx : Ctx) (out : Output) :
  one_at_a_time l ->
  (forall n', (n' < n)%nat -> resolved n' l) ->
  one_at_a_time (l ++ [EvHandle n ctx out]).
Proof.
  intros Hl Hres pre n' ctx' out' post Heq.
  apply snoc_split in Heq. destruct Heq as [(_ & -> & Hx)|(post' & _ & Hl')].
  - inversion Hx; subst. apply Hres. lia.
  - eapply Hl; eassumption.
Qed.

Lemma task_step_asyncMode (w w' : Worker) (t : Task) (ot : option Task) :
  task_step w t = (w', ot) -> asyncMode (hd w') = asyncMode (hd w).
Proof.
  unfold task_step, leave.
  intros Hs; repeat case_match; simplify_eq; reflexivity.
Qed.

Lemma main_step_asyncMode (w w' : Worker) :
  main_step w = Some w' -> asyncMode (hd w') = asyncMode (hd w).
Proof.
  unfold main_step. intros Hs.
  repeat case_match; simplify_eq; simpl;
    try reflexivity; eapply task_step_asyncMode; eassumption.
Qed.

Lemma worker_step_asyncMode (mv : Move) (w w' : Worker) :
  worker_step mv w = Some w' -> asyncMode (hd w') = asyncMode (hd w).
Proof.
  destruct mv; simpl.
  - case_match; intros; simplify_eq; reflexivity.
  - apply main_step_asyncMode.
  - unfold goroutine_step. intros Hs.
    repeat case_match; simplify_eq; simpl;
      eapply task_step_asyncMode; eassumption.
  - unfold launch. intros; repeat case_match; simplify_eq; reflexivity.
  - unfold receive_done. intros; repeat case_match; simplify_eq; reflexivity.
  - case_match; intros; simplify_eq; reflexivity.
  - intros Hs. apply at_extra_Some in Hs as (p & w1 & _ & Hf & ->).
    exact (main_step_asyncMode _ _ Hf).
  - intros Hs. apply at_extra_Some in Hs as (p & w1 & _ & Hf & ->).
    apply receive_done_eq in Hf as (_ & _ & ->). reflexivity.
Qed.

(** One step of [handleMessage] inline, in Sync mode. *)
Lemma inline_step_sync (w w' : Worker) (t : Task) (ot : option Task) :
  asyncMode (hd w) = false ->
  task_step w t = (w', ot) ->
  handling t = true ->
  one_at_a_time (events w) ->
  (forall n, (n < t_seq t)%nat -> resolved n (events w)) ->
  tasks w' = tasks w /\ delivered w' = delivered w /\
  one_at_a_time (events w') /\
  match ot with
  | Some t' =>
    t_seq t' = t_seq t /\ handling t' = true /\
    forall n, (n < t_seq t)%nat -> resolved n (events w')
  | None => forall n, (n < S (t_seq t))%nat -> resolved n (events w')
  end.
Proof.
  intros Hsync Hs Hh Hone Hres.
  assert (Hlast : forall (e : Event) n,
             resolved (t_seq t) (events w ++ [e]) ->
             (n < S (t_seq t))%nat -> resolved n (events w ++ [e])).
  { intros e n Hr Hn. destruct (decide (n = t_seq t)) as [->|Hne];
      [exact Hr | apply resolved_app, Hres; lia]. }
  unfold task_step, leave in Hs. destruct t as [n m ph]; simpl in *.
  destruct ph; try discriminate.
  - (* PStart *)
    destruct (decode (hd w) m); simpl in Hs.
    + simplify_eq; simpl. repeat split; auto.
    + rewrite Hsync in Hs. simplify_eq; simpl. repeat split.
      * apply one_at_a_time_other; [assumption | discriminate].
      * intros n'. apply Hlast. apply resolved_nack.
    + simplify_eq; simpl. repeat split; auto.
  - (* PInvoke *)
    destruct (Handle (action w) ctx out) as [[a attrs] err].
    simplify_eq; simpl. repeat split.
    + apply one_at_a_time_handle; assumption.
    + intros n' Hn'. apply resolved_app, Hres; assumption.
  - (* PResolve *)
    destruct err as [e|];
      [|destruct (not_nil (index attrs " _nack") &&
                  eq_true (index attrs " _nack"))];
      simpl in Hs; rewrite Hsync in Hs; simplify_eq; simpl; repeat split;
      try (apply one_at_a_time_other; [assumption | discriminate]);
      intros n'; apply Hlast;
      first [apply resolved_nack | apply resolved_ack].
Qed.

Lemma main_step_sync (w w' : Worker) :
  main_step w = Some w' ->
  asyncMode (hd w) = false -> sync_inv w -> sync_inv w'.
Proof.
  unfold sync_inv. intros Hs Hsync (Htasks & Hone & Hpc).
  unfold main_step in Hs.
  destruct (crashed w); [discriminate|].
  destruct (pc w) eqn:Epc; try discriminate; try contradiction.
  - (* MConnect *)
    repeat case_match; simplify_eq; simpl; auto.
  - (* MSubscribe *)
    repeat case_match; simplify_eq; simpl; auto.
  - (* MAssign *)
    repeat case_match; simplify_eq; simpl; auto.
  - (* MBackoff *)
    simplify_eq; simpl. repeat split; auto.
    + apply one_at_a_time_other; [assumption | discriminate].
    + intros n Hn. apply resolved_app, Hpc, Hn.
  - (* MSelect *)
    destruct (chan w) as [|[msg|] rest]; [discriminate| |].
    + simpl in Hs. rewrite Hsync in Hs. simplify_eq; simpl.
      repeat split; auto.
    + simplify_eq; simpl. auto.
  - (* MClosedSleep *)
    simplify_eq; simpl. repeat split; auto.
    + apply one_at_a_time_other; [assumption | discriminate].
    + intros n Hn. apply resolved_app, Hpc, Hn.
  - (* MInline *)
    destruct Hpc as (Hseq & Hh & Hres).
    destruct (task_step w t) as [w1 ot] eqn:Ht.
    destruct (inline_step_sync w w1 t ot Hsync Ht Hh Hone Hres)
      as (Ht1 & Hd1 & Hone1 & Hot).
    destruct ot as [t'|]; simplify_eq; simpl.
    + destruct Hot as (Hseq' & Hh' & Hres').
      repeat split; try congruence; auto.
      intros n Hn. apply Hres'. congruence.
    + repeat split; try congruence; auto.
      intros n Hn. apply Hot. lia.
Qed.

(** A move of a Sync worker that has had one consume goroutine at a
    time. *)
Lemma worker_step_sync (mv : Move) (w w' : Worker) :
  worker_step mv w = Some w' -> extras w' = [] ->
  asyncMode (hd w) = false -> sync_inv w -> sync_inv w'.
Proof.
  intros Hs He Hsync HI.
  destruct (worker_step_single mv w w' Hs He) as [_ Hmv].
  destruct mv; simpl in Hs; try contradiction.
  - (* Arrive *)
    destruct HI as (Htasks & Hone & Hpc).
    destruct (crashed w); [discriminate|]. simplify_eq; simpl.
    unfold sync_inv; simpl. auto.
  - (* Main *)
    eapply main_step_sync; eassumption.
  - (* Goroutine: a Sync worker has none *)
    destruct HI as (Htasks & Hone & Hpc).
    unfold goroutine_step in Hs. rewrite Htasks in Hs.
    destruct (crashed w); discriminate.
  - (* Launch *)
    destruct HI as (Htasks & Hone & Hpc).
    unfold launch in Hs. rewrite Hmv in Hs.
    destruct (crashed w); [discriminate|]. unfold sync_inv.
    destruct (pc w); simpl in Hmv; try discriminate; simplify_eq; simpl; auto.
  - (* Done *)
    destruct HI as (Htasks & Hone & Hpc).
    apply receive_done_eq in Hs as (_ & Hsel & ->). unfold sync_inv; simpl.
    rewrite Hsel in Hpc. auto.
  - (* Close *)
    destruct HI as (Htasks & Hone & Hpc).
    destruct (crashed w); [discriminate|]. simplify_eq.
    unfold sync_inv; simpl.
    repeat split; auto.
    + apply one_at_a_time_other; [assumption | discriminate].
    + destruct (pc w); try contradiction;
        try (intros n Hn; apply resolved_app, Hpc, Hn).
      destruct Hpc as (? & ? & Hres). repeat split; auto.
      intros n Hn; apply resolved_app, Hres, Hn.
Qed.

(** *** From one worker to the trigger *)

Section Lifting.
Variable P : Worker -> Prop.
Hypothesis P_step :
  forall mv w w', worker_step mv w = Some w' -> P w -> P w'.

Lemma mapM_launch_Forall (hs hs' : list Worker) :
  mapM launch hs = Some hs' -> Forall P hs -> Forall P hs'.
Proof.
  intros Hm. apply mapM_Some in Hm.
  induction Hm as [|w w' hs hs' Hl _ IH]; intros Hall; [constructor|].
  inversion Hall; subst. constructor; [|auto].
  apply (P_step Launch w w' Hl). assumption.
Qed.

Lemma insert_Forall (mv : Move) (hs : list Worker) (i : nat) (w w' : Worker) :
  hs !! i = Some w -> worker_step mv w = Some w' ->
  Forall P hs -> Forall P (<[i := w']> hs).
Proof.
  intros Hi Hs Hall. apply Forall_insert; [assumption|].
  apply (P_step mv w w' Hs).
  eapply Forall_lookup_1; eassumption.
Qed.

Lemma coord_step_Forall (rcv : Move) (t t' : Trigger) :
  coord_step_with rcv t = Some t' ->
  Forall P (handlers t) -> Forall P (handlers t').
Proof.
  unfold coord_step_with. intros Hs Hall.
  destruct (coord t) as [|i|i|i|i|e]; try discriminate.
  - repeat case_match; simplify_eq; assumption.
  - destruct (handlers t !! i) as [w|] eqn:Hi; [|discriminate].
    cbn [mbind option_bind] in Hs.
    destruct (worker_step rcv w) as [w'|] eqn:Hw; [|discriminate].
    cbn [mbind option_bind] in Hs. simplify_eq; simpl.
    eapply insert_Forall; eassumption.
  - destruct (handlers t !! i) as [w|] eqn:Hi; [|discriminate].
    cbn [mbind option_bind] in Hs.
    destruct (worker_step Close w) as [w'|] eqn:Hw; [|discriminate].
    cbn [mbind option_bind] in Hs. simplify_eq; simpl.
    eapply insert_Forall; eassumption.
  - destruct (handlers t !! i) as [w|] eqn:Hi; [|simplify_eq; assumption].
    destruct (worker_step rcv w) as [w'|] eqn:Hw; [|discriminate].
    cbn [mbind option_bind] in Hs. simplify_eq; simpl.
    eapply insert_Forall; eassumption.
Qed.

Lemma step_Forall (st : Step) (t t' : Trigger) :
  step st t = Some t' -> Forall P (handlers t) -> Forall P (handlers t').
Proof.
  unfold step. destruct (existsb crashed (handlers t)); [discriminate|].
  destruct st; unfold Resume, Start; intros Hs Hall.
  - destruct (idle t); [|discriminate].
    destruct (mapM launch (handlers t)) as [hs|] eqn:Hm; [|discriminate].
    cbn in Hs. simplify_eq; simpl. eapply mapM_launch_Forall; eassumption.
  - destruct (idle t); [|discriminate].
    destruct (mapM launch (handlers t)) as [hs|] eqn:Hm; [|discriminate].
    cbn in Hs. simplify_eq; simpl. eapply mapM_launch_Forall; eassumption.
  - destruct (idle t); simplify_eq; assumption.
  - destruct (idle t); simplify_eq; assumption.
  - eapply coord_step_Forall; eassumption.
  - destruct (at_send t); [|discriminate].
    eapply coord_step_Forall; eassumption.
  - destruct (spontaneous mv); [|discriminate].
    destruct (handlers t !! i) as [w|] eqn:Hi; [|discriminate].
    cbn [mbind option_bind] in Hs.
    destruct (worker_step mv w) as [w'|] eqn:Hw; [|discriminate].
    cbn [mbind option_bind] in Hs. simplify_eq; simpl.
    eapply insert_Forall; eassumption.
Qed.

Lemma steps_Forall (sched : list Step) (t t' : Trigger) :
  steps sched t = Some t' -> Forall P (handlers t) -> Forall P (handlers t').
Proof.
  revert t; induction sched as [|st sched IH]; simpl; intros t Hs Hall.
  - congruence.
  - destruct (step st t) as [t1|] eqn:H1; simpl in Hs; [|discriminate].
    eapply IH; [eassumption|]. eapply step_Forall; eassumption.
Qed.

Lemma Initialize_Forall (ctx : list HandlerConfig) (t : Trigger) :
  (forall handler s, P (new_worker handler s)) ->
  Forall P (handlers t) -> Forall P (handlers (fst (Initialize t ctx))).
Proof.
  intros Hnew. revert t; induction ctx as [|handler rest IH]; intros t Hall;
    simpl; [assumption|].
  destruct (MapToStruct (hc_Settings handler)) as [s|err]; simpl; [|assumption].
  apply IH; simpl. apply Forall_app. split; [assumption|].
  constructor; [apply Hnew | constructor].
Qed.

End Lifting.

Lemma new_worker_sync_inv (handler : HandlerConfig) (s : HandlerSettings) :
  sync_inv (new_worker handler s).
Proof.
  unfold sync_inv; simpl. repeat split.
  - intros pre n ctx out post Heq. destruct pre; discriminate.
  - intros n Hn; lia.
Qed.

(** C2 as the code has it: for a trigger set up by [Initialize],
    whatever the host, the broker and the scheduler do, in the log of a
    Sync worker that has had one consume goroutine at a time ([Start] or
    [Resume] was never called while a consume goroutine of the handler
    was running) the handler is invoked for the message after message [n]
    only after message [n] has been acknowledged or negatively
    acknowledged. *)
Theorem sync_one_message_at_a_time
    (ctx : list HandlerConfig) (sched : list Step) (t' : Trigger)
    (i : nat) (w : Worker)
    (pre post : list Event) (n : nat) (c : Ctx) (out : Output) :
  steps sched (fst (Initialize {| handlers := []; coord := CIdle |} ctx))
    = Some t' ->
  handlers t' !! i = Some w ->
  asyncMode (hd w) = false ->
  extras w = [] ->
  events w = pre ++ EvHandle (S n) c out :: post ->
  exists m, EvAck n m ∈ pre \/ EvNack n m ∈ pre.
Proof.
  intros Hsteps Hi Hsync Hone1 Hlog.
  assert (Hall : Forall (fun w => extras w = [] ->
                                  asyncMode (hd w) = false -> sync_inv w)
                        (handlers t')).
  { eapply steps_Forall; [|eassumption|].
    - intros mv w0 w1 Hstep HP He Hs1.
      pose proof (worker_step_asyncMode mv w0 w1 Hstep) as Ha.
      destruct (worker_step_single mv w0 w1 Hstep He) as [He0 _].
      eapply worker_step_sync; [eassumption | exact He | congruence |].
      apply HP; [exact He0 | congruence].
    - apply Initialize_Forall; [|constructor].
      intros handler s _ _. apply new_worker_sync_inv. }
  pose proof (Forall_lookup_1 _ _ _ _ Hall Hi Hone1 Hsync) as (_ & Hone & _).
  exact (Hone pre n c out post Hlog).
Qed.

(** ** More on handleMessage *)



(** X2: A [format] setting that is neither absent nor a string makes the type
    assertion of line 245 panic, for every message: the message is
    neither acknowledged nor negatively acknowledged and the handler is
    not invoked. *)
Theorem handleMessage_format_panic
    (w : Worker) (n : nat) (msg : Message) (v : Value) :
  crashed w = false ->
  h_Settings (hd w) !! "format" = Some v ->
  v <> VNil -> (forall s, v <> VString s) ->
  exists w' t,
    handleMessage w n msg = (w', Some t) /\
    crashed w' = true /\ events w' = events w /\ action w' = action w.
Proof.
  intros Hc Hf Hnil Hstr.
  assert (Hdec : decode (hd w) msg = DecodePanic).
  { unfold decode, index. rewrite Hf; simpl.
    destruct v; simpl; try reflexivity; [congruence | exfalso; eapply Hstr; eauto]. }
  unfold handleMessage.
  cbn [run_task]. unfold task_step at 1. cbn [t_phase t_msg t_seq at_phase].
  rewrite Hdec. cbn [crash crashed].
  eexists _, _. repeat split.
Qed.

(** ** The subscriber: the WaitGroup of an Async worker *)

Lemma waiting_for_nonneg (l : list Task) : 0 <= waiting_for l.
Proof. unfold waiting_for. lia. Qed.

Lemma waiting_for_app (l1 l2 : list Task) :
  waiting_for (l1 ++ l2) = waiting_for l1 + waiting_for l2.
Proof.
  unfold waiting_for. rewrite filter_app, length_app. lia.
Qed.

Lemma waiting_for_cons (t : Task) (l : list Task) :
  waiting_for (t :: l) = counts (Some t) + waiting_for l.
Proof.
  unfold waiting_for, counts. destruct (before_Done t) eqn:Hb.
  - rewrite filter_cons_True by (rewrite Hb; exact I). simpl length. lia.
  - rewrite filter_cons_False by (rewrite Hb; exact id). lia.
Qed.

Lemma waiting_for_insert (l : list Task) (j : nat) (t t' : Task) :
  l !! j = Some t ->
  waiting_for (<[j := t']> l) = waiting_for l - counts (Some t) + counts (Some t').
Proof.
  intros Hj.
  rewrite insert_take_drop by (eapply lookup_lt_Some; eassumption).
  rewrite <- (take_drop_middle l j t Hj) at 3.
  rewrite !waiting_for_app, !waiting_for_cons. lia.
Qed.

Lemma waiting_for_delete (l : list Task) (j : nat) (t : Task) :
  l !! j = Some t ->
  waiting_for (delete j l) = waiting_for l - counts (Some t).
Proof.
  intros Hj. rewrite delete_take_drop.
  rewrite <- (take_drop_middle l j t Hj) at 3.
  rewrite !waiting_for_app, !waiting_for_cons. lia.
Qed.

Lemma waiting_for_ge (l : list Task) (j : nat) (t : Task) :
  l !! j = Some t -> counts (Some t) <= waiting_for l.
Proof.
  intros Hj. rewrite <- (take_drop_middle l j t Hj).
  rewrite waiting_for_app, waiting_for_cons.
  pose proof (waiting_for_nonneg (take j l)).
  pose proof (waiting_for_nonneg (drop (S j) l)). lia.
Qed.

(** One step of a goroutine of an Async worker moves the WaitGroup and
    the goroutine's share in it together. *)
Lemma task_step_async (w w' : Worker) (t : Task) (ot : option Task) :
  asyncMode (hd w) = true ->
  task_step w t = (w', ot) ->
  pc w' = pc w /\ tasks w' = tasks w /\
  wg (hd w') - counts ot = wg (hd w) - counts (Some t) /\
  0 <= counts ot <= counts (Some t).
Proof.
  intros Ha Hs. unfold task_step, leave in Hs.
  destruct t as [n m ph]; unfold counts, before_Done; simpl in *.
  destruct ph.
  - destruct (decode (hd w) m); simpl in Hs; try rewrite Ha in Hs;
      simplify_eq; simpl; repeat split; lia.
  - destruct (Handle (action w) ctx out) as [[a attrs] err].
    simplify_eq; simpl; repeat split; lia.
  - destruct err as [e|];
      [|destruct (not_nil (index attrs " _nack") &&
                  eq_true (index attrs " _nack"))];
      simpl in Hs; rewrite Ha in Hs; simplify_eq; simpl; repeat split; lia.
  - destruct (wg (hd w) <=? 0); simplify_eq; simpl; repeat split; lia.
  - simplify_eq; simpl; repeat split; lia.
Qed.

Lemma worker_step_async (mv : Move) (w w' : Worker) :
  worker_step mv w = Some w' -> extras w' = [] ->
  asyncMode (hd w) = true -> async_inv w -> async_inv w'.
Proof.
  unfold async_inv. intros Hs He Ha (Hwg & Hpc).
  destruct (worker_step_single mv w w' Hs He) as [He0 Hmv].
  destruct mv; simpl in Hs; try contradiction.
  - (* Arrive *)
    destruct (crashed w); [discriminate|]. simplify_eq; simpl. auto.
  - (* Main *)
    unfold main_step in Hs.
    destruct (crashed w); [discriminate|].
    destruct (pc w) eqn:Epc; try discriminate; try contradiction;
      simpl in Hwg.
    + repeat case_match; simplify_eq; simpl; split; auto; lia.
    + repeat case_match; simplify_eq; simpl; split; auto; lia.
    + repeat case_match; simplify_eq; simpl; split; auto; lia.
    + simplify_eq; simpl. split; auto; lia.
    + destruct (chan w) as [|[msg|] rest]; [discriminate| |].
      * simpl in Hs. rewrite Ha in Hs. simplify_eq; simpl. split; auto; lia.
      * simplify_eq; simpl. split; auto; lia.
    + simplify_eq; simpl. split; auto; lia.
    + simplify_eq; simpl. split; auto; lia.
    + simplify_eq; simpl. split; auto; lia.
    + simplify_eq; simpl. split; auto.
      rewrite waiting_for_app, waiting_for_cons.
      change (waiting_for []) with 0. simpl. lia.
    + destruct (currentMsgCount (hd w) >=? maxMsgCount (hd w));
        simplify_eq; simpl; split; auto; lia.
    + destruct (wg (hd w) =? 0) eqn:E0; [|discriminate].
      simplify_eq; simpl. split; [lia | lia].
    + simplify_eq; simpl. split; auto; lia.
  - (* Goroutine *)
    unfold goroutine_step in Hs.
    destruct (crashed w); [discriminate|].
    destruct (tasks w !! j) as [t|] eqn:Hj; [|discriminate].
    destruct (task_step w t) as [w1 ot] eqn:Ht.
    destruct (task_step_async w w1 t ot Ha Ht) as (Hp1 & Ht1 & Hw1 & Hc0).
    pose proof (waiting_for_ge _ _ _ Hj) as Hge.
    assert (Hadd : 0 <= added_not_started (pc w))
      by (destruct (pc w); simpl; lia).
    destruct ot as [t'|]; simplify_eq; cbn [tasks pc hd set_tasks];
      rewrite Hp1, Ht1.
    + rewrite (waiting_for_insert _ _ _ t' Hj). split; [lia|].
      destruct (pc w) eqn:Epc; auto. simpl in *; lia.
    + change (counts None) with 0 in *.
      rewrite (waiting_for_delete _ _ _ Hj). split; [lia|].
      destruct (pc w) eqn:Epc; auto. simpl in *; lia.
  - (* Launch *)
    unfold launch in Hs.
    destruct (crashed w); [discriminate|]. rewrite Hmv in Hs.
    destruct (pc w); simpl in Hmv; try discriminate; simplify_eq; simpl in *;
      split; auto.
  - (* Done *)
    unfold receive_done in Hs.
    destruct (crashed w); [discriminate|].
    destruct (pc w); try discriminate; simplify_eq; simpl in *; split; auto.
  - (* Close *)
    destruct (crashed w); [discriminate|]. simplify_eq; simpl. auto.
Qed.

Lemma waiting_for_zero (l : list Task) :
  waiting_for l = 0 -> Forall (fun t => t_phase t = PDeferDecr) l.
Proof.
  induction l as [|t l IH]; intros H0; [constructor|].
  rewrite waiting_for_cons in H0.
  pose proof (waiting_for_nonneg l).
  unfold counts, before_Done in H0.
  destruct (t_phase t) eqn:Ep; try lia.
  constructor; [assumption | apply IH; lia].
Qed.

Lemma in_flight_done (l : list Task) :
  Forall (fun t => t_phase t = PDeferDecr) l ->
  length (filter handling l) = 0%nat.
Proof.
  induction 1 as [|t l Ht _ IH]; [reflexivity|].
  rewrite filter_cons_False; [exact IH|].
  unfold handling. rewrite Ht. exact id.
Qed.

(** X3: In an Async worker of a trigger set up by [Initialize] that has
    had one consume goroutine at a time, on every schedule and as long as
    no [handleMessage] has panicked: the WaitGroup counter is the number
    of dispatched goroutines that have not called [wg.Done()] (plus one
    between [wg.Add(1)] and the [go] statement), so it is never negative
    and it is positive whenever a goroutine has its [wg.Done()] still to
    run: [Done] never panics; and once [wg.Wait()] has returned, until
    the counter is reset, every dispatched message has had its
    acknowledgement or negative acknowledgement: no message is in
    flight. *)
Theorem async_waitgroup_counts_goroutines
    (ctx : list HandlerConfig) (sched : list Step) (t' : Trigger)
    (i : nat) (w : Worker) :
  steps sched (fst (Initialize {| handlers := []; coord := CIdle |} ctx))
    = Some t' ->
  handlers t' !! i = Some w ->
  asyncMode (hd w) = true ->
  crashed w = false ->
  extras w = [] ->
  wg (hd w) = waiting_for (tasks w) + added_not_started (pc w) /\
  0 <= wg (hd w) /\
  (forall j t, tasks w !! j = Some t -> before_Done t = true ->
               0 < wg (hd w)) /\
  (pc w = MReset ->
   in_flight w = 0%nat /\ Forall (fun t => t_phase t = PDeferDecr) (tasks w)).
Proof.
  intros Hsteps Hi Ha _ Hone.
  assert (Hall : Forall (fun w => extras w = [] ->
                                  asyncMode (hd w) = true -> async_inv w)
                        (handlers t')).
  { eapply steps_Forall; [|eassumption|].
    - intros mv w0 w1 Hstep HP He Ha1.
      pose proof (worker_step_asyncMode mv w0 w1 Hstep) as Heq.
      destruct (worker_step_single mv w0 w1 Hstep He) as [He0 _].
      eapply worker_step_async; [eassumption | exact He | congruence |].
      apply HP; [exact He0 | congruence].
    - apply Initialize_Forall; [|constructor].
      intros handler s _ _. split; reflexivity. }
  pose proof (Forall_lookup_1 _ _ _ _ Hall Hi Hone Ha) as (Hwg & Hpc).
  assert (Hadd : 0 <= added_not_started (pc w))
    by (destruct (pc w); simpl; lia).
  split; [exact Hwg|]. split; [|split].
  - rewrite Hwg. pose proof (waiting_for_nonneg (tasks w)). lia.
  - intros j t Hj Hb. pose proof (waiting_for_ge _ _ _ Hj) as Hge.
    unfold counts in Hge. rewrite Hb in Hge. lia.
  - intros Hreset. rewrite Hreset in Hpc, Hwg. simpl in Hwg.
    assert (H0 : waiting_for (tasks w) = 0) by lia.
    pose proof (waiting_for_zero _ H0) as Hdone.
    split; [apply in_flight_done; exact Hdone | exact Hdone].
Qed.

(** ** Each step of the trigger at one handler *)

(** A step of the trigger leaves a handler as it is or makes one move of
    that handler. *)
Lemma step_lookup (st : Step) (t t' : Trigger) (i : nat) (w : Worker) :
  step st t = Some t' -> handlers t !! i = Some w ->
  exists w', handlers t' !! i = Some w' /\
             (w' = w \/ exists mv, worker_step mv w = Some w').
Proof.
  assert (Hins : forall (hs : list Worker) k wk wk' mv,
             hs !! k = Some wk -> worker_step mv wk = Some wk' ->
             hs !! i = Some w ->
             exists w', <[k := wk']> hs !! i = Some w' /\
                        (w' = w \/ exists mv, worker_step mv w = Some w')).
  { intros hs k wk wk' mv Hk Hmv Hi. destruct (decide (k = i)) as [->|Hne].
    - rewrite list_lookup_insert_eq by (eapply lookup_lt_Some; eassumption).
      simplify_eq. eauto.
    - rewrite list_lookup_insert_ne by assumption. eauto. }
  assert (Hcoord : forall rcv t',
             coord_step_with rcv t = Some t' -> handlers t !! i = Some w ->
             exists w', handlers t' !! i = Some w' /\
                        (w' = w \/ exists mv, worker_step mv w = Some w')).
  { intros rcv t1 Hs Hi. unfold coord_step_with in Hs.
    destruct (coord t) as [|k|k|k|k|e]; try discriminate.
    + repeat case_match; simplify_eq; simpl; eauto.
    + destruct (handlers t !! k) as [wk|] eqn:Hk; [|discriminate].
      cbn [mbind option_bind] in Hs.
      destruct (worker_step rcv wk) as [wk'|] eqn:Hw; [|discriminate].
      cbn [mbind option_bind] in Hs. simplify_eq; simpl. eauto.
    + destruct (handlers t !! k) as [wk|] eqn:Hk; [|discriminate].
      cbn [mbind option_bind] in Hs.
      destruct (worker_step Close wk) as [wk'|] eqn:Hw; [|discriminate].
      cbn [mbind option_bind] in Hs. simplify_eq; simpl. eauto.
    + destruct (handlers t !! k) as [wk|] eqn:Hk; [|simplify_eq; eauto].
      destruct (worker_step rcv wk) as [wk'|] eqn:Hw; [|discriminate].
      cbn [mbind option_bind] in Hs. simplify_eq; simpl. eauto. }
  unfold step. destruct (existsb crashed (handlers t)); [discriminate|].
  intros Hs Hi.
  destruct st; unfold Resume, Start in Hs.
  - destruct (idle t); [|discriminate].
    destruct (mapM launch (handlers t)) as [hs|] eqn:Hm; [|discriminate].
    cbn in Hs. simplify_eq; simpl.
    apply mapM_Some in Hm.
    destruct (Forall2_lookup_l _ _ _ _ _ Hm Hi) as (w' & Hw' & Hl).
    exists w'. split; [assumption|]. right. exists Launch. exact Hl.
  - destruct (idle t); [|discriminate].
    destruct (mapM launch (handlers t)) as [hs|] eqn:Hm; [|discriminate].
    cbn in Hs. simplify_eq; simpl.
    apply mapM_Some in Hm.
    destruct (Forall2_lookup_l _ _ _ _ _ Hm Hi) as (w' & Hw' & Hl).
    exists w'. split; [assumption|]. right. exists Launch. exact Hl.
  - destruct (idle t); simplify_eq; simpl; eauto.
  - destruct (idle t); simplify_eq; simpl; eauto.
  - eapply Hcoord; eassumption.
  - destruct (at_send t); [|discriminate]. eapply Hcoord; eassumption.
  - destruct (spontaneous mv); [|discriminate].
    destruct (handlers t !! i0) as [wk|] eqn:Hk; [|discriminate].
    cbn [mbind option_bind] in Hs.
    destruct (worker_step mv wk) as [wk'|] eqn:Hw; [|discriminate].
    cbn [mbind option_bind] in Hs. simplify_eq; simpl. eauto.
Qed.

(** A property of one handler that every move keeps is kept by every
    schedule of the trigger. *)
Lemma steps_lookup (R : Worker -> Worker -> Prop) :
  (forall w, R w w) ->
  (forall mv w1 w2 w3, R w1 w2 -> worker_step mv w2 = Some w3 -> R w1 w3) ->
  forall (sched : list Step) (t t' : Trigger) (i : nat) (w : Worker),
    steps sched t = Some t' -> handlers t !! i = Some w ->
    exists w', handlers t' !! i = Some w' /\ R w w'.
Proof.
  intros Hrefl Hstep sched.
  assert (Hgen : forall (t t' : Trigger) (i : nat) (w0 w : Worker),
             steps sched t = Some t' -> handlers t !! i = Some w -> R w0 w ->
             exists w', handlers t' !! i = Some w' /\ R w0 w').
  { induction sched as [|st sched IH]; simpl; intros t t' i w0 w Hs Hi HR.
    - simplify_eq. eauto.
    - destruct (step st t) as [t1|] eqn:H1; simpl in Hs; [|discriminate].
      destruct (step_lookup st t t1 i w H1 Hi) as (w1 & Hi1 & [->|[mv Hmv]]).
      + eapply IH; eassumption.
      + eapply IH; [eassumption | eassumption |].
        eapply Hstep; eassumption. }
  intros t t' i w Hs Hi. eapply Hgen; eauto.
Qed.

(** ** The consumer of a handler is obtained once *)

(** With one consume goroutine, the handler has no consumer while the
    goroutine is between the test of line 192 and the assignment of
    line 194; and a consumer that is there is neither replaced nor asked
    for again. *)
Lemma worker_step_keeps_consumer (mv : Move) (w w' : Worker) :
  worker_step mv w = Some w' -> extras w' = [] -> subscribing w ->
  subscribing w' /\
  forall c, consumer (hd w) = Some c ->
            consumer (hd w') = Some c /\ subscribe_calls w' = subscribe_calls w.
Proof.
  intros Hs He Hsub.
  destruct (worker_step_single mv w w' Hs He) as [He0 Hmv].
  unfold subscribing in *.
  destruct mv; simpl in Hs; try contradiction.
  - destruct (crashed w); simplify_eq; simpl. auto.
  - unfold main_step in Hs. destruct (crashed w); [discriminate|].
    destruct (pc w) eqn:Epc; try discriminate;
      repeat case_match; simplify_eq; simpl in *;
      try (split; [auto; fail | intros; simplify_eq; auto; fail]);
      match goal with
      | Ht : task_step _ _ = _ |- _ =>
        destruct (task_step_consumer _ _ _ _ Ht) as [Hc' _];
        split; [exact I|]; intros c0 Hc0; rewrite Hc'; split; [assumption|];
        revert Ht; unfold task_step, leave; intros Ht;
        repeat case_match; simplify_eq; reflexivity
      end.
  - unfold goroutine_step in Hs.
    destruct (crashed w); [discriminate|].
    destruct (tasks w !! j) as [t|]; [|discriminate].
    destruct (task_step w t) as [w1 ot] eqn:Ht.
    destruct (task_step_consumer _ _ _ _ Ht) as [Hc' Hp'].
    assert (Hn : subscribe_calls w1 = subscribe_calls w).
    { revert Ht; unfold task_step, leave; intros Ht;
        repeat case_match; simplify_eq; reflexivity. }
    destruct ot; simplify_eq; cbn [pc hd set_tasks subscribe_calls];
      rewrite Hp', Hc'; auto.
  - unfold launch in Hs. destruct (crashed w); [discriminate|].
    rewrite Hmv in Hs. simplify_eq; simpl. auto.
  - unfold receive_done in Hs.
    repeat case_match; simplify_eq; simpl; auto.
  - destruct (crashed w); simplify_eq; simpl. auto.
Qed.

(** X4: In a trigger set up by [Initialize], a handler that has had one
    consume goroutine at a time keeps the consumer it has obtained, and
    [GetSubscriber] is not called for it again, whatever follows: [Stop]
    closes the consumer but leaves it in the handler, so the consume
    goroutine of a later [Start] or [Resume] skips the retry loop and
    receives from that same consumer. *)
Theorem consumer_obtained_once
    (ctx : list HandlerConfig) (before after : list Step) (t t' : Trigger)
    (i : nat) (w : Worker) (c : Consumer) :
  steps before (fst (Initialize {| handlers := []; coord := CIdle |} ctx))
    = Some t ->
  handlers t !! i = Some w ->
  consumer (hd w) = Some c ->
  steps after t = Some t' ->
  exists w',
    handlers t' !! i = Some w' /\
    (extras w' = [] ->
     consumer (hd w') = Some c /\ subscribe_calls w' = subscribe_calls w).
Proof.
  intros Hb Hi Hc Ha.
  assert (Hall : Forall (fun w => extras w = [] -> subscribing w)
                        (handlers t)).
  { eapply steps_Forall; [|eassumption|].
    - intros mv w0 w1 Hstep HP He.
      destruct (worker_step_single mv w0 w1 Hstep He) as [He0 _].
      exact (proj1 (worker_step_keeps_consumer mv w0 w1 Hstep He (HP He0))).
    - apply Initialize_Forall; [|constructor].
      intros handler s _. exact I. }
  pose proof (Forall_lookup_1 _ _ _ _ Hall Hi) as Hsub.
  destruct (steps_lookup
              (fun w1 w2 => extras w2 = [] ->
                 extras w1 = [] /\
                 (subscribing w1 -> consumer (hd w1) = Some c ->
                  subscribing w2 /\ consumer (hd w2) = Some c /\
                  subscribe_calls w2 = subscribe_calls w1)))
    with (sched := after) (t := t) (t' := t') (i := i) (w := w)
    as (w' & Hi' & HR); auto.
  - intros mv w1 w2 w3 H12 Hmv He3.
    destruct (worker_step_single mv w2 w3 Hmv He3) as [He2 _].
    destruct (H12 He2) as [He1 H2].
    split; [exact He1|]. intros Hs1 Hc1.
    destruct (H2 Hs1 Hc1) as (Hs2 & Hc2 & Hn2).
    destruct (worker_step_keeps_consumer mv w2 w3 Hmv He3 Hs2) as [Hs3 H3].
    destruct (H3 c Hc2) as [Hc3 Hn3].
    split; [exact Hs3|]. split; congruence.
  - exists w'. split; [exact Hi'|]. intros He.
    destruct (HR He) as [He1 H2].
    destruct (H2 (Hsub He1) Hc) as (_ & Hc' & Hn'). auto.
Qed.

(** ** A send to a handler whose consume goroutine is not running *)

Lemma spontaneous_keeps_stopped (mv : Move) (w w' : Worker) :
  spontaneous mv = true -> worker_step mv w = Some w' ->
  running w = false -> pc w' = pc w /\ running w' = false.
Proof.
  intros Hsp Hs Hr.
  assert (Hsame : pc w' = pc w /\ extras w' = extras w).
  { apply not_running in Hr as [Hp He].
    destruct mv; simpl in Hsp, Hs; try discriminate.
    - destruct (crashed w); simplify_eq; auto.
    - unfold main_step in Hs. destruct (crashed w); [discriminate|].
      destruct (pc w); discriminate.
    - unfold goroutine_step in Hs.
      destruct (crashed w); [discriminate|].
      destruct (tasks w !! j) as [t|]; [|discriminate].
      destruct (task_step w t) as [w1 ot] eqn:Ht.
      pose proof (proj2 (task_step_consumer _ _ _ _ Ht)).
      pose proof (task_step_extras _ _ _ _ Ht).
      destruct ot; simplify_eq; simpl; auto.
    - apply at_extra_Some in Hs as (p & w1 & Hk & Hf & _).
      rewrite (proj1 (stopped_no_step (set_pc p w) (He k p Hk))) in Hf.
      discriminate. }
  destruct Hsame as [Hp He]. split; [exact Hp|].
  unfold running in *. rewrite Hp, He. exact Hr.
Qed.

(** X5: When [Pause] or [Stop] has reached its send for a handler whose
    consume goroutine is not running (it has returned on an earlier
    [Stop] or [Pause], or it was never started), the call stays at that
    send for ever: no schedule moves it on, and no other lifecycle call
    can be made meanwhile.  So [Stop] after [Stop], [Stop] after [Pause]
    and [Pause] after [Pause] do not return for a handler that has a
    consumer. *)
Theorem send_to_stopped_worker_blocks
    (sched : list Step) (t t' : Trigger) (i : nat) (w : Worker) :
  coord t = CPauseSend i \/ coord t = CStopSend i ->
  handlers t !! i = Some w ->
  running w = false ->
  steps sched t = Some t' ->
  coord t' = coord t /\
  exists w', handlers t' !! i = Some w' /\ pc w' = pc w.
Proof.
  revert t w. induction sched as [|st sched IH]; simpl; intros t w Hco Hi Hr Hs.
  - simplify_eq. eauto.
  - destruct (step st t) as [t1|] eqn:H1; simpl in Hs; [|discriminate].
    assert (Hidle : idle t = false)
      by (unfold idle; destruct Hco as [-> | ->]; reflexivity).
    assert (Hstay : coord t1 = coord t /\
                    exists w1, handlers t1 !! i = Some w1 /\
                               pc w1 = pc w /\ running w1 = false).
    { unfold step in H1.
      destruct (existsb crashed (handlers t)); [discriminate|].
      pose proof (proj1 (not_running w) Hr) as [Hp He].
      destruct st; try (rewrite Hidle in H1; discriminate).
      - (* the call itself: the receive is not enabled *)
        exfalso. unfold coord_step, coord_step_with in H1.
        destruct Hco as [Hco|Hco]; rewrite Hco, Hi in H1;
          cbn [mbind option_bind worker_step] in H1;
          rewrite (proj2 (stopped_no_step w Hp)) in H1; discriminate.
      - (* nor is it for another consume goroutine of the handler *)
        exfalso. destruct (at_send t); [|discriminate].
        unfold coord_step_with in H1.
        destruct Hco as [Hco|Hco]; rewrite Hco, Hi in H1;
          cbn [mbind option_bind worker_step] in H1;
          (destruct (at_extra receive_done k w) as [w1|] eqn:Hx;
           [|discriminate]);
          apply at_extra_Some in Hx as (p & w2 & Hk & Hf & _);
          rewrite (proj2 (stopped_no_step (set_pc p w) (He k p Hk))) in Hf;
          discriminate.
      - destruct (spontaneous mv) eqn:Hsp; [|discriminate].
        destruct (handlers t !! i0) as [wk|] eqn:Hk; [|discriminate].
        cbn [mbind option_bind] in H1.
        destruct (worker_step mv wk) as [wk'|] eqn:Hw; [|discriminate].
        cbn [mbind option_bind] in H1. simplify_eq; simpl.
        split; [reflexivity|].
        destruct (decide (i0 = i)) as [->|Hne].
        + rewrite list_lookup_insert_eq by (eapply lookup_lt_Some; eassumption).
          simplify_eq. eexists; split; [reflexivity|].
          eapply spontaneous_keeps_stopped; eassumption.
        + rewrite list_lookup_insert_ne by assumption. eauto. }
    destruct Hstay as (Hco1 & w1 & Hi1 & Hpc1 & Hr1).
    destruct (IH t1 w1) as (Hco' & w' & Hi' & Hpc'); try assumption.
    + rewrite Hco1. exact Hco.
    + split; [congruence|]. exists w'. split; [assumption | congruence].
Qed.

(** ** A closed delivery channel *)



(** ** Initialize *)

(** X7: [Initialize] appends one handler for each configuration, in order,
    and stops at the first configuration whose settings do not map to
    [HandlerSettings]: it returns that error, the handlers made before it
    stay in the trigger, and the configurations after it are not looked
    at.  Without such an error there is one new handler for each
    configuration. *)
Theorem Initialize_stops_at_first_error
    (ctx : list HandlerConfig) (t : Trigger) :
  exists new,
    handlers (fst (Initialize t ctx)) = handlers t ++ new /\
    coord (fst (Initialize t ctx)) = coord t /\
    Forall2 (fun handler w =>
               exists s, MapToStruct (hc_Settings handler) = inl s /\
                         w = new_worker handler s)
            (take (length new) ctx) new /\
    match snd (Initialize t ctx) with
    | None => length new = length ctx
    | Some err =>
      exists handler,
        ctx !! length new = Some handler /\
        MapToStruct (hc_Settings handler) = inr err
    end.
Proof.
  revert t; induction ctx as [|handler rest IH]; intros t; simpl.
  - exists []. rewrite app_nil_r. repeat split; constructor.
  - destruct (MapToStruct (hc_Settings handler)) as [s|err] eqn:Hs; simpl.
    + destruct (IH {| handlers := handlers t ++ [new_worker handler s];
                      coord := coord t |}) as (new & Hh & Hco & Hall & Hres).
      exists (new_worker handler s :: new). simpl in *.
      split; [rewrite Hh, <- app_assoc; reflexivity|].
      split; [exact Hco|].
      split; [constructor; [eauto | exact Hall]|].
      destruct (snd (Initialize _ rest)); [exact Hres | congruence].
    + exists []. rewrite app_nil_r. simpl.
      repeat split; try constructor. exists handler. split; [reflexivity | exact Hs].
Qed.

(** ** The message identifier handed to the flow *)

Lemma hex_digit_inj (n m : N) :
  (n < 16)%N -> (m < 16)%N -> hex_digit n = hex_digit m -> n = m.
Proof.
  intros Hn Hm.
  assert (En : In n [0; 1; 2; 3; 4; 5; 6; 7; 8; 9; 10; 11; 12; 13; 14; 15]%N).
  { destruct n as [|p]; [simpl; auto|].
    do 4 (destruct p as [p|p|]; simpl; auto 20; try lia). }
  assert (Em : In m [0; 1; 2; 3; 4; 5; 6; 7; 8; 9; 10; 11; 12; 13; 14; 15]%N).
  { destruct m as [|p]; [simpl; auto|].
    do 4 (destruct p as [p|p|]; simpl; auto 20; try lia). }
  simpl in En, Em.
  repeat (destruct En as [<-|En]; [|]); try contradiction;
    repeat (destruct Em as [<-|Em]; [|]); try contradiction;
    vm_compute; intros H; first [reflexivity | discriminate H].
Qed.

Lemma hex_of_byte_inj (b1 b2 : byte) :
  hex_of_byte b1 = hex_of_byte b2 -> b1 = b2.
Proof.
  unfold hex_of_byte. intros H. injection H as Hhi Hlo.
  pose proof (Byte.to_N_bounded b1) as B1.
  pose proof (Byte.to_N_bounded b2) as B2.
  assert (H16 : (16 <> 0)%N) by lia.
  apply hex_digit_inj in Hhi;
    [| apply N.Div0.div_lt_upper_bound; lia
     | apply N.Div0.div_lt_upper_bound; lia].
  apply hex_digit_inj in Hlo;
    [| apply N.mod_lt; lia | apply N.mod_lt; lia].
  assert (Heq : Byte.to_N b1 = Byte.to_N b2).
  { rewrite (N.div_mod (Byte.to_N b1) 16 H16), (N.div_mod (Byte.to_N b2) 16 H16).
    congruence. }
  pose proof (Byte.of_to_N b1) as E1. pose proof (Byte.of_to_N b2) as E2.
  congruence.
Qed.

Lemma hex_cons (b : byte) (bs : list byte) :
  hex (b :: bs) =
    String (hex_digit (Byte.to_N b / 16))
      (String (hex_digit (Byte.to_N b mod 16)) (hex bs)).
Proof. reflexivity. Qed.

Lemma hex_length (bs : list byte) :
  String.length (hex bs) = (2 * length bs)%nat.
Proof.
  induction bs as [|b bs IH]; [reflexivity|].
  rewrite hex_cons. simpl. rewrite IH. lia.
Qed.

Lemma hex_inj (bs1 bs2 : list byte) : hex bs1 = hex bs2 -> bs1 = bs2.
Proof.
  revert bs2; induction bs1 as [|b1 bs1 IH]; intros [|b2 bs2] H;
    try reflexivity; try (rewrite hex_cons in H; discriminate H).
  rewrite !hex_cons in H. injection H as Hhi Hlo Hrest.
  f_equal; [|apply IH; exact Hrest].
  apply hex_of_byte_inj. unfold hex_of_byte. congruence.
Qed.

(** X8: The [Msgid] of the output has two hexadecimal digits for each byte of
    the serialized message identifier, and two messages with different
    serialized identifiers get different [Msgid]s; the event identifier of
    the context is that [Msgid], and there is none exactly when the
    message has no identifier or an empty one. *)
Theorem Msgid_is_fixed_width_and_injective
    (m1 m2 : Message) (p1 p2 : Value) (id1 id2 : list byte) :
  msg_ID m1 = Some id1 -> msg_ID m2 = Some id2 ->
  String.length (Msgid (output_of m1 p1)) = (2 * length id1)%nat /\
  (Msgid (output_of m1 p1) = Msgid (output_of m2 p2) -> id1 = id2) /\
  (event_id (context_of m1 (output_of m1 p1)) = None <-> id1 = []) /\
  (id1 <> [] ->
   event_id (context_of m1 (output_of m1 p1)) = Some (hex id1)).
Proof.
  intros H1 H2. unfold context_of, output_of; simpl. rewrite H1, H2.
  split; [apply hex_length|]. split; [apply hex_inj|].
  destruct id1 as [|b id1].
  - simpl. split; [tauto | congruence].
  - rewrite hex_cons. simpl. split; [split; discriminate | reflexivity].
Qed.

(** ** A Sync worker has no goroutines *)

Lemma inline_step_quiet (w w' : Worker) (t : Task) (ot : option Task) :
  asyncMode (hd w) = false ->
  task_step w t = (w', ot) ->
  handling t = true ->
  hd w' = hd w /\ tasks w' = tasks w /\
  match ot with Some t' => handling t' = true | None => True end.
Proof.
  intros Hsync Hs Hh. unfold task_step, leave in Hs.
  destruct t as [n m ph]; unfold handling in *; simpl in *.
  destruct ph; try discriminate.
  - destruct (decode (hd w) m); simpl in Hs; try rewrite Hsync in Hs;
      simplify_eq; simpl; auto.
  - destruct (Handle (action w) ctx out) as [[a attrs] err].
    simplify_eq; simpl; auto.
  - destruct err as [e|];
      [|destruct (not_nil (index attrs " _nack") &&
                  eq_true (index attrs " _nack"))];
      simpl in Hs; rewrite Hsync in Hs; simplify_eq; simpl; auto.
Qed.

Lemma main_step_quiet (w w' : Worker) :
  main_step w = Some w' -> asyncMode (hd w) = false ->
  tasks w = [] -> wg (hd w) = 0 -> currentMsgCount (hd w) = 0 ->
  quiet_pc (pc w) ->
  tasks w' = [] /\ wg (hd w') = 0 /\ currentMsgCount (hd w') = 0 /\
  quiet_pc (pc w').
Proof.
  intros Hs Hsync Htasks Hwg Hcnt Hpc. unfold main_step in Hs.
  destruct (crashed w); [discriminate|].
  destruct (pc w) eqn:Epc; try discriminate; try contradiction.
  - repeat case_match; simplify_eq; simpl; auto.
  - repeat case_match; simplify_eq; simpl; auto.
  - repeat case_match; simplify_eq; simpl; auto.
  - simplify_eq; simpl. auto.
  - destruct (chan w) as [|[msg|] rest]; [discriminate| |].
    + simpl in Hs. rewrite Hsync in Hs. simplify_eq; simpl. auto.
    + simplify_eq; simpl. auto.
  - simplify_eq; simpl. auto.
  - destruct (task_step w t) as [w1 ot] eqn:Ht.
    destruct (inline_step_quiet w w1 t ot Hsync Ht Hpc) as (Hhd & Hts & Hot).
    destruct ot as [t'|]; simplify_eq; simpl; rewrite Hhd, Hts; auto.
Qed.

Lemma worker_step_quiet (mv : Move) (w w' : Worker) :
  worker_step mv w = Some w' ->
  asyncMode (hd w) = false -> sync_quiet w -> sync_quiet w'.
Proof.
  unfold sync_quiet. intros Hs Hsync (Htasks & Hwg & Hcnt & Hpc & Hex).
  destruct mv; simpl in Hs.
  - destruct (crashed w); [discriminate|]. simplify_eq; simpl. auto.
  - pose proof (main_step_extras w w' Hs) as He.
    destruct (main_step_quiet w w' Hs Hsync Htasks Hwg Hcnt Hpc)
      as (? & ? & ? & ?).
    rewrite He. auto.
  - unfold goroutine_step in Hs. rewrite Htasks in Hs.
    destruct (crashed w); discriminate.
  - unfold launch in Hs.
    destruct (crashed w); [discriminate|].
    destruct (active (pc w)); simplify_eq; simpl; repeat (split; [auto|]);
      auto.
    apply Forall_app. split; [assumption|]. repeat constructor.
  - unfold receive_done in Hs.
    destruct (crashed w); [discriminate|].
    destruct (pc w); try discriminate; simplify_eq; simpl; auto.
  - destruct (crashed w); [discriminate|]. simplify_eq; simpl. auto.
  - apply at_extra_Some in Hs as (p & w1 & Hk & Hf & ->).
    pose proof (main_step_extras _ _ Hf) as He.
    destruct (main_step_quiet _ _ Hf Hsync Htasks Hwg Hcnt
                (Forall_lookup_1 _ _ _ _ Hex Hk)) as (? & ? & ? & ?).
    cbn [tasks hd pc extras set_extras set_pc]. rewrite He.
    repeat (split; [assumption|]).
    apply Forall_insert; assumption.
  - apply at_extra_Some in Hs as (p & w1 & Hk & Hf & ->).
    apply receive_done_eq in Hf as (_ & _ & ->).
    cbn [tasks hd pc extras set_extras set_pc].
    repeat (split; [assumption|]).
    apply Forall_insert; [assumption | exact I].
Qed.

(** X9: A Sync worker of a trigger set up by [Initialize] never starts a
    goroutine for a message and never touches its WaitGroup or its
    counter, on any schedule: the only goroutines that act for the
    handler are those running [consume]. *)
Theorem sync_worker_has_no_goroutines
    (ctx : list HandlerConfig) (sched : list Step) (t' : Trigger)
    (i : nat) (w : Worker) :
  steps sched (fst (Initialize {| handlers := []; coord := CIdle |} ctx))
    = Some t' ->
  handlers t' !! i = Some w ->
  asyncMode (hd w) = false ->
  tasks w = [] /\ in_flight w = 0%nat /\
  wg (hd w) = 0 /\ currentMsgCount (hd w) = 0.
Proof.
  intros Hsteps Hi Hsync.
  assert (Hall : Forall (fun w => asyncMode (hd w) = false -> sync_quiet w)
                        (handlers t')).
  { eapply steps_Forall; [|eassumption|].
    - intros mv w0 w1 Hstep HP Hs1.
      pose proof (worker_step_asyncMode mv w0 w1 Hstep) as Ha.
      eapply worker_step_quiet; [eassumption| congruence |].
      apply HP; congruence.
    - apply Initialize_Forall; [|constructor].
      intros handler s _. repeat split. constructor. }
  pose proof (Forall_lookup_1 _ _ _ _ Hall Hi Hsync) as (Ht & Hwg & Hcnt & _).
  unfold in_flight. rewrite Ht. auto.
Qed.

(** ** The payload handed to the flow *)

(** X10: Unless the [format] setting is the string [JSON] (in capitals), the
    payload is handed to the flow as a string that holds the bytes of the
    message unchanged, whatever they are: nothing is parsed and no message
    is rejected at this point. *)
Theorem decode_raw_keeps_the_bytes (h : Handler) (msg : Message) :
  (h_Settings h !! "format" = None \/
   h_Settings h !! "format" = Some VNil \/
   exists f, h_Settings h !! "format" = Some (VString f) /\ f <> "JSON") ->
  exists s,
    decode h msg = DecodedAs (VString s) /\
    list_byte_of_string s = msg_Payload msg.
Proof.
  intros Hf. exists (string_of_list_byte (msg_Payload msg)).
  split; [|apply list_byte_of_string_of_list_byte].
  unfold decode, index.
  destruct Hf as [-> | [-> | (f & -> & Hne)]]; simpl; try reflexivity.
  apply String.eqb_neq in Hne. rewrite Hne. reflexivity.
Qed.

(** ** The consumer options of a handler *)

Lemma subscription_type_cases (st : string) :
  (subscription_type st = Shared <-> st = "Shared") /\
  (subscription_type st = Failover <-> st = "Failover") /\
  (subscription_type st = KeyShared <-> st = "KeyShared") /\
  (subscription_type st = Exclusive <->
     st <> "Shared" /\ st <> "Failover" /\ st <> "KeyShared").
Proof.
  unfold subscription_type.
  destruct (String.eqb_spec st "Exclusive") as [->|H1];
    [repeat split; intros; try discriminate; try congruence;
     match goal with H : _ /\ _ |- _ => destruct H as (? & ? & ?) end;
     congruence|].
  destruct (String.eqb_spec st "Shared") as [->|H2];
    [repeat split; intros; try discriminate; try congruence;
     match goal with H : _ /\ _ |- _ => destruct H as (? & ? & ?) end;
     congruence|].
  destruct (String.eqb_spec st "Failover") as [->|H3];
    [repeat split; intros; try discriminate; try congruence;
     match goal with H : _ /\ _ |- _ => destruct H as (? & ? & ?) end;
     congruence|].
  destruct (String.eqb_spec st "KeyShared") as [->|H4];
    [repeat split; intros; try discriminate; try congruence;
     match goal with H : _ /\ _ |- _ => destruct H as (? & ? & ?) end;
     congruence|].
  repeat split; intros; try discriminate; try congruence.
Qed.

(** X11: The subscription type is [Shared], [Failover] or [KeyShared] exactly
    for these three strings and [Exclusive] for every other string; the
    initial position is [Latest] exactly for the string [Latest]; there is
    a dead-letter policy exactly when a dead-letter topic is set, and its
    maximum is the configured number reduced modulo 2^32, so a negative
    number becomes a large one. *)
Theorem consumer_options_of_settings
    (handler : HandlerConfig) (s : HandlerSettings) :
  let o := consumer_options handler s in
  (co_Type o = Shared <-> hs_SubscriptionType s = "Shared") /\
  (co_Type o = Failover <-> hs_SubscriptionType s = "Failover") /\
  (co_Type o = KeyShared <-> hs_SubscriptionType s = "KeyShared") /\
  (co_Type o = Exclusive <->
     hs_SubscriptionType s <> "Shared" /\
     hs_SubscriptionType s <> "Failover" /\
     hs_SubscriptionType s <> "KeyShared") /\
  (co_SubscriptionInitialPosition o = SubscriptionPositionLatest <->
     hs_InitialPosition s = "Latest") /\
  (co_DLQ o = None <-> hs_DLQTopic s = "") /\
  (forall p, co_DLQ o = Some p ->
     DeadLetterTopic p = hs_DLQTopic s /\
     0 <= MaxDeliveries p < 2^32 /\
     (MaxDeliveries p - hs_DLQMaxDeliveries s) mod 2^32 = 0).
Proof.
  cbn zeta. unfold consumer_options; cbn [co_Type co_DLQ co_SubscriptionInitialPosition].
  destruct (subscription_type_cases (hs_SubscriptionType s))
    as (Hs & Hf & Hk & He).
  split; [exact Hs|]. split; [exact Hf|]. split; [exact Hk|].
  split; [exact He|]. split; [|split].
  - destruct (String.eqb_spec (hs_InitialPosition s) "Latest");
      split; intros; congruence.
  - destruct (String.eqb_spec (hs_DLQTopic s) "");
      split; intros; congruence.
  - intros p Hp.
    destruct (String.eqb_spec (hs_DLQTopic s) ""); [discriminate|].
    injection Hp as <-. cbn [DeadLetterTopic MaxDeliveries]. unfold uint32.
    split; [reflexivity|]. split; [apply Z.mod_pos_bound; lia|].
    rewrite Zminus_mod_idemp_l, Z.sub_diag. reflexivity.
Qed.

End SubscriberFacts.

(** ** The connection manager *)

Section ManagerFacts.
Context {OP : Manager.OS}.
Import Manager.
Local Open Scope list_scope.

Lemma substring_all (s : string) : String.substring 0 (String.length s) s = s.
Proof.
  induction s as [|c s IH]; simpl; [reflexivity | f_equal; exact IH].
Qed.

Lemma substring_from (m : nat) (s : string) :
  (String.substring 0 m s ++ from m s)%string = s.
Proof.
  unfold from. revert m; induction s as [|c s IH]; intros [|m];
    try reflexivity.
  - rewrite Nat.sub_0_r. simpl String.substring at 1.
    apply substring_all.
  - simpl.
    transitivity (String c (String.substring 0 m s ++
                            String.substring m (String.length s - m) s)%string);
      [reflexivity | f_equal; apply IH].
Qed.

(** The first occurrence of [sub] splits the string. *)
Lemma split_at_index (sub s : string) (i : nat) :
  strings_Index s sub = Some i ->
  exists pre,
    s = (pre ++ sub ++ from (i + String.length sub) s)%string /\
    String.length pre = i.
Proof.
  unfold strings_Index. revert i; induction s as [|c s IH]; intros i;
    cbn [String.index].
  - destruct sub; [|discriminate]. intros [= <-]. exists ""%string.
    split; reflexivity.
  - destruct (String.prefix sub (String c s)) eqn:Hp.
    + intros [= <-]. exists ""%string. split; [|reflexivity].
      apply String.prefix_correct in Hp. symmetry.
      change ((sub ++ from (String.length sub) (String c s))%string
              = String c s).
      rewrite <- Hp at 1. apply substring_from.
    + destruct (String.index 0 sub s) as [n|] eqn:Hn; [|discriminate].
      intros [= <-]. destruct (IH n eq_refl) as (pre & Hs & Hl).
      exists (String c pre). split; [|simpl; congruence].
      unfold from in *. simpl.
      match goal with
      | |- String c s = (String c pre ++ ?rest)%string =>
        change (String c s = String c (pre ++ rest)%string)
      end.
      f_equal. exact Hs.
Qed.

(** X12: The content of a file value is taken from behind the first
    [base64,]: what stands before it is skipped, what follows it (a later
    [base64,] as well) goes to the decoder, and a decoder error is
    returned wrapped.  An empty content gives the nil slice with no
    error, a content without [base64,] an error, and a [content] that is
    missing or not a string a panic. *)
Theorem getBytesFromFileSetting_cases (fileSetting : gmap string Value) :
  ((forall value, index fileSetting "content" <> VString value) ->
   exists what, getBytesFromFileSetting fileSetting = Panic what) /\
  (index fileSetting "content" = VString "" ->
   getBytesFromFileSetting fileSetting = Ok None) /\
  (forall value,
     index fileSetting "content" = VString value -> value <> ""%string ->
     match strings_Index value "base64," with
     | None =>
       getBytesFromFileSetting fileSetting
       = Err "internal error; file based setting not formatted correctly"
     | Some i =>
       exists pre data,
         value = (pre ++ "base64," ++ data)%string /\
         String.length pre = i /\
         getBytesFromFileSetting fileSetting =
           match base64_Decode data with
           | inl bytes => Ok (Some bytes)
           | inr err =>
             Err ("file based setting not base64 encoded: [" ++ err ++ "]")%string
           end
     end).
Proof.
  unfold getBytesFromFileSetting. repeat split.
  - intros Hns. destruct (index fileSetting "content"); eauto.
    exfalso. eapply Hns; reflexivity.
  - intros ->. reflexivity.
  - intros value -> Hne. apply String.eqb_neq in Hne. rewrite Hne.
    destruct (strings_Index value "base64,") as [i|] eqn:Hi; [|reflexivity].
    destruct (split_at_index _ _ _ Hi) as (pre & Hs & Hl).
    exists pre, (from (i + String.length "base64,") value).
    split; [exact Hs|]. split; [exact Hl|].
    destruct (base64_Decode _); reflexivity.
Qed.

(** *** The files on disk *)

Lemma append_cons (c : ascii) (a b : string) :
  (String c a ++ b)%string = String c (a ++ b)%string.
Proof. reflexivity. Qed.

Lemma prefix_append (a b c : string) :
  String.prefix (a ++ b)%string (a ++ (b ++ c))%string = true.
Proof.
  apply String.prefix_correct.
  induction a as [|ch a IH].
  - change (("" ++ ?x)%string) with x.
    induction b as [|ch b IH]; [destruct c; reflexivity|].
    rewrite append_cons. simpl. f_equal. exact IH.
  - rewrite !append_cons. simpl. f_equal. exact IH.
Qed.

Lemma below_staged (dir name : string) :
  below dir (dir ++ PathSeparator ++ name)%string = true.
Proof.
  unfold below. rewrite prefix_append. apply orb_true_r.
Qed.

Lemma below_self (dir : string) : below dir dir = true.
Proof. unfold below. rewrite String.eqb_refl. reflexivity. Qed.

Lemma same_outside_refl (dir : string) (fs : FileSystem) :
  same_outside dir fs fs.
Proof. split; intros; reflexivity. Qed.

Lemma same_outside_trans (dir : string) (fs1 fs2 fs3 : FileSystem) :
  same_outside dir fs1 fs2 -> same_outside dir fs2 fs3 ->
  same_outside dir fs1 fs3.
Proof.
  intros [Hd1 Hf1] [Hd2 Hf2]. split.
  - intros d Hb. rewrite (Hd2 d Hb). apply Hd1, Hb.
  - intros path Hb. rewrite (Hf2 path Hb). apply Hf1, Hb.
Qed.

Lemma RemoveAll_nothing_below (dir : string) (fs : FileSystem) :
  nothing_below dir (RemoveAll dir fs).
Proof.
  split; simpl.
  - intros d Hb Hin. apply filter_In in Hin. destruct Hin as [_ Hn].
    rewrite Hb in Hn. discriminate.
  - intros path Hb. apply map_lookup_filter_None. right.
    intros x _. simpl. congruence.
Qed.

Lemma RemoveAll_same_outside (dir : string) (fs : FileSystem) :
  same_outside dir fs (RemoveAll dir fs).
Proof.
  split; simpl.
  - intros d Hb. rewrite filter_In, Hb. simpl. tauto.
  - intros path Hb. destruct (fs_files fs !! path) as [x|] eqn:Hx.
    + apply map_lookup_filter_Some. split; [exact Hx | exact Hb].
    + apply map_lookup_filter_None. left. exact Hx.
Qed.

Lemma TempDir_same_outside (fs fs' : FileSystem) (d : string) :
  TempDir fs = (inl d, fs') ->
  temp_dir fs = inl d /\ In d (fs_dirs fs') /\ same_outside d fs fs' /\
  fs_files fs' = fs_files fs.
Proof.
  unfold TempDir. destruct (temp_dir fs) as [d'|e]; intros H; simplify_eq.
  split; [reflexivity|]. split; [left; reflexivity|]. split; [|reflexivity].
  split; simpl; [|reflexivity].
  intros d0 Hb. split; [|auto].
  intros [<-|Hin]; [|exact Hin]. rewrite below_self in Hb. discriminate.
Qed.

(** What one block of [createTempKeystoreDir] does: it touches the one
    file [keystoreDir/name] at most, writes there the decoded content of
    the file value, and clears the flag when the setting is given and is
    not a JSON object. *)
Lemma stage_spec (dir setting name : string) (fs : FileSystem) (ok : bool) :
  match stage dir setting name fs ok with
  | Continue fs' ok' =>
    fs_dirs fs' = fs_dirs fs /\
    (forall path, path <> (dir ++ PathSeparator ++ name)%string ->
       fs_files fs' !! path = fs_files fs !! path) /\
    (ok' = true <-> ok = true /\ file_value setting) /\
    (forall obj bytes,
       setting <> ""%string -> json_object setting = inl obj ->
       getBytesFromFileSetting obj = Ok (Some bytes) ->
       fs_files fs' !! (dir ++ PathSeparator ++ name)%string = Some bytes)
  | Return fs' err =>
    fs_dirs fs' = fs_dirs fs /\
    (forall path, path <> (dir ++ PathSeparator ++ name)%string ->
       fs_files fs' !! path = fs_files fs !! path) /\
    setting <> ""%string
  | Panicked => setting <> ""%string
  end.
Proof.
  unfold stage, file_value.
  destruct (String.eqb_spec setting "") as [->|Hne]; simpl.
  { repeat split; auto; try tauto; intros; congruence. }
  destruct (json_object setting) as [obj|e] eqn:Hj.
  - destruct (getBytesFromFileSetting obj) as [[bytes|]|err|what] eqn:Hb.
    + unfold WriteFile.
      destruct (write_error fs (dir ++ PathSeparator ++ name)%string) as [e|].
      * split; [reflexivity|]. split; [reflexivity | exact Hne].
      * simpl. split; [reflexivity|]. split; [|split].
        -- intros path Hp. apply lookup_insert_ne. congruence.
        -- split; [intros ->; eauto | tauto].
        -- intros obj' bytes' _ Ho Hb'. simplify_eq.
           rewrite Hb in Hb'. simplify_eq. apply lookup_insert_eq.
    + split; [reflexivity|]. split; [reflexivity|]. split.
      * split; [intros ->; eauto | tauto].
      * intros obj' bytes' _ Ho Hb'. simplify_eq.
        rewrite Hb in Hb'. discriminate.
    + split; [reflexivity|]. split; [reflexivity | exact Hne].
    + exact Hne.
  - split; [reflexivity|]. split; [reflexivity|]. split.
    + split; [discriminate|]. intros [_ [H|[obj H]]]; congruence.
    + intros obj bytes _ Ho; congruence.
Qed.

Lemma stage_same_outside (dir setting name : string) (fs fs' : FileSystem)
    (ok ok' : bool) :
  stage dir setting name fs ok = Continue fs' ok' -> same_outside dir fs fs'.
Proof.
  intros Hs. pose proof (stage_spec dir setting name fs ok) as H.
  rewrite Hs in H. destruct H as (Hd & Hf & _).
  split; [intros; rewrite Hd; reflexivity|].
  intros path Hb. apply Hf. intros ->. rewrite below_staged in Hb.
  discriminate.
Qed.

Lemma stage_return_same_outside (dir setting name : string)
    (fs fs' : FileSystem) (ok : bool) (err : Error) :
  stage dir setting name fs ok = Return fs' err -> same_outside dir fs fs'.
Proof.
  intros Hs. pose proof (stage_spec dir setting name fs ok) as H.
  rewrite Hs in H. destruct H as (Hd & Hf & _).
  split; [intros; rewrite Hd; reflexivity|].
  intros path Hb. apply Hf. intros ->. rewrite below_staged in Hb.
  discriminate.
Qed.

Lemma append_inj_l (a b c : string) : (a ++ b = a ++ c)%string -> b = c.
Proof.
  induction a as [|ch a IH]; [auto|].
  rewrite !append_cons. intros [= H]. auto.
Qed.

Lemma staged_path_inj (dir n1 n2 : string) :
  (dir ++ PathSeparator ++ n1 = dir ++ PathSeparator ++ n2)%string -> n1 = n2.
Proof. intros H. apply append_inj_l in H. apply append_inj_l in H. exact H. Qed.

(** What the four blocks do together. *)
Lemma stage_all_spec (dir : string) (s : Settings) (fs : FileSystem) :
  match stage_all dir s fs with
  | Continue fs' ok' =>
    fs_dirs fs' = fs_dirs fs /\ same_outside dir fs fs' /\
    (ok' = true <-> Forall (fun sn => file_value (fst sn)) (staged_files s)) /\
    Forall (fun sn =>
              forall obj bytes,
                fst sn <> ""%string -> json_object (fst sn) = inl obj ->
                getBytesFromFileSetting obj = Ok (Some bytes) ->
                fs_files fs' !! (dir ++ PathSeparator ++ snd sn)%string
                = Some bytes)
           (staged_files s)
  | Return fs' err => fs_dirs fs' = fs_dirs fs /\ same_outside dir fs fs'
  | Panicked => True
  end.
Proof.
  unfold stage_all, staged_files.
  pose proof (stage_spec dir (s_CaCert s) "cacert.pem" fs true) as H1.
  destruct (stage dir (s_CaCert s) "cacert.pem" fs true)
    as [fs1 ok1|fs1 e1|] eqn:E1; cbn [and_then]; [| |exact I].
  2:{ destruct H1 as (Hd & _). split; [exact Hd|].
      eapply stage_return_same_outside; eassumption. }
  pose proof (stage_spec dir (s_CertFile s) "certfile.pem" fs1 ok1) as H2.
  destruct (stage dir (s_CertFile s) "certfile.pem" fs1 ok1)
    as [fs2 ok2|fs2 e2|] eqn:E2; cbn [and_then]; [| |exact I].
  2:{ destruct H1 as (Hd1 & _), H2 as (Hd2 & _). split; [congruence|].
      eapply same_outside_trans;
        [eapply stage_same_outside | eapply stage_return_same_outside];
        eassumption. }
  pose proof (stage_spec dir (s_KeyFile s) "keyfile.pem" fs2 ok2) as H3.
  destruct (stage dir (s_KeyFile s) "keyfile.pem" fs2 ok2)
    as [fs3 ok3|fs3 e3|] eqn:E3; cbn [and_then]; [| |exact I].
  2:{ destruct H1 as (Hd1 & _), H2 as (Hd2 & _), H3 as (Hd3 & _).
      split; [congruence|].
      eapply same_outside_trans; [eapply stage_same_outside; eassumption|].
      eapply same_outside_trans;
        [eapply stage_same_outside | eapply stage_return_same_outside];
        eassumption. }
  pose proof (stage_spec dir (s_PrivateKey s) "privateKey.json" fs3 ok3) as H4.
  destruct (stage dir (s_PrivateKey s) "privateKey.json" fs3 ok3)
    as [fs4 ok4|fs4 e4|] eqn:E4; [| |exact I].
  2:{ destruct H1 as (Hd1 & _), H2 as (Hd2 & _), H3 as (Hd3 & _),
               H4 as (Hd4 & _).
      split; [congruence|].
      eapply same_outside_trans; [eapply stage_same_outside; eassumption|].
      eapply same_outside_trans; [eapply stage_same_outside; eassumption|].
      eapply same_outside_trans;
        [eapply stage_same_outside | eapply stage_return_same_outside];
        eassumption. }
  destruct H1 as (Hd1 & Hf1 & Hok1 & Hc1), H2 as (Hd2 & Hf2 & Hok2 & Hc2),
           H3 as (Hd3 & Hf3 & Hok3 & Hc3), H4 as (Hd4 & Hf4 & Hok4 & Hc4).
  split; [congruence|]. split; [|split].
  - eapply same_outside_trans; [eapply stage_same_outside; eassumption|].
    eapply same_outside_trans; [eapply stage_same_outside; eassumption|].
    eapply same_outside_trans; eapply stage_same_outside; eassumption.
  - rewrite Hok4, Hok3, Hok2, Hok1. rewrite !Forall_cons, Forall_nil. simpl.
    tauto.
  - assert (Hne : forall n1 n2 : string, n1 <> n2 ->
               (dir ++ PathSeparator ++ n1)%string
               <> (dir ++ PathSeparator ++ n2)%string)
      by (intros n1 n2 Hn Hp; apply Hn; eapply staged_path_inj; exact Hp).
    repeat constructor; simpl; intros obj bytes Hs Hj Hb.
    + rewrite Hf4, Hf3, Hf2 by (apply Hne; discriminate). eauto.
    + rewrite Hf4, Hf3 by (apply Hne; discriminate). eauto.
    + rewrite Hf4 by (apply Hne; discriminate). eauto.
    + eauto.
Qed.

(** *** createTempKeystoreDir *)

Lemma nothing_given (s : Settings) :
  negb (String.eqb (s_CertFile s) "") || negb (String.eqb (s_KeyFile s) "")
  || negb (String.eqb (s_CaCert s) "") || negb (String.eqb (s_PrivateKey s) "")
  = false ->
  Forall (fun sn => fst sn = ""%string) (staged_files s).
Proof.
  intros H. repeat (apply orb_false_elim in H; destruct H as [H ?]).
  unfold staged_files.
  repeat constructor; simpl; apply String.eqb_eq;
    match goal with
    | H : negb ?b = false |- ?b = true => destruct b; [reflexivity | discriminate H]
    end.
Qed.

Lemma something_given (s : Settings) :
  negb (String.eqb (s_CertFile s) "") || negb (String.eqb (s_KeyFile s) "")
  || negb (String.eqb (s_CaCert s) "") || negb (String.eqb (s_PrivateKey s) "")
  = true ->
  ~ Forall (fun sn => fst sn = ""%string) (staged_files s).
Proof.
  intros H HF. unfold staged_files in HF.
  apply Forall_cons in HF as [H1 HF]. apply Forall_cons in HF as [H2 HF].
  apply Forall_cons in HF as [H3 HF]. apply Forall_cons in HF as [H4 _].
  cbn [fst] in *. rewrite H1, H2, H3, H4 in H. discriminate H.
Qed.

(** The results of [createTempKeystoreDir], case by case. *)
Lemma createTempKeystoreDir_spec (s : Settings) (fs : FileSystem) :
  match createTempKeystoreDir s fs with
  | (Returns (dir, None), fs') =>
    (dir = ""%string /\ fs' = fs /\
     Forall (fun sn => fst sn = ""%string) (staged_files s)) \/
    exists d,
      temp_dir fs = inl d /\ same_outside d fs fs' /\
      ~ Forall (fun sn => fst sn = ""%string) (staged_files s) /\
      ((dir = d /\ In d (fs_dirs fs') /\
        Forall (fun sn => file_value (fst sn)) (staged_files s) /\
        Forall (fun sn =>
                  forall obj bytes,
                    fst sn <> ""%string -> json_object (fst sn) = inl obj ->
                    getBytesFromFileSetting obj = Ok (Some bytes) ->
                    fs_files fs' !! (d ++ PathSeparator ++ snd sn)%string
                    = Some bytes)
               (staged_files s)) \/
       (dir = ""%string /\
        ~ Forall (fun sn => file_value (fst sn)) (staged_files s) /\
        nothing_below d fs'))
  | (Returns (dir, Some e), fs') =>
    (dir = ""%string /\ fs' = fs /\ temp_dir fs = inr e) \/
    exists d,
      temp_dir fs = inl d /\ dir = d /\ In d (fs_dirs fs') /\
      same_outside d fs fs'
  | (Panics, _) => True
  end.
Proof.
  unfold createTempKeystoreDir.
  match goal with
  | |- context [if ?c then _ else _] => destruct c eqn:Hg
  end; [|left; split; [reflexivity|]; split;
          [reflexivity | apply nothing_given; exact Hg]].
  destruct (TempDir fs) as [[d|e] fs0] eqn:Et.
  - destruct (TempDir_same_outside _ _ _ Et) as (Htd & Hin & Hso & _).
    pose proof (stage_all_spec d s fs0) as Hall.
    destruct (stage_all d s fs0) as [fs4 ok|fs4 e|]; [| |exact I].
    + destruct Hall as (Hd & Hso4 & Hok & Hc).
      destruct ok; cbn [negb]; right; exists d; (split; [exact Htd|]).
      * split; [eapply same_outside_trans; eassumption|].
        split; [apply something_given; exact Hg|]. left.
        split; [reflexivity|]. split; [rewrite Hd; exact Hin|].
        split; [apply Hok; reflexivity | exact Hc].
      * split.
        { eapply same_outside_trans; [eassumption|].
          eapply same_outside_trans;
            [eassumption | apply RemoveAll_same_outside]. }
        split; [apply something_given; exact Hg|].
        right. split; [reflexivity|].
        split; [intros Hfv; apply Hok in Hfv; discriminate|].
        apply RemoveAll_nothing_below.
    + destruct Hall as (Hd & Hso4). right. exists d.
      split; [exact Htd|]. split; [reflexivity|].
      split; [rewrite Hd; exact Hin|].
      eapply same_outside_trans; eassumption.
  - left. unfold TempDir in Et. destruct (temp_dir fs); simplify_eq. auto.
Qed.

(** X13: When [createTempKeystoreDir] returns a directory, it is the
    temporary directory it made; every given setting was a JSON file
    value, the decoded content of each one lies in its file of that
    directory, and nothing else on disk has changed. *)
Theorem createTempKeystoreDir_stages_file_values
    (s : Settings) (fs fs' : FileSystem) (dir : string) :
  createTempKeystoreDir s fs = (Returns (dir, None), fs') ->
  dir <> ""%string ->
  temp_dir fs = inl dir /\ In dir (fs_dirs fs') /\ same_outside dir fs fs' /\
  Forall (fun sn => file_value (fst sn)) (staged_files s) /\
  Forall (fun sn =>
            forall obj bytes,
              fst sn <> ""%string -> json_object (fst sn) = inl obj ->
              getBytesFromFileSetting obj = Ok (Some bytes) ->
              fs_files fs' !! (dir ++ PathSeparator ++ snd sn)%string
              = Some bytes)
         (staged_files s).
Proof.
  intros H Hdir. pose proof (createTempKeystoreDir_spec s fs) as Hspec.
  rewrite H in Hspec.
  destruct Hspec
    as [(-> & _)|(d & Htd & Hso & _ & [(-> & Hin & Hfv & Hc)|(-> & _)])];
    try congruence.
  auto.
Qed.

(** X14: When a given setting is not a JSON file value (it is a plain path)
    and no error occurs, [createTempKeystoreDir] returns the empty
    directory name after removing the temporary directory with all that
    the other settings had staged there; the rest of the disk is as
    before. *)
Theorem createTempKeystoreDir_plain_value_removes_dir
    (s : Settings) (fs fs' : FileSystem) (d : string) :
  temp_dir fs = inl d -> d <> ""%string ->
  createTempKeystoreDir s fs = (Returns (""%string, None), fs') ->
  (Forall (fun sn => fst sn = ""%string) (staged_files s) /\ fs' = fs) \/
  (~ Forall (fun sn => file_value (fst sn)) (staged_files s) /\
   nothing_below d fs' /\ same_outside d fs fs').
Proof.
  intros Htd Hd H. pose proof (createTempKeystoreDir_spec s fs) as Hspec.
  rewrite H in Hspec.
  destruct Hspec
    as [(_ & -> & Hall)|(d' & Htd' & Hso & _ & [(Hdir & _)|(_ & Hfv & Hnb)])].
  - left. auto.
  - congruence.
  - right. assert (d' = d) by congruence; subst d'. auto.
Qed.

(** *** Stop and ReleaseConnection *)

Lemma filter_idemp {A : Type} (f : A -> bool) (l : list A) :
  List.filter f (List.filter f l) = List.filter f l.
Proof.
  induction l as [|x l IH]; [reflexivity|]. simpl.
  destruct (f x) eqn:Hf; simpl; [rewrite Hf, IH; reflexivity | exact IH].
Qed.

Lemma RemoveAll_idemp (dir : string) (fs : FileSystem) :
  RemoveAll dir (RemoveAll dir fs) = RemoveAll dir fs.
Proof.
  unfold RemoveAll; simpl. f_equal; [apply filter_idemp|].
  apply map_eq. intros path.
  destruct (filter _ (fs_files fs) !! path) as [x|] eqn:Hx.
  - apply map_lookup_filter_Some. split; [exact Hx|].
    apply map_lookup_filter_Some in Hx. exact (proj2 Hx).
  - apply map_lookup_filter_None. left. exact Hx.
Qed.

(** *** NewManager *)

Lemma authentication_no_error (dir : string) (s : Settings) :
  snd (authentication dir s) = None.
Proof.
  unfold authentication, getTLSAuthentication, getJWTAuthentication.
  repeat case_match; reflexivity.
Qed.

Section WithClient.
Context {TClient TConsumer : Type}.
Context {BR : Broker (BT := pulsar_types (TClient := TClient)
                             (TConsumer := TConsumer))}.


(** X15: A broker that cannot be reached does not make [NewManager] fail: the
    manager is returned with its connected flag false; a handle taken
    from it is not connected, and the first [Connect] on that handle
    calls [NewClient] again with the options [NewManager] made; a manager
    that is connected gives handles on which [Connect] creates nothing. *)
Theorem NewManager_survives_client_failure
    (settings : gmap string Value) (w : World) (s : Settings)
    (dir : string) (fs' : FileSystem) :
  MapToStruct settings = inl s ->
  createTempKeystoreDir s (disk w) = (Returns (dir, None), fs') ->
  exists p,
    let w' := {| disk := fs'; clients_created := S (clients_created w) |} in
    let opts := client_options s dir (fst (authentication dir s)) in
    NewManager settings w = (Returns (Some p, None), w') /\
    keystoreDir p = dir /\ clientOpts p = opts /\
    client p = fst (NewClient (Broker := BR) (clients_created w) opts) /\
    (connected p = true <-> snd (NewClient (Broker := BR) (clients_created w) opts) = None) /\
    (connected p = true ->
     Connection.Connect (shared_of w') (GetConnection p)
     = Some (shared_of w', GetConnection p, None)) /\
    (connected p = false ->
     forall c, NewClient (Broker := BR) (S (clients_created w)) opts = (c, None) ->
       Connection.Connect (shared_of w') (GetConnection p)
       = Some ({| Connection.mx_locked := false;
                  Connection.clients_created := S (S (clients_created w)) |},
               Connection.Build_PulsarConnManager
                 (BT := pulsar_types (TClient := TClient)
                         (TConsumer := TConsumer)) c opts true,
               None)).
Proof.
  intros Hs Hk. unfold Manager.NewManager. rewrite Hs, Hk.
  pose proof (authentication_no_error dir s) as Ha.
  destruct (authentication dir s) as [auth aerr]; simpl in Ha; subst aerr.
  cbn zeta. cbn [fst].
  match goal with
  | |- context [let '(_, _) := ?x in _] => destruct x as [c err] eqn:Hn
  end.
  eexists. split; [reflexivity|]. cbn [keystoreDir clientOpts client connected fst snd].
  split; [reflexivity|]. split; [reflexivity|].
  split; [symmetry; exact (f_equal fst Hn)|].
  split.
  { transitivity (err = None); [destruct err; split; congruence|].
    split; intros He.
    - rewrite <- He. exact (f_equal snd Hn).
    - rewrite <- He. symmetry. exact (f_equal snd Hn). }
  split.
  - intros Hc. destruct err; [discriminate|]. reflexivity.
  - intros Hc c' Hn'. destruct err; [|discriminate].
    unfold Connection.Connect, shared_of; simpl.
    unfold Manager.GetConnection; simpl.
    rewrite Hn'. reflexivity.
Qed.

(** X16: When [NewManager] returns an error after the settings were mapped,
    it has created no client, and the temporary directory it made, with
    what was staged there, is still on disk: nothing removes it. *)
Theorem NewManager_error_leaves_directory
    (settings : gmap string Value) (w w' : World) (s : Settings)
    (r : option (PulsarConnection (TClient := TClient))) (e : Error) :
  MapToStruct settings = inl s ->
  NewManager settings w = (Returns (r, Some e), w') ->
  r = None /\ clients_created w' = clients_created w /\
  ((temp_dir (disk w) = inr e /\ disk w' = disk w) \/
   exists d, temp_dir (disk w) = inl d /\ In d (fs_dirs (disk w')) /\
             same_outside d (disk w) (disk w')).
Proof.
  intros Hs. unfold Manager.NewManager. rewrite Hs.
  pose proof (createTempKeystoreDir_spec s (disk w)) as Hspec.
  destruct (createTempKeystoreDir s (disk w)) as [[[dir [err|]]|] fs'] eqn:Hk.
  - intros H; simplify_eq; simpl. split; [reflexivity|]. split; [reflexivity|].
    destruct Hspec as [(_ & -> & Htd)|(d & Htd & -> & Hin & Hso)];
      [left; auto | right; eauto].
  - pose proof (authentication_no_error dir s) as Ha.
    destruct (authentication dir s) as [auth aerr]; simpl in Ha; subst aerr.
    destruct (NewClient _ _) as [c err]. intros H; discriminate.
  - intros H; discriminate.
Qed.

Lemma NewManager_ok
    (settings : gmap string Value) (w w' : World) (s : Settings)
    (p : PulsarConnection (TClient := TClient)) :
  MapToStruct settings = inl s ->
  NewManager settings w = (Returns (Some p, None), w') ->
  createTempKeystoreDir s (disk w) = (Returns (keystoreDir p, None), disk w') /\
  clientOpts p
  = client_options s (keystoreDir p) (fst (authentication (keystoreDir p) s)) /\
  clients_created w' = S (clients_created w).
Proof.
  intros Hs. unfold Manager.NewManager. rewrite Hs.
  destruct (createTempKeystoreDir s (disk w)) as [[[dir [err|]]|] fs'] eqn:Hk;
    try discriminate.
  pose proof (authentication_no_error dir s) as Ha.
  destruct (authentication dir s) as [auth aerr] eqn:Ea; simpl in Ha;
    subst aerr.
  destruct (NewClient _ _) as [c err]. intros H; simplify_eq.
  cbn [keystoreDir clientOpts disk clients_created]. rewrite Ea. auto.
Qed.

(** X17: When the manager has a keystore directory, the paths [NewManager]
    puts into the client options name files that hold the decoded
    contents of the settings: the certificate and the key of the TLS
    authentication, the trusted certificates of a [pulsar+ssl] URL that
    does not allow insecure connections, and the private key of the
    OAuth2 authentication. *)
Theorem NewManager_options_name_staged_files
    (settings : gmap string Value) (w w' : World) (s : Settings)
    (p : PulsarConnection (TClient := TClient)) :
  MapToStruct settings = inl s ->
  NewManager settings w = (Returns (Some p, None), w') ->
  keystoreDir p <> ""%string ->
  (s_Auth s = "TLS"%string ->
   exists cert key,
     o_Authentication (clientOpts p) = Some (NewAuthenticationTLS cert key) /\
     holds_content (s_CertFile s) cert (disk w') /\
     holds_content (s_KeyFile s) key (disk w')) /\
  (is_Some (strings_Index (s_URL s) "pulsar+ssl") ->
   s_AllowInsecure s = false ->
   holds_content (s_CaCert s) (o_TLSTrustCertsFilePath (clientOpts p))
     (disk w')) /\
  (s_Auth s = "OAuth2"%string ->
   exists params path,
     o_Authentication (clientOpts p) = Some (NewAuthenticationOAuth2 params) /\
     params !! "privateKey"%string = Some path /\
     holds_content (s_PrivateKey s) path (disk w')).
Proof.
  intros Hs Hn Hdir.
  destruct (NewManager_ok settings w w' s p Hs Hn) as (Hk & Ho & _).
  pose proof (createTempKeystoreDir_spec s (disk w)) as Hspec.
  rewrite Hk in Hspec.
  destruct Hspec as [(He & _)|(d & _ & _ & _ & [(Hd & _ & _ & Hc)|(He & _)])];
    try congruence.
  rewrite <- Hd in Hc. unfold staged_files in Hc.
  apply Forall_cons in Hc as [Hca Hc]. apply Forall_cons in Hc as [Hcert Hc].
  apply Forall_cons in Hc as [Hkey Hc]. apply Forall_cons in Hc as [Hpk _].
  cbn [fst snd] in Hca, Hcert, Hkey, Hpk.
  apply String.eqb_neq in Hdir.
  rewrite Ho. unfold client_options, authentication, getTLSAuthentication,
    getOAuth2Authentication.
  repeat split.
  - intros ->. cbn [String.eqb Ascii.eqb Bool.eqb]. rewrite Hdir.
    eexists _, _. split; [|split; [exact Hcert | exact Hkey]].
    destruct (bool_decide _); [|reflexivity].
    destruct (negb _); reflexivity.
  - intros Hssl Hins. rewrite bool_decide_eq_true_2 by exact Hssl.
    rewrite Hdir, Hins. exact Hca.
  - intros ->. cbn [String.eqb Ascii.eqb Bool.eqb].
    eexists _, _. split; [|split; [|exact Hpk]].
    + destruct (bool_decide _); [|reflexivity].
      rewrite Hdir. destruct (negb _); reflexivity.
    + rewrite lookup_insert_ne by discriminate.
      apply lookup_insert_eq.
Qed.

(** X18: When the manager has no keystore directory (no file setting is
    given, or one of them is not a JSON file value), the settings go into
    the client options as they are, a JSON file value among them as well:
    the certificate and the key of the TLS authentication and the trusted
    certificates of a [pulsar+ssl] URL are the settings themselves.  The
    private key of the OAuth2 authentication is the file
    [privateKey.json] of the root directory, whatever the setting is. *)
Theorem NewManager_plain_paths
    (settings : gmap string Value) (w w' : World) (s : Settings)
    (p : PulsarConnection (TClient := TClient)) :
  MapToStruct settings = inl s ->
  NewManager settings w = (Returns (Some p, None), w') ->
  keystoreDir p = ""%string ->
  (s_Auth s = "TLS"%string ->
   o_Authentication (clientOpts p)
   = Some (NewAuthenticationTLS (s_CertFile s) (s_KeyFile s))) /\
  (o_TLSTrustCertsFilePath (clientOpts p)
   = if bool_decide (is_Some (strings_Index (s_URL s) "pulsar+ssl"))
     then s_CaCert s else ""%string) /\
  (s_Auth s = "OAuth2"%string ->
   exists params,
     o_Authentication (clientOpts p) = Some (NewAuthenticationOAuth2 params) /\
     params !! "privateKey"%string
     = Some (PathSeparator ++ "privateKey.json")%string).
Proof.
  intros Hs Hn Hdir.
  destruct (NewManager_ok settings w w' s p Hs Hn) as (_ & Ho & _).
  rewrite Ho, Hdir. unfold client_options, authentication,
    getTLSAuthentication, getOAuth2Authentication.
  cbn [String.eqb].
  repeat split.
  - intros ->. cbn [String.eqb Ascii.eqb Bool.eqb].
    destruct (bool_decide _); reflexivity.
  - destruct (bool_decide _); reflexivity.
  - intros ->. cbn [String.eqb Ascii.eqb Bool.eqb].
    eexists. split; [destruct (bool_decide _); reflexivity|].
    rewrite lookup_insert_ne by discriminate.
    apply lookup_insert_eq.
Qed.

(** X19: [Stop] and [ReleaseConnection] do the same to the disk, neither
    returns an error, and one after the other, in any order and any number
    of times, leaves the disk as the first of them left it. *)
Theorem Stop_and_ReleaseConnection_idempotent
    (p : PulsarConnection (TClient := TClient)) (fs : FileSystem) :
  fst (Stop p fs) = None /\
  ReleaseConnection p fs = snd (Stop p fs) /\
  snd (Stop p (snd (Stop p fs))) = snd (Stop p fs) /\
  snd (Stop p (ReleaseConnection p fs)) = ReleaseConnection p fs /\
  ReleaseConnection p (snd (Stop p fs)) = snd (Stop p fs) /\
  nothing_below_if (keystoreDir p) (snd (Stop p fs)).
Proof.
  unfold Manager.Stop, Manager.ReleaseConnection, nothing_below_if.
  destruct (String.eqb_spec (keystoreDir p) "") as [He|Hne]; cbn [negb fst snd].
  - do 5 (split; [reflexivity|]). intros Hne. congruence.
  - rewrite RemoveAll_idemp. do 5 (split; [reflexivity|]).
    intros Hdir. apply RemoveAll_nothing_below.
Qed.

(** X20: [Stop] undoes the staging of [NewManager]: after it nothing is left
    of the temporary directory, and the rest of the disk is as it was
    before [NewManager]; when no file setting is given, the disk is as it
    was before. *)
Theorem NewManager_then_Stop_cleans_up
    (settings : gmap string Value) (w w' : World) (s : Settings)
    (p : PulsarConnection (TClient := TClient)) :
  temp_dir (disk w) <> inl ""%string ->
  MapToStruct settings = inl s ->
  NewManager settings w = (Returns (Some p, None), w') ->
  fst (Stop p (disk w')) = None /\
  (Forall (fun sn => fst sn = ""%string) (staged_files s) ->
   snd (Stop p (disk w')) = disk w) /\
  (~ Forall (fun sn => fst sn = ""%string) (staged_files s) ->
   exists d, temp_dir (disk w) = inl d /\
             nothing_below d (snd (Stop p (disk w'))) /\
             same_outside d (disk w) (snd (Stop p (disk w')))).
Proof.
  intros Hne Hs Hn.
  destruct (NewManager_ok settings w w' s p Hs Hn) as (Hk & _ & _).
  pose proof (createTempKeystoreDir_spec s (disk w)) as Hspec.
  rewrite Hk in Hspec. unfold Manager.Stop.
  split; [destruct (negb _); reflexivity|].
  destruct Hspec
    as [(-> & -> & Hnone)|(d & Htd & Hso & Hsome & [(-> & _)|(-> & _ & Hnb)])].
  - split; [reflexivity | tauto].
  - split; [tauto|]. intros _. exists d. split; [exact Htd|].
    assert (Hd : String.eqb d "" = false)
      by (apply String.eqb_neq; congruence).
    rewrite Hd; cbn [negb snd].
    split; [apply RemoveAll_nothing_below|].
    eapply same_outside_trans; [eassumption | apply RemoveAll_same_outside].
  - split; [tauto|]. intros _. exists d. split; [exact Htd|].
    cbn [String.eqb negb snd]. auto.
Qed.

End WithClient.

End ManagerFacts.

(** ** The publish activity: Eval and Cleanup *)

Section EvalFacts.
Context {BT : BrokerTypes} {PT : PublishEval.ProducerTypes}
        {HO : PublishEval.Host}.
Import PublishEval.
Local Open Scope list_scope.

Lemma message_of_shape (ctx : Context) (input : Input) (msg : ProducerMessage) :
  message_of ctx input = inl msg ->
  is_Some (pm_Properties msg) /\
  (in_Payload input = VNil -> pm_Payload msg = []) /\
  (in_Key input = ""%string -> pm_Key msg = ""%string).
Proof.
  unfold message_of. intros H.
  repeat case_match; simplify_eq; cbn in *; simplify_eq; cbn;
    (split; [eexists; reflexivity | split; [intros Hnil | intros Hkey]]);
    try reflexivity;
    try (rewrite Hnil in *; discriminate);
    try (rewrite Hkey in *; discriminate).
Qed.

Lemma ensure_producer_sent (ctx : Context) (st s : State) (e : option Error) :
  ensure_producer ctx st = (s, e) ->
  sent s = sent st /\ closed s = closed st.
Proof.
  unfold ensure_producer. intros H.
  repeat case_match; simplify_eq; auto.
Qed.

(** X21: [Eval] returns [done = false] in one case only: the activity had no
    producer and [GetProducer] failed.  Nothing is sent then and no
    output is set; the activity keeps whatever producer came with the
    error, so that the next [Eval] asks for a producer again when that is
    nil. *)
Theorem Eval_not_done
    (ctx : Context) (st st' : State) (err : option Error) (out : option string) :
  Eval ctx st = (Manager.Returns (false, err, out), st') ->
  producer st = None /\ out = None /\ err <> None /\
  GetProducer (producers_made st) (Publish.producerOpts (activity st))
    (producer_name ctx) = (producer st', err) /\
  producers_made st' = S (producers_made st) /\
  producerOpts_Name st' = producer_name ctx /\
  sent st' = sent st /\ closed st' = closed st.
Proof.
  unfold Eval, ensure_producer, set_connMgr. intros H.
  repeat case_match; simplify_eq; cbn in *; simplify_eq.
  repeat split; try assumption; try congruence.
Qed.

(** X22: When [Eval] returns no error, it returns [done = true], it has sent
    exactly one message, on the producer of the activity, and the output
    [msgid] is the serialized identifier of that message in hexadecimal.
    The message sent has a property map that is not nil, and an empty
    payload when the input has none. *)
Theorem Eval_success
    (ctx : Context) (st st' : State) (done : bool) (out : option string) :
  Eval ctx st = (Manager.Returns (done, None, out), st') ->
  done = true /\
  exists pr input msg id,
    producer st' = Some pr /\
    ctx_Input ctx = inl input /\
    Send (length (sent st)) pr msg = (Some id, None) /\
    sent st' = sent st ++ [(pr, msg)] /\
    out = Some (Subscriber.hex id) /\
    is_Some (pm_Properties msg) /\
    (in_Payload input = VNil -> pm_Payload msg = []) /\
    (in_Key input = ""%string -> pm_Key msg = ""%string).
Proof.
  unfold Eval. intros H.
  repeat case_match; simplify_eq.
  split; [reflexivity|].
  match goal with
  | Hm : message_of _ _ = inl ?m |- _ =>
    destruct (message_of_shape _ _ _ Hm) as (Hp & Hpay & Hkey)
  end.
  match goal with
  | He : ensure_producer _ _ = _ |- _ =>
    destruct (ensure_producer_sent _ _ _ _ He) as (Hsent & _)
  end.
  cbn in Hsent.
  eexists _, _, _, _. cbn. rewrite <- Hsent.
  repeat split; try eassumption.
Qed.

Lemma call_keeps_producer (c : Call) (st st' : State) (pr : Producer) :
  producer st = Some pr -> call c st = Some st' ->
  producer st' = Some pr /\
  producers_made st' = producers_made st /\
  producerOpts_Name st' = producerOpts_Name st /\
  Publish.producerOpts (activity st') = Publish.producerOpts (activity st) /\
  match c with
  | CallCleanup => sent st' = sent st /\ closed st' = closed st ++ [pr]
  | CallEval _ =>
    (sent st' = sent st \/ exists msg, sent st' = sent st ++ [(pr, msg)]) /\
    closed st' = closed st
  end.
Proof.
  intros Hp. destruct c as [ctx|]; cbn.
  - unfold Eval, ensure_producer, set_connMgr. cbn. rewrite Hp.
    intros H. repeat case_match; simplify_eq; cbn in *; simplify_eq;
      rewrite ?app_nil_r; repeat split; eauto.
  - unfold Cleanup. rewrite Hp. intros H; simplify_eq; cbn.
    repeat split; eauto.
Qed.

(** X23: Once the activity has a producer it keeps it, whatever calls follow:
    [GetProducer] is not called again, every later message is sent on
    that producer, and [Cleanup] closes it without taking it out of the
    activity, so that an [Eval] after [Cleanup] sends on the closed
    producer and a second [Cleanup] closes it again. *)
Theorem producer_made_once
    (cs : list Call) (st st' : State) (pr : Producer) :
  producer st = Some pr ->
  calls cs st = Some st' ->
  producer st' = Some pr /\
  producers_made st' = producers_made st /\
  producerOpts_Name st' = producerOpts_Name st /\
  Publish.producerOpts (activity st') = Publish.producerOpts (activity st) /\
  (exists new,
     sent st' = sent st ++ new /\ Forall (fun x => fst x = pr) new /\
     (length new + cleanups cs <= length cs)%nat) /\
  closed st' = closed st ++ replicate (cleanups cs) pr.
Proof.
  revert st. induction cs as [|c cs IH]; intros st Hp Hc; cbn in Hc.
  - simplify_eq. split; [exact Hp|]. do 3 (split; [reflexivity|]).
    split; [|cbn; rewrite app_nil_r; reflexivity].
    exists []. rewrite app_nil_r.
    split; [reflexivity|]. split; [constructor | cbn; lia].
  - destruct (call c st) as [st1|] eqn:H1; [|discriminate]. cbn in Hc.
    destruct (call_keeps_producer c st st1 pr Hp H1)
      as (Hp1 & Hm1 & Hn1 & Ho1 & Hc1).
    destruct (IH st1 Hp1 Hc)
      as (Hp' & Hm' & Hn' & Ho' & (new & Hs' & Hall & Hlen) & Hc').
    split; [exact Hp'|]. split; [congruence|]. split; [congruence|].
    split; [congruence|].
    destruct c as [ctx|]; unfold cleanups in *;
      cbn [List.filter length replicate] in *.
    + destruct Hc1 as [Hs1 Hc1]. rewrite Hc1 in Hc'. split; [|exact Hc'].
      destruct Hs1 as [Hs1|[msg Hs1]]; rewrite Hs1 in Hs'.
      * exists new. split; [exact Hs'|]. split; [exact Hall | lia].
      * exists ((pr, msg) :: new). rewrite <- app_assoc in Hs'.
        split; [exact Hs'|].
        split; [constructor; [reflexivity | exact Hall] | cbn; lia].
    + destruct Hc1 as [Hs1 Hc1]. rewrite Hs1 in Hs'. rewrite Hc1 in Hc'.
      split; [|rewrite Hc', <- app_assoc; reflexivity].
      exists new. split; [exact Hs'|]. split; [exact Hall | lia].
Qed.

End EvalFacts.

(** ** Runs on the test collaborators *)

Section Runs.
Import Subscriber.
Local Open Scope list_scope.
#[local] Existing Instances
  test_broker_types test_host_types serving_broker direct_host.

(** ** The subscriber: the Async window *)

(** C1, on the schedule [late_decrement ++ two_more] for an Async worker
    with maximum 1.  After the first window has drained (no goroutine
    left, WaitGroup at zero) the consume goroutine is at its select with
    the counter at -1; the second message then passes the threshold test
    with the counter at 0, and the third is dispatched while the second is
    still being handled: two messages are in flight. *)
Theorem async_window_overrun :
  (w ← first_worker_after (HO := test_host "POOLED" 1)
         late_decrement (one_handler "POOLED" 1 "Async");
   Some (at_select w, length (tasks w), wg (hd w), currentMsgCount (hd w),
         maxMsgCount (hd w)))
  = Some (true, 0%nat, 0, -1, 1) /\
  (w ← first_worker_after (HO := test_host "POOLED" 1)
         (late_decrement ++ two_more) (one_handler "POOLED" 1 "Async");
   Some (in_flight w, currentMsgCount (hd w), maxMsgCount (hd w)))
  = Some (2%nat, 1, 1).
Proof. split; vm_compute; reflexivity. Qed.

Lemma sync_one_message_at_a_time_witness :
  let out := output_of (message "one") (VString "one") in
  let pre := [EvHandle 0 (context_of (message "one") out) out;
              EvAck 0 (message "one")] in
  exists t w c2 out2,
    steps two_in_a_row
      (fst (Initialize no_handlers [test_config "orders" "Sync" "Raw"]))
      = Some t /\
    handlers t !! 0%nat = Some w /\
    asyncMode (hd w) = false /\ extras w = [] /\
    events w = pre ++ [EvHandle 1 c2 out2] /\
    exists m, EvAck 0 m ∈ pre \/ EvNack 0 m ∈ pre.
Proof.
  intros out pre.
  evar (t1 : Trigger (BT := test_broker_types) (HT := test_host_types)).
  assert (Hsteps :
            steps two_in_a_row
              (fst (Initialize no_handlers [test_config "orders" "Sync" "Raw"]))
            = Some t1)
    by (subst t1; vm_compute; reflexivity).
  evar (w1 : Worker (BT := test_broker_types) (HT := test_host_types)).
  assert (Hw : handlers t1 !! 0%nat = Some w1) by (subst t1 w1; reflexivity).
  evar (c2 : Ctx). evar (out2 : Output).
  assert (Hev : events w1 = pre ++ [EvHandle 1 c2 out2])
    by (subst w1 pre out c2 out2; vm_compute; reflexivity).
  assert (Hsync : asyncMode (hd w1) = false) by reflexivity.
  assert (Hone : extras w1 = []) by reflexivity.
  exists t1, w1, c2, out2.
  repeat (split; [assumption|]).
  exact (sync_one_message_at_a_time _ _ t1 0 w1 pre [] 0 c2 out2
           Hsteps Hw Hsync Hone Hev).
Defined.

(** C2 fails on a handler with two consume goroutines.  [Start], a [Stop]
    that passes over the handler, which has no consumer yet, and [Start]
    again: each of the two goroutines receives a message and hands it to
    the flow, and the handler is invoked for the second message while the
    first has neither its acknowledgement nor its negative
    acknowledgement. *)
Lemma two_consume_goroutines_overlap :
  let t0 := one_handler "DIRECT" 5 "Sync" in
  let out1 := output_of (message "one") (VString "one") in
  let out2 := output_of (message "two") (VString "two") in
  let pre := [EvHandle 0 (context_of (message "one") out1) out1] in
  (coord <$> steps (take 4 started_twice) t0) = Some (CReturned None) /\
  (w ← first_worker_after started_twice t0;
   Some (asyncMode (hd w), pc w, extras w, consumer (hd w), events w))
  = Some (false,
          MInline {| t_seq := 0; t_msg := message "one";
                     t_phase := PResolve ∅ None |},
          [MInline {| t_seq := 1; t_msg := message "two";
                      t_phase := PResolve ∅ None |}],
          Some 0%nat,
          pre ++ [EvHandle 1 (context_of (message "two") out2) out2]) /\
  ~ (exists m, EvAck 0 m ∈ pre \/ EvNack 0 m ∈ pre).
Proof.
  intros t0 out1 out2 pre.
  split; [vm_compute; reflexivity|]. split; [vm_compute; reflexivity|].
  intros (m & [H|H]); apply list_elem_of_singleton in H; discriminate.
Qed.



Lemma maxMsgCount_fixed_by_Initialize_witness :
  (fun w => maxMsgCount (hd w)) <$> handlers (one_handler "POOLED" 7 "Async")
    = [7] /\
  (fun w => maxMsgCount (hd w)) <$> handlers (one_handler "DIRECT" 7 "Async")
    = [200] /\
  (t ← steps (HO := test_host "POOLED" 7)
         (one_dispatched "one") (one_handler "POOLED" 7 "Async");
   Some ((fun w => maxMsgCount (hd w)) <$> handlers t)) = Some [7].
Proof.
  assert (Hmade : forall runner,
            exists w, handlers (one_handler runner 7 "Async") = [w]).
  { intros runner.
    destruct (proj2 (proj2 (maxMsgCount_fixed_by_Initialize
                              (HO := test_host runner 7) no_handlers
                              [test_config "orders" "Async" "Raw"])))
      as [Hlen Hnone].
    assert (Hmap : Forall (fun handler =>
                             exists s, MapToStruct (Host := test_host runner 7)
                                         (hc_Settings handler) = inl s)
                          [test_config "orders" "Async" "Raw"])
      by (constructor; [eexists; reflexivity | constructor]).
    specialize (Hlen (Hnone Hmap)).
    change (fst (Initialize (HO := test_host runner 7) no_handlers
                   [test_config "orders" "Async" "Raw"]))
      with (one_handler runner 7 "Async") in Hlen.
    destruct (handlers (one_handler runner 7 "Async")) as [|w [|w' ws]];
      try discriminate. eauto. }
  assert (Hpooled :
            (fun w => maxMsgCount (hd w))
              <$> handlers (one_handler "POOLED" 7 "Async") = [7]).
  { pose proof (proj1 (maxMsgCount_fixed_by_Initialize
                         (HO := test_host "POOLED" 7) no_handlers
                         [test_config "orders" "Async" "Raw"])) as Hall.
    change (fst (Initialize (HO := test_host "POOLED" 7) no_handlers
                   [test_config "orders" "Async" "Raw"]))
      with (one_handler "POOLED" 7 "Async") in Hall.
    destruct (Hmade "POOLED") as [w Hw]. rewrite Hw in Hall |- *.
    apply Forall_inv in Hall as [Hp _]. cbn [fmap list_fmap].
    rewrite (Hp eq_refl). reflexivity. }
  split; [exact Hpooled|]. split.
  - pose proof (proj1 (maxMsgCount_fixed_by_Initialize
                         (HO := test_host "DIRECT" 7) no_handlers
                         [test_config "orders" "Async" "Raw"])) as Hall.
    change (fst (Initialize (HO := test_host "DIRECT" 7) no_handlers
                   [test_config "orders" "Async" "Raw"]))
      with (one_handler "DIRECT" 7 "Async") in Hall.
    destruct (Hmade "DIRECT") as [w Hw]. rewrite Hw in Hall |- *.
    apply Forall_inv in Hall as [_ Hother]. cbn [fmap list_fmap].
    rewrite Hother by discriminate. reflexivity.
  - evar (t1 : Trigger (BT := test_broker_types) (HT := test_host_types)).
    assert (Hsteps : steps (HO := test_host "POOLED" 7) (one_dispatched "one")
                       (one_handler "POOLED" 7 "Async") = Some t1)
      by (subst t1; vm_compute; reflexivity).
    pose proof (proj1 (proj2 (maxMsgCount_fixed_by_Initialize
                                (HO := test_host "POOLED" 7) no_handlers
                                [test_config "orders" "Async" "Raw"]))
                  (one_dispatched "one") t1 Hsteps) as Hfix.
    change (fst (Initialize (HO := test_host "POOLED" 7) no_handlers
                   [test_config "orders" "Async" "Raw"]))
      with (one_handler "POOLED" 7 "Async") in Hfix.
    rewrite Hpooled in Hfix.
    rewrite Hsteps. cbn [mbind option_bind]. rewrite Hfix. reflexivity.
Defined.

Lemma consume_retries_forever_witness :
  exists w',
    run (BR := refusing_broker 3)
        (concat (replicate 3 [Main; Main; Main; Main]))
        (set_pc MConnect (one_worker "Sync" "Raw")) = Some w' /\
    crashed w' = false /\ pc w' = MConnect /\ consumer (hd w') = None /\
    subscribe_calls w' = 3%nat /\
    events w' = [EvSleep 60; EvSleep 60; EvSleep 60].
Proof.
  refine (proj1 (consume_retries_forever (BR := refusing_broker 3)
                   (set_pc MConnect (one_worker "Sync" "Raw")) 3
                   eq_refl eq_refl eq_refl _)).
  intros i Hi. exists "connection refused".
  destruct i as [|[|[|i]]]; [reflexivity | reflexivity | reflexivity | lia].
Defined.





End Runs.

(** ** More runs on the test collaborators *)

Section MoreRuns.
Import Subscriber.
Local Open Scope list_scope.
#[local] Existing Instances
  test_broker_types test_host_types serving_broker direct_host.


(** Without the [wg.Add(1)] of line 216, the [wg.Done()] of the deferred
    function panics: the handler has been invoked and the message
    resolved, and the function does not return. *)
Lemma Done_without_Add_panics :
  let '(w', ot) := handleMessage (one_worker "Async" "Raw") 0 (message "fail") in
  (crashed w', wg (hd w'), length (events w'), t_phase <$> ot)
  = (true, 0, 2%nat, Some PDeferDone).
Proof. vm_compute; reflexivity. Qed.

Lemma handleMessage_format_panic_witness :
  exists w' t,
    handleMessage flagged_worker 0 (message "one") = (w', Some t) /\
    crashed w' = true /\ events w' = [] /\ action w' = 0%nat.
Proof.
  assert (Hf : h_Settings (hd flagged_worker) !! "format" = Some (VBool true))
    by reflexivity.
  exact (handleMessage_format_panic flagged_worker 0 (message "one")
           (VBool true) eq_refl Hf ltac:(discriminate) ltac:(discriminate)).
Defined.

Lemma async_waitgroup_counts_goroutines_witness :
  exists w,
    first_worker_after (HO := test_host "POOLED" 1) (take 16 late_decrement)
      (one_handler "POOLED" 1 "Async") = Some w /\
    extras w = [] /\
    pc w = MReset /\ wg (hd w) = 0 /\ in_flight w = 0%nat.
Proof.
  evar (t1 : Trigger (BT := test_broker_types) (HT := test_host_types)).
  assert (Hsteps :
            steps (HO := test_host "POOLED" 1) (take 16 late_decrement)
              (fst (Initialize (HO := test_host "POOLED" 1)
                      {| handlers := []; coord := CIdle |}
                      [test_config "orders" "Async" "Raw"]))
            = Some t1)
    by (subst t1; vm_compute; reflexivity).
  evar (w1 : Worker (BT := test_broker_types) (HT := test_host_types)).
  assert (Hw : handlers t1 !! 0%nat = Some w1) by (subst t1 w1; reflexivity).
  assert (Hpc : pc w1 = MReset) by (subst w1; reflexivity).
  destruct (async_waitgroup_counts_goroutines (HO := test_host "POOLED" 1)
              [test_config "orders" "Async" "Raw"] (take 16 late_decrement)
              t1 0 w1 Hsteps Hw)
    as (Hwg & _ & _ & Hreset); [reflexivity | reflexivity | reflexivity |].
  exists w1. split.
  - unfold first_worker_after, one_handler, no_handlers.
    rewrite Hsteps. exact Hw.
  - split; [reflexivity|].
    split; [exact Hpc|]. split; [rewrite Hwg; reflexivity|].
    exact (proj1 (Hreset Hpc)).
Defined.

Lemma consumer_obtained_once_witness :
  exists t t' w',
    steps connect (one_handler "DIRECT" 5 "Sync") = Some t /\
    steps stop_and_restart t = Some t' /\
    handlers t' !! 0%nat = Some w' /\
    extras w' = [] /\
    consumer (hd w') = Some 0%nat /\ subscribe_calls w' = 1%nat.
Proof.
  evar (t1 : Trigger (BT := test_broker_types) (HT := test_host_types)).
  assert (H1 : steps connect
                 (fst (Initialize {| handlers := []; coord := CIdle |}
                         [test_config "orders" "Sync" "Raw"])) = Some t1)
    by (subst t1; vm_compute; reflexivity).
  evar (w1 : Worker (BT := test_broker_types) (HT := test_host_types)).
  assert (Hw : handlers t1 !! 0%nat = Some w1) by (subst t1 w1; reflexivity).
  evar (t2 : Trigger (BT := test_broker_types) (HT := test_host_types)).
  assert (H2 : steps stop_and_restart t1 = Some t2)
    by (subst t1 t2; vm_compute; reflexivity).
  assert (Hc : consumer (hd w1) = Some 0%nat) by (subst w1; reflexivity).
  evar (w2 : Worker (BT := test_broker_types) (HT := test_host_types)).
  assert (Hw2 : handlers t2 !! 0%nat = Some w2) by (subst t2 w2; reflexivity).
  destruct (consumer_obtained_once [test_config "orders" "Sync" "Raw"]
              connect stop_and_restart t1 t2 0 w1 0%nat H1 Hw Hc H2)
    as (w' & Hw' & Hkeep).
  assert (w' = w2) by congruence. subst w'.
  destruct (Hkeep eq_refl) as [Hc' Hn].
  exists t1, t2, w2. split; [exact H1|]. split; [exact H2|].
  split; [exact Hw'|]. split; [reflexivity|].
  split; [exact Hc'|]. rewrite Hn. reflexivity.
Defined.

(** With two consume goroutines the consumer is not kept: both call
    [GetSubscriber], and the assignment of the second replaces the
    consumer the first is already receiving from. *)
Lemma second_goroutine_replaces_consumer :
  let t0 := one_handler "DIRECT" 5 "Sync" in
  (w ← first_worker_after (take 8 subscribed_twice) t0;
   Some (pc w, extras w, consumer (hd w), subscribe_calls w))
  = Some (MSelect, [MAssign (Some 1%nat) None], Some 0%nat, 2%nat) /\
  (w ← first_worker_after subscribed_twice t0;
   Some (pc w, extras w, consumer (hd w), subscribe_calls w))
  = Some (MSelect, [MConnect], Some 1%nat, 2%nat).
Proof. split; vm_compute; reflexivity. Qed.

(** And a consume goroutine can be past the retry loop, at its select,
    while the handler has no consumer: the other goroutine has assigned
    the nil consumer of a refused call after it. *)
Lemma second_goroutine_removes_consumer :
  (w ← first_worker_after (BR := refusing_broker 1) refused_late
         (one_handler "DIRECT" 5 "Sync");
   Some (pc w, extras w, consumer (hd w), subscribe_calls w))
  = Some (MSelect, [MBackoff], None, 2%nat).
Proof. vm_compute; reflexivity. Qed.

Lemma send_to_stopped_worker_blocks_witness :
  exists t t',
    steps [CallPause] (one_handler "DIRECT" 5 "Sync") = Some t /\
    steps [AtWorker 0 (Arrive (Some (message "one")))] t = Some t' /\
    coord t' = CPauseSend 0 /\
    pc <$> handlers t' !! 0%nat = Some MNotStarted.
Proof.
  evar (t1 : Trigger (BT := test_broker_types) (HT := test_host_types)).
  assert (H1 : steps [CallPause] (one_handler "DIRECT" 5 "Sync") = Some t1)
    by (subst t1; vm_compute; reflexivity).
  evar (w1 : Worker (BT := test_broker_types) (HT := test_host_types)).
  assert (Hw : handlers t1 !! 0%nat = Some w1) by (subst t1 w1; reflexivity).
  evar (t2 : Trigger (BT := test_broker_types) (HT := test_host_types)).
  assert (H2 : steps [AtWorker 0 (Arrive (Some (message "one")))] t1 = Some t2)
    by (subst t1 t2; vm_compute; reflexivity).
  destruct (send_to_stopped_worker_blocks
              [AtWorker 0 (Arrive (Some (message "one")))] t1 t2 0 w1
              (or_introl eq_refl) Hw eq_refl H2)
    as (Hco & w' & Hw' & Hpc).
  exists t1, t2. split; [exact H1|]. split; [exact H2|].
  split; [rewrite Hco; reflexivity|]. rewrite Hw'; simpl. rewrite Hpc.
  reflexivity.
Defined.


Lemma Msgid_is_fixed_width_and_injective_witness :
  String.length (Msgid (output_of (message "one") (VString "one"))) = 4%nat /\
  event_id (context_of (message "one")
              (output_of (message "one") (VString "one")))
  = Some "0801".
Proof.
  destruct (Msgid_is_fixed_width_and_injective
              (message "one") (message "two") (VString "one") (VString "two")
              [x08; x01] [x08; x01] eq_refl eq_refl)
    as (Hlen & _ & _ & Hid).
  split; [exact Hlen|]. apply Hid. discriminate.
Defined.

Lemma sync_worker_has_no_goroutines_witness :
  exists w,
    first_worker_after (HO := test_host "DIRECT" 5) two_in_a_row
      (one_handler "DIRECT" 5 "Sync") = Some w /\
    length (events w) = 3%nat /\
    tasks w = [] /\ wg (hd w) = 0 /\ currentMsgCount (hd w) = 0.
Proof.
  evar (t1 : Trigger (BT := test_broker_types) (HT := test_host_types)).
  assert (Hsteps :
            steps (HO := test_host "DIRECT" 5) two_in_a_row
              (fst (Initialize (HO := test_host "DIRECT" 5)
                      {| handlers := []; coord := CIdle |}
                      [test_config "orders" "Sync" "Raw"]))
            = Some t1)
    by (subst t1; vm_compute; reflexivity).
  evar (w1 : Worker (BT := test_broker_types) (HT := test_host_types)).
  assert (Hw : handlers t1 !! 0%nat = Some w1) by (subst t1 w1; reflexivity).
  destruct (sync_worker_has_no_goroutines (HO := test_host "DIRECT" 5)
              [test_config "orders" "Sync" "Raw"] two_in_a_row t1 0 w1
              Hsteps Hw)
    as (Ht & _ & Hwg & Hcnt); [reflexivity|].
  exists w1. split.
  - unfold first_worker_after, one_handler, no_handlers.
    rewrite Hsteps. exact Hw.
  - split; [subst w1; reflexivity|]. auto.
Defined.

Lemma decode_raw_keeps_the_bytes_witness :
  exists s,
    decode (hd (one_worker "Sync" "Raw")) (message "{not json") = DecodedAs (VString s) /\
    list_byte_of_string s = list_byte_of_string "{not json".
Proof.
  apply (decode_raw_keeps_the_bytes
           (hd (one_worker "Sync" "Raw")) (message "{not json")).
  right; right. exists "Raw". split; [reflexivity | discriminate].
Defined.

End MoreRuns.

Section ManagerRuns.
Import Manager.
Local Open Scope list_scope.
#[local] Existing Instance test_os.

Lemma getBytesFromFileSetting_cases_witness :
  getBytesFromFileSetting {[ "content" := VString "" ]} = Ok None /\
  (exists what,
     getBytesFromFileSetting {[ "content" := VInt 1 ]} = Panic what) /\
  getBytesFromFileSetting {[ "content" := VString "data:;CA" ]}
  = Err "internal error; file based setting not formatted correctly".
Proof.
  split; [|split].
  - exact (proj1 (proj2 (getBytesFromFileSetting_cases
                           {[ "content" := VString "" ]})) eq_refl).
  - apply (proj1 (getBytesFromFileSetting_cases
                    {[ "content" := VInt 1 ]})).
    intros value H. vm_compute in H. discriminate H.
  - exact (proj2 (proj2 (getBytesFromFileSetting_cases
                           {[ "content" := VString "data:;CA" ]}))
             "data:;CA" eq_refl ltac:(discriminate)).
Defined.

Lemma createTempKeystoreDir_stages_file_values_witness :
  exists s fs',
    MapToStruct file_settings = inl s /\
    createTempKeystoreDir s (disk fresh_world)
    = (Returns ("/tmp/pulsar1", None), fs') /\
    In "/tmp/pulsar1" (fs_dirs fs') /\
    same_outside "/tmp/pulsar1" (disk fresh_world) fs' /\
    fs_files fs' !! "/tmp/pulsar1/certfile.pem"
    = Some (list_byte_of_string "CERT").
Proof.
  evar (s1 : Settings).
  assert (Hs : MapToStruct file_settings = inl s1)
    by (subst s1; vm_compute; reflexivity).
  evar (fs1 : FileSystem).
  assert (Hk : createTempKeystoreDir s1 (disk fresh_world)
               = (Returns ("/tmp/pulsar1", None), fs1))
    by (subst s1 fs1; vm_compute; reflexivity).
  destruct (createTempKeystoreDir_stages_file_values
              s1 (disk fresh_world) fs1 "/tmp/pulsar1" Hk ltac:(discriminate))
    as (_ & Hin & Hso & _ & Hc).
  exists s1, fs1. split; [exact Hs|]. split; [exact Hk|].
  split; [exact Hin|]. split; [exact Hso|].
  subst s1. unfold staged_files in Hc.
  apply Forall_cons in Hc as [_ Hc]. apply Forall_cons in Hc as [Hcert _].
  eapply Hcert; [discriminate | reflexivity | reflexivity].
Defined.

Lemma createTempKeystoreDir_plain_value_removes_dir_witness :
  exists s fs',
    MapToStruct mixed_settings = inl s /\
    createTempKeystoreDir s (disk fresh_world) = (Returns ("", None), fs') /\
    nothing_below "/tmp/pulsar1" fs' /\
    same_outside "/tmp/pulsar1" (disk fresh_world) fs'.
Proof.
  evar (s1 : Settings).
  assert (Hs : MapToStruct mixed_settings = inl s1)
    by (subst s1; vm_compute; reflexivity).
  evar (fs1 : FileSystem).
  assert (Hk : createTempKeystoreDir s1 (disk fresh_world)
               = (Returns ("", None), fs1))
    by (subst s1 fs1; vm_compute; reflexivity).
  assert (Htd : temp_dir (disk fresh_world) = inl "/tmp/pulsar1")
    by reflexivity.
  destruct (createTempKeystoreDir_plain_value_removes_dir
              s1 (disk fresh_world) fs1 "/tmp/pulsar1"
              Htd ltac:(discriminate) Hk)
    as [[Hnone _]|(_ & Hnb & Hso)].
  - exfalso. subst s1. unfold staged_files in Hnone.
    apply Forall_cons in Hnone as [_ Hnone].
    apply Forall_cons in Hnone as [Hcert _]. discriminate Hcert.
  - exists s1, fs1. auto.
Defined.

Lemma NewManager_survives_client_failure_witness :
  exists p w' sh m,
    NewManager (BR := manager_broker 1) file_settings fresh_world
    = (Returns (Some p, None), w') /\
    client p = None /\ connected p = false /\
    Connection.Connect (BR := manager_broker 1) (shared_of w')
      (GetConnection p) = Some (sh, m, None) /\
    Connection.pcm_Client m = Some 1%nat /\
    Connection.pcm_Connected m = true /\
    Connection.clients_created sh = 2%nat.
Proof.
  evar (s1 : Settings).
  assert (Hs : MapToStruct file_settings = inl s1)
    by (subst s1; vm_compute; reflexivity).
  evar (fs1 : FileSystem).
  assert (Hk : createTempKeystoreDir s1 (disk fresh_world)
               = (Returns ("/tmp/pulsar1", None), fs1))
    by (subst s1 fs1; vm_compute; reflexivity).
  destruct (NewManager_survives_client_failure (BR := manager_broker 1)
              file_settings fresh_world s1 "/tmp/pulsar1" fs1 Hs Hk)
    as (p & Hn & _ & _ & Hc & Hconn & _ & Hretry).
  assert (Hfalse : connected p = false).
  { destruct (connected p); [|reflexivity].
    pose proof (proj1 Hconn eq_refl) as H. discriminate H. }
  eexists p, _, _, _. split; [exact Hn|]. split; [exact Hc|].
  split; [exact Hfalse|]. split; [apply (Hretry Hfalse (Some 1%nat)); reflexivity|].
  repeat split.
Defined.

Lemma NewManager_error_leaves_directory_witness :
  exists w',
    NewManager (BR := manager_broker 0) broken_settings fresh_world
    = (Returns (None,
                Some "internal error; file based setting not formatted correctly"),
       w') /\
    clients_created w' = 0%nat /\
    In "/tmp/pulsar1" (fs_dirs (disk w')) /\
    same_outside "/tmp/pulsar1" (disk fresh_world) (disk w').
Proof.
  evar (s1 : Settings).
  assert (Hs : MapToStruct broken_settings = inl s1)
    by (subst s1; vm_compute; reflexivity).
  evar (w1 : World).
  assert (Hn : NewManager (BR := manager_broker 0) broken_settings fresh_world
               = (Returns (None,
                           Some "internal error; file based setting not formatted correctly"),
                  w1))
    by (subst w1; vm_compute; reflexivity).
  destruct (NewManager_error_leaves_directory (BR := manager_broker 0)
              broken_settings fresh_world w1 s1 None _ Hs Hn)
    as (_ & Hcount & [[Htd _]|(d & Htd & Hin & Hso)]).
  - discriminate Htd.
  - injection Htd as <-. exists w1. auto.
Defined.

Lemma NewManager_then_Stop_cleans_up_witness :
  exists p w',
    NewManager (BR := manager_broker 0) file_settings fresh_world
    = (Returns (Some p, None), w') /\
    In "/tmp/pulsar1" (fs_dirs (disk w')) /\
    nothing_below "/tmp/pulsar1" (snd (Stop p (disk w'))) /\
    same_outside "/tmp/pulsar1" (disk fresh_world) (snd (Stop p (disk w'))).
Proof.
  evar (s1 : Settings).
  assert (Hs : MapToStruct file_settings = inl s1)
    by (subst s1; vm_compute; reflexivity).
  evar (p1 : PulsarConnection (TClient := nat)).
  evar (w1 : World).
  assert (Hn : NewManager (BR := manager_broker 0) file_settings fresh_world
               = (Returns (Some p1, None), w1))
    by (subst p1 w1; vm_compute; reflexivity).
  assert (Hne : temp_dir (disk fresh_world) <> inl ""%string)
    by (vm_compute; discriminate).
  destruct (NewManager_then_Stop_cleans_up (BR := manager_broker 0)
              file_settings fresh_world w1 s1 p1 Hne Hs Hn)
    as (_ & _ & Hgiven).
  destruct Hgiven as (d & Htd & Hnb & Hso).
  - subst s1. unfold staged_files. intros HF.
    apply Forall_cons in HF as [Hca _]. discriminate Hca.
  - injection Htd as <-. exists p1, w1. split; [exact Hn|].
    split; [subst w1; left; reflexivity|]. auto.
Defined.

Lemma NewManager_options_name_staged_files_witness :
  exists p w',
    NewManager (BR := manager_broker 0) file_settings fresh_world
    = (Returns (Some p, None), w') /\
    fs_files (disk w') !! o_TLSTrustCertsFilePath (clientOpts p)
    = Some (list_byte_of_string "CA") /\
    exists cert key,
      o_Authentication (clientOpts p) = Some (NewAuthenticationTLS cert key) /\
      fs_files (disk w') !! key = Some (list_byte_of_string "KEY").
Proof.
  evar (s1 : Settings).
  assert (Hs : MapToStruct file_settings = inl s1)
    by (subst s1; vm_compute; reflexivity).
  evar (p1 : PulsarConnection (TClient := nat)).
  evar (w1 : World).
  assert (Hn : NewManager (BR := manager_broker 0) file_settings fresh_world
               = (Returns (Some p1, None), w1))
    by (subst p1 w1; vm_compute; reflexivity).
  destruct (NewManager_options_name_staged_files (BR := manager_broker 0)
              file_settings fresh_world w1 s1 p1 Hs Hn)
    as (Htls & Hca & _); [subst p1; discriminate|].
  exists p1, w1. split; [exact Hn|]. split.
  - eapply Hca; try reflexivity.
    + subst s1. vm_compute. eauto.
    + subst s1. discriminate.
  - destruct Htls as (cert & key & Ha & _ & Hkey); [reflexivity|].
    exists cert, key. split; [exact Ha|].
    eapply Hkey; [subst s1; discriminate | reflexivity | reflexivity].
Defined.

Lemma NewManager_plain_paths_witness :
  (exists p w',
     NewManager (BR := manager_broker 0) mixed_settings fresh_world
     = (Returns (Some p, None), w') /\
     o_Authentication (clientOpts p)
     = Some (NewAuthenticationTLS "/etc/pulsar/cert.pem" "{data:;base64,KEY")) /\
  (exists p w' params,
     NewManager (BR := manager_broker 0) oauth_settings fresh_world
     = (Returns (Some p, None), w') /\
     o_Authentication (clientOpts p) = Some (NewAuthenticationOAuth2 params) /\
     params !! "privateKey" = Some "/privateKey.json").
Proof.
  split.
  - evar (s1 : Settings).
    assert (Hs : MapToStruct mixed_settings = inl s1)
      by (subst s1; vm_compute; reflexivity).
    evar (p1 : PulsarConnection (TClient := nat)).
    evar (w1 : World).
    assert (Hn : NewManager (BR := manager_broker 0) mixed_settings fresh_world
                 = (Returns (Some p1, None), w1))
      by (subst p1 w1; vm_compute; reflexivity).
    destruct (NewManager_plain_paths (BR := manager_broker 0)
                mixed_settings fresh_world w1 s1 p1 Hs Hn)
      as (Htls & _); [reflexivity|].
    exists p1, w1. split; [exact Hn|]. apply Htls. reflexivity.
  - evar (s1 : Settings).
    assert (Hs : MapToStruct oauth_settings = inl s1)
      by (subst s1; vm_compute; reflexivity).
    evar (p1 : PulsarConnection (TClient := nat)).
    evar (w1 : World).
    assert (Hn : NewManager (BR := manager_broker 0) oauth_settings fresh_world
                 = (Returns (Some p1, None), w1))
      by (subst p1 w1; vm_compute; reflexivity).
    destruct (NewManager_plain_paths (BR := manager_broker 0)
                oauth_settings fresh_world w1 s1 p1 Hs Hn)
      as (_ & _ & Hoauth); [reflexivity|].
    destruct Hoauth as (params & Ha & Hp); [reflexivity|].
    exists p1, w1, params. split; [exact Hn|]. split; [exact Ha | exact Hp].
Defined.

End ManagerRuns.

Section EvalRuns.
Import PublishEval.
Local Open Scope list_scope.
#[local] Existing Instances test_broker_types test_producer_types.

Lemma Eval_not_done_witness :
  exists st',
    Eval (HO := test_eval_host 1) (test_ctx "hello" "") new_activity
    = (Manager.Returns (false, Some "connection refused", None), st') /\
    producer st' = None /\
    producers_made st' = 1%nat /\
    producerOpts_Name st' = "app-1.0.0-flow-publish-host" /\
    sent st' = [].
Proof.
  evar (st1 : State (BT := test_broker_types) (PT := test_producer_types)).
  assert (He : Eval (HO := test_eval_host 1) (test_ctx "hello" "") new_activity
               = (Manager.Returns (false, Some "connection refused", None), st1))
    by (subst st1; vm_compute; reflexivity).
  destruct (Eval_not_done (HO := test_eval_host 1) _ _ _ _ _ He)
    as (_ & _ & _ & Hg & Hm & Hn & Hs & _).
  exists st1. split; [exact He|].
  split; [subst st1; reflexivity|].
  split; [rewrite Hm; reflexivity|].
  split; [rewrite Hn; reflexivity | rewrite Hs; reflexivity].
Defined.

Lemma Eval_success_witness :
  exists st' pr msg,
    Eval (HO := test_eval_host 0) (test_ctx "hello" "") new_activity
    = (Manager.Returns (true, None, Some "0801"), st') /\
    sent st' = [(pr, msg)] /\
    is_Some (pm_Properties msg) /\
    pm_Key msg = "".
Proof.
  evar (st1 : State (BT := test_broker_types) (PT := test_producer_types)).
  assert (He : Eval (HO := test_eval_host 0) (test_ctx "hello" "") new_activity
               = (Manager.Returns (true, None, Some "0801"), st1))
    by (subst st1; vm_compute; reflexivity).
  destruct (Eval_success (HO := test_eval_host 0) _ _ _ _ _ He)
    as (_ & pr & input & msg & id & _ & Hi & _ & Hs & _ & Hprops & _ & Hkey).
  exists st1, pr, msg. split; [exact He|].
  split; [rewrite Hs; reflexivity|]. split; [exact Hprops|].
  apply Hkey. vm_compute in Hi. injection Hi as <-. reflexivity.
Defined.

Lemma producer_made_once_witness :
  exists st st',
    call (HO := test_eval_host 0) (CallEval (test_ctx "one" "")) new_activity
    = Some st /\
    calls (HO := test_eval_host 0)
      [CallCleanup; CallEval (test_ctx "two" ""); CallCleanup;
       CallEval (test_ctx "three" "reject")] st = Some st' /\
    producer st' = Some 0%nat /\ producers_made st' = 1%nat /\
    closed st' = [0%nat; 0%nat] /\
    fst <$> sent st' = [0%nat; 0%nat; 0%nat].
Proof.
  evar (st1 : State (BT := test_broker_types) (PT := test_producer_types)).
  assert (H1 : call (HO := test_eval_host 0) (CallEval (test_ctx "one" ""))
                 new_activity = Some st1)
    by (subst st1; vm_compute; reflexivity).
  evar (st2 : State (BT := test_broker_types) (PT := test_producer_types)).
  assert (H2 : calls (HO := test_eval_host 0)
                 [CallCleanup; CallEval (test_ctx "two" ""); CallCleanup;
                  CallEval (test_ctx "three" "reject")] st1 = Some st2)
    by (subst st1 st2; vm_compute; reflexivity).
  assert (Hp : producer st1 = Some 0%nat) by (subst st1; reflexivity).
  destruct (producer_made_once (HO := test_eval_host 0) _ st1 st2 0%nat Hp H2)
    as (Hp' & Hm & _ & _ & _ & Hc).
  exists st1, st2. split; [exact H1|]. split; [exact H2|].
  split; [exact Hp'|]. split; [rewrite Hm; subst st1; reflexivity|].
  split; [rewrite Hc; subst st1; reflexivity|].
  subst st2. reflexivity.
Defined.

End EvalRuns.
